(** * cms-ipxe: the iPXE binary builder and its liveness timestamp

    A shallow embedding of [crayipxe/liveness/ipxe_timestamp.py],
    [crayipxe/liveness/__main__.py], [crayipxe/tokens.py] and
    [crayipxe/builder.py], and the properties of the design document
    stated over it.

    Conventions of the embedding.
    - Python code that reads the clock, the file system or a remote
      service is a computation in a state-and-exception monad [M S]:
      it takes the state and returns a result, normal ([Ok]) or raised
      ([Raise]), with the state reached. Mutations made before an
      exception is raised are kept, as in Python.
    - Points in time and durations are integers, in microseconds, the
      resolution of Python's [datetime] and [timedelta], which the
      timestamp code compares; the floats of the JSON file and of
      [time.time()] stand for these integers.
    - The wall clock is a sequence of readings: every call of
      [datetime.datetime.now()] or [time.time()] consumes the next one.
    - YAML booleans are the integers 1 and 0 ([bool] is a subclass of
      [int]: they compare equal and have the same truth value). The
      settings are a mapping from strings to [None], integers and
      strings; keys and values of other types are left out, and what
      is stated of a value names the form it has.
    - The liveness store holds JSON objects: what [json.dump] writes,
      [json.load] reads back. The other files hold text, written as it
      is and read in Python's text mode, which turns every carriage
      return, with the line feed that follows it if one does, into a
      line feed.
    - The machine keeps a trace of what the process does to the outside:
      remote calls, toolchain runs, moved and removed files, refreshes
      of the build marker, sleeps and log records (with the message as
      written in the source, unformatted; records of level DEBUG are
      left out). The code never reads the trace; the properties do.
    - Directories, the working directory and the start of the heartbeat
      thread are not modelled: distinct paths name distinct files, no
      directory is in the way of a file and none is missing, so that
      all that is left of [os.makedirs] is its refusal of the empty
      name. Each [while True] loop is cut after a given number of
      rounds. *)

From Stdlib Require Import ZArith Lia Ascii String.
From stdpp Require Import base option list strings gmap pretty.

Local Open Scope string_scope.
Local Open Scope Z_scope.

(** ** Exceptions and the monad *)

Inductive exn : Type :=
  | TypeError
  | KeyError
  | ValueError
  | AttributeError
  | AssertionError
  | FileNotFoundError
  | ApiException
  | CalledProcessError (returncode : Z)
  | ipxeTimestampNoEnt
  | SystemExit (code : Z).

Global Instance exn_eq_dec : EqDecision exn.
Proof. solve_decision. Defined.

Inductive result (A : Type) : Type :=
  | Ok (a : A)
  | Raise (e : exn).
Arguments Ok {A} a.
Arguments Raise {A} e.

Definition M (S A : Type) : Type := S → result A * S.

Global Instance M_ret {S} : MRet (M S) := λ A a s, (Ok a, s).
Global Instance M_bind {S} : MBind (M S) := λ A B f m s,
  match m s with
  | (Ok a, s') => f a s'
  | (Raise e, s') => (Raise e, s')
  end.

Definition raise {S A} (e : exn) : M S A := λ s, (Raise e, s).
Definition gets {S A} (f : S → A) : M S A := λ s, (Ok (f s), s).
Definition modify {S} (f : S → S) : M S unit := λ s, (Ok tt, f s).

(** The state a computation leaves. *)
Definition exec {S A} (m : M S A) (s : S) : S := (m s).2.

(** [try: m except h]: run [m]; an exception [e] for which [h e] is a
    handler is caught, the others propagate. *)
Definition try_except {S A} (m : M S A) (h : exn → option (M S A)) : M S A :=
  λ s, match m s with
       | (Ok a, s') => (Ok a, s')
       | (Raise e, s') =>
           match h e with
           | Some k => k s'
           | None => (Raise e, s')
           end
       end.

(** ** The world outside the process *)

(** A value of the JSON timestamp file: [null] or a number. *)
Inductive jval : Type :=
  | JNull
  | JNum (us : Z).

Global Instance jval_eq_dec : EqDecision jval.
Proof. solve_decision. Defined.

(** A scalar of a YAML mapping or of a decoded token: [None], an
    integer or a string. *)
Inductive pyval : Type :=
  | PNone
  | PInt (n : Z)
  | PStr (s : string).

Global Instance pyval_eq_dec : EqDecision pyval.
Proof. solve_decision. Defined.

(** Python's truth test. *)
Definition truthy (v : pyval) : bool :=
  match v with
  | PNone => false
  | PInt n => negb (n =? 0)
  | PStr s => negb (String.eqb s "")
  end.

Definition PTrue : pyval := PInt 1.
Definition PFalse : pyval := PInt 0.

(** The remote artifacts a builder reads. *)
Inductive artifact : Type :=
  | ASettings
  | ACert
  | ABssScript (configmap : string)
  | ADebugScript
  | AS3Host
  | AToken (host : pyval).

Global Instance artifact_eq_dec : EqDecision artifact.
Proof. solve_decision. Defined.

(** What the process does to the outside: a remote call for an
    artifact, a toolchain run of a flavor with its exit status,
    [os.unlink], [shutil.move], [refresh_build], [time.sleep] (in
    seconds), [os.utime] and a log record. *)
Inductive event : Type :=
  | EvFetch (a : artifact)
  | EvMake (debug : bool) (returncode : Z)
  | EvUnlink (path : string)
  | EvMove (src dst : string)
  | EvRefreshBuild
  | EvSleep (seconds : Z)
  | EvUtime (path : string)
  | EvLog (level message : string).

Global Instance event_eq_dec : EqDecision event.
Proof. solve_decision. Defined.

(** The services, the clock and the toolchain, which the process only
    observes:
    - [clock n] is the n-th reading of the wall clock;
    - [api_settings] is the value of
      [safe_load(read_namespaced_config_map('cray-ipxe-settings',
      'services').data['settings.yaml'])], a mapping, [None] for an
      empty document, or the exception the call raises; the other
      [api_] fields likewise for the expression each property
      evaluates: the certificate, the BSS script of a configmap, the
      parsed debug script, the host name of the S3 endpoint;
    - [oauth_token host] is what [session.fetch_token] returns for the
      token URL of a host: [None] for a false reply, else the
      ['access_token'] of the reply, if it has one;
    - [jwt_decode] is [jwt.decode] without signature verification: the
      claims of a token, [None] when the library raises;
    - [make_exit n] is the exit status of the n-th toolchain run and
      [make_files n] what it does to the files. *)
Record outside : Type := Outside {
  clock : nat → Z;
  api_settings : result (option (gmap string pyval));
  api_cert : result string;
  api_bss : string → result (option string);
  api_debug_script : result (option string);
  api_s3_host : result (option string);
  oauth_token : pyval → result (option (option string));
  jwt_decode : string → option (gmap string pyval);
  make_exit : nat → Z;
  make_files : nat → gmap string string → gmap string string
}.

(** The state of the machine the process runs on: the number of clock
    readings taken, the JSON files of the liveness store, the text
    files, the number of temporary files created, the number of
    toolchain runs, and the trace of events. *)
Record world : Type := World {
  env : outside;
  ticks : nat;
  tsfiles : gmap string (gmap string jval);
  files : gmap string string;
  tmp_count : nat;
  make_calls : nat;
  trace : list event
}.

Definition set_env (o : outside) (w : world) : world :=
  World o (ticks w) (tsfiles w) (files w) (tmp_count w) (make_calls w) (trace w).
Definition set_ticks (n : nat) (w : world) : world :=
  World (env w) n (tsfiles w) (files w) (tmp_count w) (make_calls w) (trace w).
Definition set_tsfiles (t : gmap string (gmap string jval)) (w : world) : world :=
  World (env w) (ticks w) t (files w) (tmp_count w) (make_calls w) (trace w).
Definition set_files (f : gmap string string) (w : world) : world :=
  World (env w) (ticks w) (tsfiles w) f (tmp_count w) (make_calls w) (trace w).
Definition set_tmp_count (n : nat) (w : world) : world :=
  World (env w) (ticks w) (tsfiles w) (files w) n (make_calls w) (trace w).
Definition set_make_calls (n : nat) (w : world) : world :=
  World (env w) (ticks w) (tsfiles w) (files w) (tmp_count w) n (trace w).
Definition set_trace (t : list event) (w : world) : world :=
  World (env w) (ticks w) (tsfiles w) (files w) (tmp_count w) (make_calls w) t.

Definition emit (e : event) : M world unit :=
  modify (λ w, set_trace (trace w ++ [e])%list w).

Definition log (level message : string) : M world unit :=
  emit (EvLog level message).

Definition time_sleep (seconds : Z) : M world unit :=
  emit (EvSleep seconds).

(** [datetime.datetime.now()] and [time.time()]: the next reading. *)
Definition datetime_now : M world Z :=
  λ w, (Ok (clock (env w) (ticks w)), set_ticks (S (ticks w)) w).

(** ** Paths and text files *)

(** The characters of a string, last first, from its last slash on. *)
Fixpoint from_slash (l : list ascii) : list ascii :=
  match l with
  | [] => []
  | c :: l' => if Ascii.eqb c "/"%char then l else from_slash l'
  end.

Fixpoint without_slashes (l : list ascii) : list ascii :=
  match l with
  | [] => []
  | c :: l' => if Ascii.eqb c "/"%char then without_slashes l' else l
  end.

(** [os.path.dirname]: what precedes the last slash, with that slash
    and the slashes before it only when nothing else precedes them. *)
Definition dirname (p : string) : string :=
  let head := from_slash (rev (list_ascii_of_string p)) in
  match without_slashes head with
  | [] => string_of_list_ascii (rev head)
  | stripped => string_of_list_ascii (rev stripped)
  end.

(** [os.makedirs(name)] under [except FileExistsError: pass]: the empty
    name is refused; any other names a directory that is there
    afterwards. *)
Definition makedirs {S} (name : string) : M S unit :=
  if String.eqb name "" then raise FileNotFoundError else mret tt.

(** What Python's text mode makes of the content of a file that is
    read: ["\r\n"] and ["\r"] become ["\n"]. *)
Fixpoint universal_newlines (s : string) : string :=
  match s with
  | EmptyString => EmptyString
  | String c s' =>
      if Ascii.eqb c "013"%char then
        match s' with
        | String c' s'' =>
            if Ascii.eqb c' "010"%char
            then String "010"%char (universal_newlines s'')
            else String "010"%char (universal_newlines s')
        | EmptyString => String "010"%char EmptyString
        end
      else String c (universal_newlines s')
  end.

(** ** ipxe_timestamp.py *)

Definition LIVENESS_PATH : string := "/tmp/ipxe_build_in_progress".

(** An [ipxeTimestamp] object holds nothing but its path. *)
Record ipxeTimestamp : Type := Timestamp { path : string }.

(** The record a missing file reads as. *)
Definition no_data : gmap string jval :=
  {[ "timestamp" := JNull; "max_age" := JNull; "last_build" := JNull ]}.

Module ipxeTimestamp.

(** [__init__(path, max_age, when=None)]: the directory of the path is
    made, then the record is written at once, over any file already
    there. *)
Definition init (p : string) (max_age : Z) (when : option Z) : M world ipxeTimestamp :=
  makedirs (dirname p) ;;
  timestamp ← match when with
              | None => datetime_now
              | Some t => mret t
              end;
  modify (λ w, set_tsfiles
    (<[p := {[ "timestamp" := JNum timestamp;
               "max_age" := JNum max_age;
               "last_build" := JNull ]} ]> (tsfiles w)) w) ;;
  mret (Timestamp p).

(** [byref(path)]: a handle on an existing file, which is not touched. *)
Definition byref (p : string) : M world ipxeTimestamp :=
  ex ← gets (λ w, bool_decide (is_Some (tsfiles w !! p)));
  if (ex : bool) then mret (Timestamp p) else raise ipxeTimestampNoEnt.

(** The [_data] property: parsed from disk at every use; a missing file
    reads as the record with every field [None]. *)
Definition _data (self : ipxeTimestamp) : M world (gmap string jval) :=
  gets (λ w, match tsfiles w !! path self with
             | Some d => d
             | None => no_data
             end).

Definition _data_set (self : ipxeTimestamp) (d : gmap string jval) : M world unit :=
  modify (λ w, set_tsfiles (<[path self := d]> (tsfiles w)) w).

(** [float(d[key])]: [KeyError] for a missing key, [TypeError] for
    [None]. *)
Definition float_of_key (d : gmap string jval) (key : string) : M world Z :=
  match d !! key with
  | None => raise KeyError
  | Some JNull => raise TypeError
  | Some (JNum x) => mret x
  end.

(** [value]: only [KeyError] is caught. *)
Definition value (self : ipxeTimestamp) : M world (option Z) :=
  try_except
    (d ← _data self; t ← float_of_key d "timestamp"; mret (Some t))
    (λ e, match e with KeyError => Some (mret None) | _ => None end).

(** The setters take "now" for a false [when] ([None] or zero). *)
Definition value_set (self : ipxeTimestamp) (when : option Z) : M world unit :=
  when ← match when with
          | Some t => if t =? 0 then datetime_now else mret t
          | None => datetime_now
          end;
  d ← _data self;
  _data_set self (<["timestamp" := JNum when]> d).

(** [last_build]: [KeyError] and [TypeError] are caught. *)
Definition last_build (self : ipxeTimestamp) : M world (option Z) :=
  try_except
    (d ← _data self; t ← float_of_key d "last_build"; mret (Some t))
    (λ e, match e with
          | KeyError | TypeError => Some (mret None)
          | _ => None
          end).

Definition last_build_set (self : ipxeTimestamp) (when : option Z) : M world unit :=
  when ← match when with
          | Some t => if t =? 0 then datetime_now else mret t
          | None => datetime_now
          end;
  d ← _data self;
  _data_set self (<["last_build" := JNum when]> d).

(** [value_age]: [now() - self.value]; [None] cannot be subtracted. *)
Definition value_age (self : ipxeTimestamp) : M world Z :=
  now ← datetime_now;
  v ← value self;
  match v with
  | Some t => mret (now - t)
  | None => raise TypeError
  end.

(** [last_build_age]: [None] stands for the string ['Never']. The
    property reads [self.last_build] twice. *)
Definition last_build_age (self : ipxeTimestamp) : M world (option Z) :=
  lb ← last_build self;
  match lb with
  | None => mret None
  | Some _ =>
      now ← datetime_now;
      lb' ← last_build self;
      match lb' with
      | Some t => mret (Some (now - t))
      | None => raise TypeError
      end
  end.

Definition max_age (self : ipxeTimestamp) : M world Z :=
  d ← _data self; float_of_key d "max_age".

Definition max_age_set (self : ipxeTimestamp) (val : Z) : M world unit :=
  d ← _data self;
  _data_set self (<["max_age" := JNum val]> d).

Definition max_delta (self : ipxeTimestamp) : M world Z := max_age self.

Definition expiration_date (self : ipxeTimestamp) : M world Z :=
  v ← value self;
  md ← max_delta self;
  match v with
  | Some t => mret (t + md)
  | None => raise TypeError
  end.

(** [expired]: [now() > self.expiration_date]. *)
Definition expired (self : ipxeTimestamp) : M world bool :=
  now ← datetime_now;
  e ← expiration_date self;
  mret (bool_decide (now > e)).

(** [recent_build]: the age is computed twice, once for the type test
    and once for the comparison. *)
Definition recent_build (self : ipxeTimestamp) : M world bool :=
  lba ← last_build_age self;
  match lba with
  | None => mret false
  | Some _ =>
      lba' ← last_build_age self;
      md ← max_delta self;
      match lba' with
      | Some a => mret (bool_decide (a < md))
      | None => raise TypeError
      end
  end.

(** [alive]: [any([not self.expired, self.recent_build])]; the list is
    built before [any] looks at it, so both are evaluated. *)
Definition alive (self : ipxeTimestamp) : M world bool :=
  e ← expired self;
  r ← recent_build self;
  mret (negb e || r).

Definition refresh (self : ipxeTimestamp) : M world unit :=
  now ← datetime_now;
  value_set self (Some now).

Definition refresh_build (self : ipxeTimestamp) : M world unit :=
  emit EvRefreshBuild ;;
  last_build_set self None.

Definition delete (self : ipxeTimestamp) : M world unit :=
  ex ← gets (λ w, bool_decide (is_Some (tsfiles w !! path self)));
  if (ex : bool)
  then modify (λ w, set_tsfiles (base.delete (path self) (tsfiles w)) w)
  else raise FileNotFoundError.

End ipxeTimestamp.

(** [liveliness_heartbeat(path)]: touch the record every ten seconds
    while the main thread lives; [beats] is the number of rounds at
    which the main thread is found alive. *)
Fixpoint heartbeat_loop (timestamp : ipxeTimestamp) (beats : nat) : M world unit :=
  match beats with
  | O => mret tt
  | S n =>
      ipxeTimestamp.refresh timestamp ;;
      time_sleep 10 ;;
      heartbeat_loop timestamp n
  end.

Definition liveliness_heartbeat (p : string) (beats : nat) : M world unit :=
  timestamp ← ipxeTimestamp.byref p;
  heartbeat_loop timestamp beats.

(** ** liveness/__main__.py *)

Module liveness.

Definition expired_message : string := "Timestamp %s has expired".
Definition no_data_message : string :=
  "No timestamp information has been made available yet.".

(** The body of the entry point. [sys.exit(n)] raises [SystemExit(n)],
    which the [except ipxeTimestampNoEnt] clause lets through. *)
Definition main : M world unit :=
  try_except
    (timestamp ← ipxeTimestamp.byref LIVENESS_PATH;
     a ← ipxeTimestamp.alive timestamp;
     if (a : bool) then raise (SystemExit 0)
     else log "WARNING" expired_message ;; raise (SystemExit 1))
    (λ e, match e with
          | ipxeTimestampNoEnt =>
              Some (log "WARNING" no_data_message ;; raise (SystemExit 1))
          | _ => None
          end).

End liveness.

(** The exit status of the interpreter: that of [sys.exit], 0 when the
    script runs to its end, 1 for any other exception that nobody
    caught. *)
Definition exit_status {A} (r : result A) : Z :=
  match r with
  | Ok _ => 0
  | Raise (SystemExit c) => c
  | Raise _ => 1
  end.

(** The messages logged by a run, from the trace. *)
Definition logged (t : list event) : list string :=
  omap (λ e, match e with EvLog _ m => Some m | _ => None end) t.

(** ** Python's [int()] on a string *)

(** ASCII white space, as [str.strip] removes it. *)
Definition is_space (c : ascii) : bool :=
  let n := nat_of_ascii c in
  ((9 <=? n) && (n <=? 13) || (n =? 32))%nat.

Definition digit_of (c : ascii) : option Z :=
  let n := nat_of_ascii c in
  if ((48 <=? n) && (n <=? 57))%nat then Some (Z.of_nat n - 48) else None.

Fixpoint all_space (s : string) : bool :=
  match s with
  | EmptyString => true
  | String c s' => is_space c && all_space s'
  end.

(** The digits of a literal: single underscores may separate them;
    white space may follow. [after_digit] tells whether the character
    before was a digit. *)
Fixpoint int_digits (acc : Z) (after_digit : bool) (s : string) : option Z :=
  match s with
  | EmptyString => if after_digit then Some acc else None
  | String c s' =>
      match digit_of c with
      | Some d => int_digits (10 * acc + d) true s'
      | None =>
          if negb after_digit then None
          else if Ascii.eqb c "_"%char then int_digits acc false s'
          else if all_space s then Some acc
          else None
      end
  end.

Definition int_signed (s : string) : option Z :=
  match s with
  | String "-"%char s' => Z.opp <$> int_digits 0 false s'
  | String "+"%char s' => int_digits 0 false s'
  | _ => int_digits 0 false s
  end.

Fixpoint lstrip (s : string) : string :=
  match s with
  | String c s' => if is_space c then lstrip s' else s
  | EmptyString => EmptyString
  end.

(** [int(s)] for an ASCII string [s] of no more than 4300 digits;
    [None] stands for [ValueError]. *)
Definition int_of_str (s : string) : option Z := int_signed (lstrip s).

(** [int(v)]: a number is itself, a string is parsed, [None] is a
    [TypeError]. *)
Definition py_int {S} (v : pyval) : M S Z :=
  match v with
  | PInt n => mret n
  | PStr s => match int_of_str s with
              | Some n => mret n
              | None => raise ValueError
              end
  | PNone => raise TypeError
  end.

(** ** tokens.py *)

Module tokens.

Definition TOKEN_HOST : string := "api-gw-service-nmn.local".

Definition auth_user_file : string := "/client_auth/client-id".
Definition auth_secret_file : string := "/client_auth/client-secret".

(** [fetch_token(token_host)]: the client id and secret are read from
    the mounted files, then the token endpoint is asked. A file that
    cannot be read, a false reply and a reply without an access token
    all give [None], with an error logged; the DEBUG record of a token
    obtained is not in the trace. *)
Definition fetch_token (token_host : pyval) : M world (option string) :=
  id ← gets (λ w, files w !! auth_user_file);
  match id with
  | None => log "ERROR" "Unable to read user name from %s" ;; mret None
  | Some _ =>
      secret ← gets (λ w, files w !! auth_secret_file);
      match secret with
      | None => log "ERROR" "Unable to read secret from %s" ;; mret None
      | Some _ =>
          emit (EvFetch (AToken token_host)) ;;
          reply ← gets (λ w, oauth_token (env w) token_host);
          match reply with
          | Raise e => raise e
          | Ok (Some (Some access_token)) => mret (Some access_token)
          | Ok (Some None) =>
              log "ERROR" "Unable to get an access_token for client %s" ;;
              mret None
          | Ok None =>
              log "ERROR" "Unable to get a token object for client %s" ;;
              mret None
          end
      end
  end.

(** [int(time.time())]: whole seconds, rounded towards zero. *)
Definition int_time : M world Z :=
  now ← datetime_now; mret (now `quot` 1000000).

(** [token_expiring_soon(bearer_token, min_remaining_valid_time)]; the
    records it logs at level DEBUG are not in the trace. *)
Definition token_expiring_soon (bearer_token : option string)
    (min_remaining_valid_time : pyval) : M world bool :=
  match bearer_token with
  | None => mret true
  | Some token =>
      tokenMap ← gets (λ w, jwt_decode (env w) token);
      match tokenMap with
      | None => log "ERROR" "Unable to decode JWT.  Error was %s" ;; mret true
      | Some tokenMap =>
          match default PNone (tokenMap !! "exp") with
          | PNone =>
              log "ERROR" "Unable to extract the expiration 'exp' from the JWT." ;;
              mret true
          | tokenExp =>
              tnow ← int_time;
              buffer ← py_int min_remaining_valid_time;
              match tokenExp with
              | PInt exp =>
                  let tmax := exp - buffer in
                  mret (bool_decide (tnow >= tmax))
              | _ => raise TypeError
              end
          end
      end
  end.

End tokens.

(** ** builder.py *)

Definition IPXE_BUILD_DIR : string := "/ipxe".

(** The three classes of the module. [BinaryBuilder] leaves the class
    attributes at [None] and has no [configmap_name]. *)
Inductive klass : Type := BinaryBuilder | X86Builder | Arm64builder.

Global Instance klass_eq_dec : EqDecision klass.
Proof. solve_decision. Defined.

Definition PUBLISHING_DIR : string := "/shared_tftp".

(** 600 seconds, in the unit of the clock; and 60 seconds. *)
Definition CONFIGMAP_CACHE_TIMEOUT : Z := 600 * 1000000.
Definition TIME_BETWEEN_BUILDCHECKS : Z := 60.

Definition ARCH (k : klass) : option string :=
  match k with
  | BinaryBuilder => None
  | X86Builder => Some "x86_64"
  | Arm64builder => Some "arm64"
  end.

Definition ENABLED_TAG (k : klass) : option string :=
  match k with
  | BinaryBuilder => None
  | X86Builder => Some "cray_ipxe_build_x86"
  | Arm64builder => Some "cray_ipxe_build_aarch64"
  end.

Definition ENABLED_DEBUG_TAG (k : klass) : option string :=
  match k with
  | BinaryBuilder => None
  | X86Builder => Some "cray_ipxe_debug_enabled"
  | Arm64builder => Some "cray_ipxe_aarch64_debug_enabled"
  end.

Definition BINARY_NAME_TAG (k : klass) : option string :=
  match k with
  | BinaryBuilder => None
  | X86Builder => Some "cray_ipxe_binary_name"
  | Arm64builder => Some "cray_ipxe_aarch64_binary_name"
  end.

Definition DEBUG_BINARY_NAME_TAG (k : klass) : option string :=
  match k with
  | BinaryBuilder => None
  | X86Builder => Some "cray_ipxe_debug_binary_name"
  | Arm64builder => Some "cray_ipxe_aarch64_debug_binary_name"
  end.

Definition MAKE_ADDENDUM (k : klass) : list string :=
  match k with
  | Arm64builder => ["CROSS_COMPILE=aarch64-linux-gnu-"; "ARCH=arm64"]
  | _ => []
  end.

(** The attributes of a builder object that the code assigns. *)
Record builder : Type := Builder {
  cls : klass;
  _global_settings : option (gmap string pyval);
  _global_settings_timestamp : option Z;
  _configmap_name : option string;
  _bss_script_path : option string;
  _debug_script_path : option string;
  _bearer_token : option string;
  _cert_path : option string;
  _arch_build_dir : option string;
  liveness_probe : ipxeTimestamp;
  recreation_necessary : bool
}.

Definition set_global_settings (v : option (gmap string pyval)) (b : builder) : builder :=
  Builder (cls b) v (_global_settings_timestamp b) (_configmap_name b) (_bss_script_path b) (_debug_script_path b) (_bearer_token b) (_cert_path b) (_arch_build_dir b) (liveness_probe b) (recreation_necessary b).
Definition set_global_settings_timestamp (v : option Z) (b : builder) : builder :=
  Builder (cls b) (_global_settings b) v (_configmap_name b) (_bss_script_path b) (_debug_script_path b) (_bearer_token b) (_cert_path b) (_arch_build_dir b) (liveness_probe b) (recreation_necessary b).
Definition set_configmap_name (v : option string) (b : builder) : builder :=
  Builder (cls b) (_global_settings b) (_global_settings_timestamp b) v (_bss_script_path b) (_debug_script_path b) (_bearer_token b) (_cert_path b) (_arch_build_dir b) (liveness_probe b) (recreation_necessary b).
Definition set_bss_script_path (v : option string) (b : builder) : builder :=
  Builder (cls b) (_global_settings b) (_global_settings_timestamp b) (_configmap_name b) v (_debug_script_path b) (_bearer_token b) (_cert_path b) (_arch_build_dir b) (liveness_probe b) (recreation_necessary b).
Definition set_debug_script_path (v : option string) (b : builder) : builder :=
  Builder (cls b) (_global_settings b) (_global_settings_timestamp b) (_configmap_name b) (_bss_script_path b) v (_bearer_token b) (_cert_path b) (_arch_build_dir b) (liveness_probe b) (recreation_necessary b).
Definition set_bearer_token (v : option string) (b : builder) : builder :=
  Builder (cls b) (_global_settings b) (_global_settings_timestamp b) (_configmap_name b) (_bss_script_path b) (_debug_script_path b) v (_cert_path b) (_arch_build_dir b) (liveness_probe b) (recreation_necessary b).
Definition set_cert_path (v : option string) (b : builder) : builder :=
  Builder (cls b) (_global_settings b) (_global_settings_timestamp b) (_configmap_name b) (_bss_script_path b) (_debug_script_path b) (_bearer_token b) v (_arch_build_dir b) (liveness_probe b) (recreation_necessary b).
Definition set_arch_build_dir (v : option string) (b : builder) : builder :=
  Builder (cls b) (_global_settings b) (_global_settings_timestamp b) (_configmap_name b) (_bss_script_path b) (_debug_script_path b) (_bearer_token b) (_cert_path b) v (liveness_probe b) (recreation_necessary b).
Definition set_recreation_necessary (v : bool) (b : builder) : builder :=
  Builder (cls b) (_global_settings b) (_global_settings_timestamp b) (_configmap_name b) (_bss_script_path b) (_debug_script_path b) (_bearer_token b) (_cert_path b) (_arch_build_dir b) (liveness_probe b) v.

(** A builder and the machine it runs on. *)
Record state : Type := State { self : builder; os : world }.

Definition lift {A} (m : M world A) : M state A :=
  λ s, let (r, w) := m (os s) in (r, State (self s) w).

Definition attr {A} (f : builder → A) : M state A := gets (λ s, f (self s)).

Definition assign (f : builder → builder) : M state unit :=
  modify (λ s, State (f (self s)) (os s)).

(** Truth tests of Python on a string-or-[None], a mapping-or-[None]
    and a float-or-[None]. *)
Definition str_truthy (o : option string) : bool :=
  match o with
  | Some s => negb (String.eqb s "")
  | None => false
  end.

Definition dict_truthy (o : option (gmap string pyval)) : bool :=
  match o with
  | Some m => negb (bool_decide (m = ∅))
  | None => false
  end.

Definition float_truthy (o : option Z) : bool :=
  match o with
  | Some t => negb (t =? 0)
  | None => false
  end.

(** [os.path.basename]: what follows the last slash. *)
Fixpoint basename_from (acc p : string) : string :=
  match p with
  | EmptyString => acc
  | String c p' =>
      if Ascii.eqb c "/"%char then basename_from "" p'
      else basename_from (acc +:+ String c "") p'
  end.

Definition basename (p : string) : string := basename_from "" p.

(** [os.path.join(a, b)]: [b] alone when it is absolute. *)
Definition path_join (a b : string) : string :=
  match b with
  | String "/"%char _ => b
  | _ => if bool_decide (a = "") then b
         else match String.get (String.length a - 1) a with
              | Some "/"%char => a +:+ b
              | _ => a +:+ "/" +:+ b
              end
  end.

(** [','.join(l)] and the like. *)
Fixpoint join (sep : string) (l : list string) : string :=
  match l with
  | [] => ""
  | [x] => x
  | x :: l' => x +:+ sep +:+ join sep l'
  end.

(** A value that must be an exception-free result of a service. *)
Definition service {S A} (r : result A) : M S A :=
  match r with
  | Ok a => mret a
  | Raise e => raise e
  end.

(** [open(path, 'r').read()]: the text of the file, as text mode reads
    it. *)
Definition read_file (p : string) : M world string :=
  c ← gets (λ w, files w !! p);
  match c with
  | Some text => mret (universal_newlines text)
  | None => raise FileNotFoundError
  end.

(** What [open(path, 'r').read()] gives for a path attribute, [None]
    for a false path: the attribute is tested before the file is
    opened. *)
Definition local_copy (p : option string) : M world (option string) :=
  if str_truthy p then text ← read_file (default "" p); mret (Some text)
  else mret None.

Definition path_exists (p : string) : M world bool :=
  gets (λ w, bool_decide (is_Some (files w !! p))).

Definition unlink (p : string) : M world unit :=
  ex ← path_exists p;
  if (ex : bool)
  then emit (EvUnlink p) ;; modify (λ w, set_files (delete p (files w)) w)
  else raise FileNotFoundError.

(** [NamedTemporaryFile(dir=IPXE_BUILD_DIR, delete=False, mode='w')]
    and one [write]: a file under a new name in the build directory,
    here the name of its rank among the temporary files. The file is
    created before the write, which refuses [None]. *)
Definition write_tmp (content : option string) : M world string :=
  n ← gets tmp_count;
  let name := IPXE_BUILD_DIR +:+ "/tmp" +:+ pretty n in
  modify (λ w, set_tmp_count (S n) (set_files (<[name := ""]> (files w)) w)) ;;
  match content with
  | Some text =>
      modify (λ w, set_files (<[name := text]> (files w)) w) ;;
      mret name
  | None => raise TypeError
  end.

(** [os.utime(path, None)]. *)
Definition utime (p : string) : M world unit :=
  ex ← path_exists p;
  if (ex : bool) then emit (EvUtime p) else raise FileNotFoundError.

(** [shutil.move(src, dst)] of a file, over any file at [dst], which is
    taken to name a file in a directory that is there, not a directory
    (into which [shutil.move] would put the file). *)
Definition move (src dst : string) : M world unit :=
  c ← gets (λ w, files w !! src);
  match c with
  | Some content =>
      emit (EvMove src dst) ;;
      modify (λ w, set_files (<[dst := content]> (delete src (files w))) w)
  | None => raise FileNotFoundError
  end.

(** [subprocess.check_call(command, env=environment)]: the toolchain
    is a black box, whatever the command; [debug] only tags the event
    with the flavor that is built. *)
Definition check_call (debug : bool) : M world unit :=
  n ← gets make_calls;
  code ← gets (λ w, make_exit (env w) n);
  modify (λ w, set_make_calls (S n)
                 (set_files (make_files (env w) n (files w)) w)) ;;
  emit (EvMake debug code) ;;
  if code =? 0 then mret tt else raise (CalledProcessError code).

(** [a, b = l]: the list must have exactly two elements. *)
Definition unpack2 {S A} (l : list A) : M S (A * A) :=
  match l with
  | [a; b] => mret (a, b)
  | _ => raise ValueError
  end.

Module BinaryBuilder.

Definition global_settings_configmap_name : string := "cray-ipxe-settings".
Definition namespace : string := "services".
Definition _build_options : list string := ["httpcore"; "x509"; "efi_time"].
Definition _build_debug_options : list string := ["httpcore:2"; "x509:2"; "efi_time"].

(** [__init__]: every cache is empty, the liveness record is created,
    and a first build is due. [max_age] is the time limit of the
    environment, 40 seconds when it is not set. *)
Definition init (k : klass) (max_age : Z) : M world builder :=
  probe ← ipxeTimestamp.init LIVENESS_PATH max_age None;
  mret (Builder k None None None None None None None None probe true).

Definition build_options : string := join "," _build_options.
Definition build_debug_options : string := join "," _build_debug_options.

(** The [global_settings] property. *)
Definition global_settings : M state (option (gmap string pyval)) :=
  local_settings ← attr _global_settings;
  stamp ← attr _global_settings_timestamp;
  (if dict_truthy local_settings && float_truthy stamp then
     now ← lift datetime_now;
     if bool_decide (now - default 0 stamp > CONFIGMAP_CACHE_TIMEOUT) then
       assign (set_global_settings None) ;;
       assign (set_global_settings_timestamp None)
     else mret tt
   else mret tt) ;;
  cached ← attr _global_settings;
  (if negb (dict_truthy cached) then
     lift (emit (EvFetch ASettings)) ;;
     upstream ← lift (gets (λ w, api_settings (env w)) ≫= service);
     assign (set_global_settings upstream) ;;
     now ← lift datetime_now;
     assign (set_global_settings_timestamp (Some now))
   else mret tt) ;;
  current ← attr _global_settings;
  (if bool_decide (local_settings ≠ current) then
     lift (log "INFO" "New global settings cached; rebuild is possible if enabled.") ;;
     assign (set_recreation_necessary true)
   else mret tt) ;;
  mret current.

(** [self.global_settings.get(key, default)]; the class attributes
    that name the keys may be [None], which no setting is filed
    under. *)
Definition settings_get (key : option string) (dflt : pyval) : M state pyval :=
  settings ← global_settings;
  match settings with
  | None => raise AttributeError
  | Some m => mret (default dflt (key ≫= λ k, m !! k))
  end.

Definition enabled : M state pyval :=
  k ← attr cls; settings_get (ENABLED_TAG k) PTrue.

Definition debug_enabled : M state pyval :=
  k ← attr cls; settings_get (ENABLED_DEBUG_TAG k) PTrue.

Definition binary_name : M state pyval :=
  k ← attr cls;
  name ← settings_get (BINARY_NAME_TAG k) PNone;
  if bool_decide (name = PNone) then raise AssertionError else mret name.

Definition debug_binary_name : M state pyval :=
  k ← attr cls;
  name ← settings_get (DEBUG_BINARY_NAME_TAG k) PNone;
  if bool_decide (name = PNone) then raise AssertionError else mret name.

Definition build_with_certs : M state pyval :=
  settings_get (Some "cray_ipxe_build_with_cert") PNone.

Definition token_min_remaining_valid_time : M state pyval :=
  settings_get (Some "cray_ipxe_token_min_remaining_valid_time") (PStr "1800").

Definition cray_ipxe_token_host : M state pyval :=
  settings_get (Some "cray_ipxe_token_host") (PStr tokens.TOKEN_HOST).

(** [s3_host]: [KeyError] and [ApiException] are logged and give
    [None]; so does a host name that is empty or missing. *)
Definition s3_host : M state (option string) :=
  try_except
    (lift (emit (EvFetch AS3Host)) ;;
     rgw_s3_host ← lift (gets (λ w, api_s3_host (env w)) ≫= service);
     if str_truthy rgw_s3_host then mret rgw_s3_host else mret None)
    (λ e, match e with
          | KeyError =>
              Some (lift (log "ERROR" "Error reading the sts-rados-config map.  Unable to override S3_HOST") ;;
                    lift (log "ERROR" "The specific error was: %s") ;;
                    mret None)
          | ApiException =>
              Some (lift (log "ERROR" "Error getting the sts-rados-config map.  Unable to override S3_HOST") ;;
                    lift (log "ERROR" "The specific error was: %s") ;;
                    mret None)
          | _ => None
          end).

(** The [cert_path] property. *)
Definition cert_path : M state (option string) :=
  old ← attr _cert_path;
  existing_cert ← lift (local_copy old);
  lift (emit (EvFetch ACert)) ;;
  upstream_cert ← lift (gets (λ w, api_cert (env w)) ≫= service);
  (if bool_decide (existing_cert ≠ Some upstream_cert) then
     lift (log "INFO" "An update to the upstream certificate is available, rebuild is flagged.") ;;
     assign (set_recreation_necessary true) ;;
     there ← (if str_truthy old then lift (path_exists (default "" old))
              else mret false);
     (if (there : bool) then
        lift (unlink (default "" old)) ;;
        assign (set_cert_path None)
      else mret tt) ;;
     name ← lift (write_tmp (Some upstream_cert));
     assign (set_cert_path (Some name))
   else mret tt) ;;
  attr _cert_path.

(** [configmap_name], as [X86Builder] and [Arm64builder] each define
    it. *)
Definition X86Builder_configmap_name : M state (option string) :=
  name ← attr _configmap_name;
  (if negb (str_truthy name) then
     k ← attr cls;
     let base_name := "cray-ipxe-bss-ipxe" in
     let base_name := if bool_decide (ARCH k = Some "aarch64")
                      then "%s-aarch64" else base_name in
     assign (set_configmap_name (Some base_name))
   else mret tt) ;;
  attr _configmap_name.

Definition Arm64builder_configmap_name : M state (option string) :=
  name ← attr _configmap_name;
  (if negb (str_truthy name) then
     k ← attr cls;
     let base_name := "cray-ipxe-bss-ipxe" in
     let base_name := if bool_decide (ARCH k = Some "aarch64")
                      then "%s-aarch64" else base_name in
     assign (set_configmap_name (Some base_name))
   else mret tt) ;;
  attr _configmap_name.

(** Attribute lookup by class. *)
Definition configmap_name : M state (option string) :=
  k ← attr cls;
  match k with
  | BinaryBuilder => raise AttributeError
  | X86Builder => X86Builder_configmap_name
  | Arm64builder => Arm64builder_configmap_name
  end.

(** The [bss_script_path] property. *)
Definition bss_script_path : M state (option string) :=
  old ← attr _bss_script_path;
  local_bss_script ← lift (local_copy old);
  name ← configmap_name;
  lift (emit (EvFetch (ABssScript (default "" name)))) ;;
  upstream_bss_script ← lift (gets (λ w, api_bss (env w) (default "" name)) ≫= service);
  (if bool_decide (local_bss_script ≠ upstream_bss_script) then
     (if negb (str_truthy old) then
        lift (log "INFO" "New BSS script available; first time build is flagged.")
      else
        lift (log "INFO" "Change in upstream BSS script detected; rebuild is flagged.") ;;
        lift (unlink (default "" old))) ;;
     ntf ← lift (write_tmp upstream_bss_script);
     assign (set_bss_script_path (Some ntf)) ;;
     assign (set_recreation_necessary true)
   else mret tt) ;;
  attr _bss_script_path.

(** The [debug_script_path] property. *)
Definition debug_script_path : M state (option string) :=
  old ← attr _debug_script_path;
  local_debug_script ← lift (local_copy old);
  lift (emit (EvFetch ADebugScript)) ;;
  upstream_debug_script ← lift (gets (λ w, api_debug_script (env w)) ≫= service);
  (if bool_decide (local_debug_script ≠ upstream_debug_script) then
     (if negb (str_truthy old) then
        lift (log "INFO" "New Debug script available; first time build is flagged.")
      else
        lift (log "INFO" "Change in upstream Debug script detected; rebuild is flagged.") ;;
        lift (unlink (default "" old))) ;;
     ntf ← lift (write_tmp upstream_debug_script);
     assign (set_debug_script_path (Some ntf)) ;;
     assign (set_recreation_necessary true)
   else mret tt) ;;
  attr _debug_script_path.

(** ['bin-%s-efi' % self.ARCH], computed once. *)
Definition arch_build_dir : M state string :=
  dir ← attr _arch_build_dir;
  (if negb (str_truthy dir) then
     k ← attr cls;
     assign (set_arch_build_dir (Some ("bin-" +:+ default "None" (ARCH k) +:+ "-efi")))
   else mret tt) ;;
  dir ← attr _arch_build_dir;
  mret (default "" dir).

(** The [bearer_token] property. *)
Definition bearer_token : M state (option string) :=
  token ← attr _bearer_token;
  buffer ← token_min_remaining_valid_time;
  soon ← lift (tokens.token_expiring_soon token buffer);
  (if (soon : bool) then
     host ← cray_ipxe_token_host;
     fresh ← lift (tokens.fetch_token host);
     assign (set_bearer_token fresh) ;;
     lift (utime (IPXE_BUILD_DIR +:+ "/net/tcp/httpcore.c")) ;;
     assign (set_recreation_necessary true)
   else mret tt) ;;
  attr _bearer_token.

(** [os.path.basename] of a path that may be [None]. *)
Definition basename_of (p : option string) : M state string :=
  match p with
  | Some p => mret (basename p)
  | None => raise TypeError
  end.

(** The arguments both commands share between [DEBUG=] and [EMBED=]. *)
Definition cert_arguments : M state (list string) :=
  with_certs ← build_with_certs;
  if truthy with_certs then
    cert ← cert_path;
    cert_path_filename ← basename_of cert;
    mret ["CERT=" +:+ cert_path_filename; "TRUST=" +:+ cert_path_filename]
  else mret [].

Definition s3_arguments : M state (list string) :=
  host ← s3_host;
  if str_truthy host then mret ["S3_HOST=" +:+ default "" host] else mret [].

(** The [build_command] property: a list of strings. *)
Definition build_command : M state (list string) :=
  dir ← arch_build_dir;
  k ← attr cls;
  let build_command := (["make"; dir +:+ "/ipxe.efi"] ++ MAKE_ADDENDUM k
                        ++ ["DEBUG=" +:+ build_options])%list in
  certs ← cert_arguments;
  script ← bss_script_path;
  embed ← basename_of script;
  s3 ← s3_arguments;
  token ← bearer_token;
  mret (build_command ++ certs ++ ["EMBED=" +:+ embed] ++ s3
        ++ ["BEARER_TOKEN=" +:+ default "None" token])%list.

(** The [debug_command] property. *)
Definition debug_command : M state (list string) :=
  dir ← arch_build_dir;
  k ← attr cls;
  let debug_command := (["make"; dir +:+ "/ipxe.efi"] ++ MAKE_ADDENDUM k
                        ++ ["DEBUG=" +:+ build_debug_options])%list in
  certs ← cert_arguments;
  script ← debug_script_path;
  embed ← basename_of script;
  s3 ← s3_arguments;
  token ← bearer_token;
  mret (debug_command ++ certs ++ ["EMBED=" +:+ embed] ++ s3
        ++ ["BEARER_TOKEN=" +:+ default "None" token])%list.

Definition built_binary_abs_path : M state string :=
  dir ← arch_build_dir;
  mret (path_join (path_join IPXE_BUILD_DIR dir) "ipxe.efi").

(** [os.path.join] wants a string. *)
Definition join_name (name : pyval) : M state string :=
  match name with
  | PStr s => mret (path_join PUBLISHING_DIR s)
  | _ => raise TypeError
  end.

Definition destination_abs_path : M state string :=
  binary_name ≫= join_name.

Definition debug_destination_abs_path : M state string :=
  debug_binary_name ≫= join_name.

(** [logging]'s level names. *)
Definition level_names : list string :=
  ["CRITICAL"; "FATAL"; "ERROR"; "WARN"; "WARNING"; "INFO"; "DEBUG"; "NOTSET"].

(** [set_log_level]: an unknown name is a [ValueError], caught; a
    level that is neither a name nor a number is a [TypeError]. *)
Definition set_log_level : M state unit :=
  cray_ipxe_build_debug ←
    settings_get (Some "cray_ipxe_build_service_log_level") (PStr "DEBUG");
  match cray_ipxe_build_debug with
  | PInt _ => mret tt
  | PStr name =>
      if bool_decide (name ∈ level_names) then mret tt
      else lift (log "WARNING" "Unknown log level '%s'; defaulting to DEBUG.")
  | PNone => raise TypeError
  end.

Definition build_binary {C E} (command : C) (environment : E) (debug : bool)
    : M state unit :=
  (if negb debug then lift (log "INFO" "Preparing to build new %s binary.")
   else lift (log "INFO" "Preparing to build new %s DEBUG binary.")) ;;
  lift (check_call debug).

Definition publish_binary : M state unit :=
  src ← built_binary_abs_path;
  dst ← destination_abs_path;
  lift (move src dst) ;;
  lift (log "INFO" "New ipxe binary has been published.").

Definition publish_debug : M state unit :=
  src ← built_binary_abs_path;
  dst ← debug_destination_abs_path;
  lift (move src dst) ;;
  lift (log "INFO" "New DEBUG ipxe binary has been published.").

(** The tail of the loop body of [__call__], once a rebuild has been
    found necessary: both flavors are built and published, then the flag
    is cleared. *)
Definition build_and_publish {C E} (build_command : C) (build_environment : E)
    (debug_command : C) (debug_environment : E) : M state unit :=
  build_binary build_command build_environment false ;;
  publish_binary ;;
  (probe ← attr liveness_probe; lift (ipxeTimestamp.refresh_build probe)) ;;
  build_binary debug_command debug_environment true ;;
  publish_debug ;;
  (probe ← attr liveness_probe; lift (ipxeTimestamp.refresh_build probe)) ;;
  assign (set_recreation_necessary false).

(** How one round of the loop ends. *)
Inductive outcome : Type :=
  | Skipped
  | UpToDate
  | Built.

(** The body of the [while True] loop of [__call__]. *)
Definition cycle (first_time : bool) : M state outcome :=
  set_log_level ;;
  (if negb first_time then lift (time_sleep TIME_BETWEEN_BUILDCHECKS)
   else mret tt) ;;
  on ← enabled;
  if negb (truthy on) then mret Skipped
  else
    command ← build_command;
    '(build_command, build_environment) ← unpack2 command;
    command ← debug_command;
    '(debug_command, debug_environment) ← unpack2 command;
    necessary ← attr recreation_necessary;
    if negb necessary then mret UpToDate
    else
      build_and_publish build_command build_environment
        debug_command debug_environment ;;
      mret Built.

(** [__call__], cut after [rounds] rounds of the loop, which has no
    exit of its own. *)
Fixpoint loop (first_time : bool) (rounds : nat) : M state (list outcome) :=
  match rounds with
  | O => mret []
  | S n =>
      o ← cycle first_time;
      os ← loop false n;
      mret (o :: os)
  end.

Definition call (rounds : nat) : M state (list outcome) := loop true rounds.

End BinaryBuilder.

(** ** The Timestamp Record of the design document *)

(** The record as the design document has it, and its three queries,
    written from the document's words. *)
Record ts_record : Type := TsRecord {
  touched_at : Z;
  rec_max_age : Z;
  last_build_at : option Z
}.

Definition spec_is_expired (r : ts_record) (now : Z) : bool :=
  bool_decide (now - touched_at r > rec_max_age r).

Definition spec_has_recent_build (r : ts_record) (now : Z) : bool :=
  match last_build_at r with
  | Some l => bool_decide (now - l < rec_max_age r)
  | None => false
  end.

Definition spec_is_alive (r : ts_record) (now : Z) : bool :=
  negb (spec_is_expired r now) || spec_has_recent_build r now.

(** The JSON object the timestamp code keeps for a record. *)
Definition to_json (r : ts_record) : gmap string jval :=
  {[ "timestamp" := JNum (touched_at r);
     "max_age" := JNum (rec_max_age r);
     "last_build" := match last_build_at r with
                     | Some l => JNum l
                     | None => JNull
                     end ]}.

(** The number a key of the file holds, if it holds one. *)
Definition json_num (d : gmap string jval) (key : string) : option Z :=
  match d !! key with
  | Some (JNum x) => Some x
  | _ => None
  end.

(** A world whose liveness file at [p] holds the JSON object [d]. *)
Definition holds (p : string) (d : gmap string jval) (w : world) : Prop :=
  tsfiles w !! p = Some d.

(** A query is a computation that leaves the machine as it found it,
    clock readings apart, and whose only exceptions are [TypeError] and
    [KeyError]. *)
Definition query {A} (m : M world A) : Prop :=
  ∀ w, (∃ n, (m w).2 = set_ticks n w)
       ∧ (∀ e, (m w).1 = Raise e → e = TypeError ∨ e = KeyError).

(** ** What a computation may change *)

(** The machine [w'] is [w] later on: the services are the same, and the
    trace has grown by events that all satisfy [ok]. *)
Definition grows (ok : event → Prop) (w w' : world) : Prop :=
  env w' = env w ∧ ∃ evs, trace w' = (trace w ++ evs)%list ∧ Forall ok evs.

(** The name of the BSS configmap is not yet computed, or is the one
    name every builder uses. *)
Definition configmap_inv (b : builder) : Prop :=
  _configmap_name b = None ∨ _configmap_name b = Some "cray-ipxe-bss-ipxe".

(** The builder [s'] is [s] later on: the same class, a flag that was
    not cleared, a configmap name as it should be, on a machine that has
    grown. *)
Definition extends (ok : event → Prop) (s s' : state) : Prop :=
  cls (self s') = cls (self s)
  ∧ (recreation_necessary (self s) = true → recreation_necessary (self s') = true)
  ∧ (configmap_inv (self s) → configmap_inv (self s'))
  ∧ grows ok (os s) (os s').

(** The class and the configmap name of a builder are kept. *)
Definition keeps_name (s s' : state) : Prop :=
  cls (self s') = cls (self s)
  ∧ (configmap_inv (self s) → configmap_inv (self s')).

(** A computation all of whose runs are related by [R] to where they
    started, however they end. *)
Definition steps {S A} (R : S → S → Prop) (m : M S A) : Prop :=
  ∀ s, R s (m s).2.

(** The events of a run: what the trace has gained. *)
Definition added (w w' : world) : list event :=
  drop (length (trace w)) (trace w').

(** The remote calls among some events. *)
Definition fetches (evs : list event) : list artifact :=
  omap (λ e, match e with EvFetch a => Some a | _ => None end) evs.

(** The number of refreshes of the build-completion marker. *)
Definition refreshes (evs : list event) : nat :=
  length (filter (λ e, e = EvRefreshBuild) evs).

(** The events of publishing: anything but a toolchain run and a
    refresh of the build-completion marker. *)
Definition publishing (e : event) : Prop :=
  match e with
  | EvMake _ _ | EvRefreshBuild => False
  | _ => True
  end.

(** The five ways building and publishing can go, with the events of
    each: the primary toolchain run fails; the primary binary is not
    published; the debug toolchain run fails; the debug binary is not
    published; both are built and published. [q1] and [q2] are the
    events of the two publications. *)
Inductive build_run : result unit → list event → Prop :=
  | primary_failed m1 c1 :
      c1 ≠ 0 →
      build_run (Raise (CalledProcessError c1))
        [EvLog "INFO" m1; EvMake false c1]
  | primary_unpublished m1 q1 e :
      Forall publishing q1 →
      build_run (Raise e) ([EvLog "INFO" m1; EvMake false 0] ++ q1)
  | debug_failed m1 q1 m2 c2 src dst :
      c2 ≠ 0 → Forall publishing q1 → EvMove src dst ∈ q1 →
      build_run (Raise (CalledProcessError c2))
        ([EvLog "INFO" m1; EvMake false 0] ++ q1
         ++ [EvRefreshBuild; EvLog "INFO" m2; EvMake true c2])
  | debug_unpublished m1 q1 m2 q2 e src dst :
      Forall publishing q1 → EvMove src dst ∈ q1 → Forall publishing q2 →
      build_run (Raise e)
        ([EvLog "INFO" m1; EvMake false 0] ++ q1
         ++ [EvRefreshBuild; EvLog "INFO" m2; EvMake true 0] ++ q2)
  | both_published m1 q1 m2 q2 src1 dst1 src2 dst2 :
      Forall publishing q1 → EvMove src1 dst1 ∈ q1 →
      Forall publishing q2 → EvMove src2 dst2 ∈ q2 →
      build_run (Ok ())
        ([EvLog "INFO" m1; EvMake false 0] ++ q1
         ++ [EvRefreshBuild; EvLog "INFO" m2; EvMake true 0] ++ q2
         ++ [EvRefreshBuild]).

(** The events of a round of polling: reads of the settings, log
    messages and sleep. *)
Definition ok_poll (e : event) : Prop :=
  match e with
  | EvFetch ASettings | EvLog _ _ | EvSleep _ => True
  | _ => False
  end.

(** Polling: nothing happens but what [ok_poll] allows, and the flag
    keeps its value unless the settings were read from the service. *)
Definition polls (s s' : state) : Prop :=
  extends ok_poll s s'
  ∧ (fetches (added (os s) (os s')) = [] →
     recreation_necessary (self s') = recreation_necessary (self s)).

(** The settings are cached, not empty, and, whenever the clock is
    read, not older than the timeout. *)
Definition fresh_cache (s : state) : Prop :=
  dict_truthy (_global_settings (self s)) = true
  ∧ ∀ n, clock (env (os s)) n
         - default 0 (_global_settings_timestamp (self s))
         ≤ CONFIGMAP_CACHE_TIMEOUT.

(** Idling: from a fresh cache, the cache stays as it is and no remote
    call is made. *)
Definition idles (s s' : state) : Prop :=
  fresh_cache s →
  fresh_cache s'
  ∧ ∃ evs, trace (os s') = (trace (os s) ++ evs)%list ∧ fetches evs = [].

(** The builder with its flag forced to [b]. *)
Definition with_flag (b : bool) (s : state) : state :=
  State (set_recreation_necessary b (self s)) (os s).

(** ** Tracked remote artifacts *)

(** A materialized value: a parsed mapping or a text. *)
Inductive copy : Type :=
  | Mapping (m : gmap string pyval)
  | Text (t : string).

Global Instance copy_eq_dec : EqDecision copy.
Proof. solve_decision. Defined.

(** A tracked remote artifact of the design document, as a property of
    the builder realizes it: the state after an access, the last copy
    materialized locally, and the value the service would return now,
    when it returns one. *)
Record tracked : Type := Tracked {
  after : state → state;
  local : state → option copy;
  upstream : state → option copy
}.

(** The text of the file a path attribute points at. *)
Definition file_copy (p : option string) (w : world) : option copy :=
  if str_truthy p then Text <$> files w !! default "" p else None.

Definition text_of (r : result (option string)) : option copy :=
  match r with
  | Ok (Some t) => Some (Text t)
  | _ => None
  end.

Definition settings_artifact : tracked :=
  Tracked (exec BinaryBuilder.global_settings)
    (λ s, Mapping <$> _global_settings (self s))
    (λ s, match api_settings (env (os s)) with
          | Ok (Some m) => Some (Mapping m)
          | _ => None
          end).

Definition cert_artifact : tracked :=
  Tracked (exec BinaryBuilder.cert_path)
    (λ s, file_copy (_cert_path (self s)) (os s))
    (λ s, match api_cert (env (os s)) with
          | Ok c => Some (Text c)
          | Raise _ => None
          end).

Definition bss_artifact : tracked :=
  Tracked (exec BinaryBuilder.bss_script_path)
    (λ s, file_copy (_bss_script_path (self s)) (os s))
    (λ s, match (BinaryBuilder.configmap_name s).1 with
          | Ok name => text_of (api_bss (env (os s)) (default "" name))
          | Raise _ => None
          end).

Definition debug_artifact : tracked :=
  Tracked (exec BinaryBuilder.debug_script_path)
    (λ s, file_copy (_debug_script_path (self s)) (os s))
    (λ s, text_of (api_debug_script (env (os s)))).

(** The host the builder asks for tokens, by its cached settings. *)
Definition token_host (s : state) : pyval :=
  default (PStr tokens.TOKEN_HOST)
    (_global_settings (self s) ≫= λ m, m !! "cray_ipxe_token_host").

Definition token_artifact : tracked :=
  Tracked (exec BinaryBuilder.bearer_token)
    (λ s, Text <$> _bearer_token (self s))
    (λ s, match oauth_token (env (os s)) (token_host s) with
          | Ok (Some (Some t)) => Some (Text t)
          | _ => None
          end).

Definition flag (s : state) : bool := recreation_necessary (self s).

(** The remote calls of one access. *)
Definition fetched (a : tracked) (s : state) : list artifact :=
  fetches (added (os s) (os (after a s))).


(** A copy as an accessor reads it back: a text goes through text
    mode. *)
Definition read_back (c : copy) : copy :=
  match c with
  | Mapping m => Mapping m
  | Text t => Text (universal_newlines t)
  end.

(** A copy that reads back as it was written: a mapping, or a text
    without carriage return. *)
Definition reads_back (c : copy) : Prop := read_back c = c.


(** Change detection as an access does it: the value fetched is
    compared with the copy as it reads back; if they are equal nothing
    changes, else the flag is set and the value materialized. *)
Definition compares (a : tracked) : Prop :=
  ∀ s v, fetched a s ≠ [] → upstream a s = Some v →
    (read_back <$> local a s = Some v →
     flag (after a s) = flag s ∧ local a (after a s) = local a s)
    ∧ (read_back <$> local a s ≠ Some v →
       flag (after a s) = true ∧ local a (after a s) = Some v).

(** The whole scenario is brief: no two readings of the clock are
    further apart than the cache timeout. *)
Definition brief (s : state) : Prop :=
  ∀ n m, clock (env (os s)) n - clock (env (os s)) m ≤ CONFIGMAP_CACHE_TIMEOUT.

(** Two accesses in immediate succession, the first of which fetches
    [v]: [calls] remote calls are made in all, and the second access
    does not set the flag, whatever its value. *)
Definition twice (calls : nat) (a : tracked) (s : state) : Prop :=
  let s1 := after a s in
  length (fetches (added (os s) (os (after a s1)))) = calls
  ∧ ∀ b, flag (after a (with_flag b s1)) = b.

(** Idempotence, as the design document states it. *)
Definition idempotent (a : tracked) : Prop :=
  ∀ s v, brief s → fetched a s ≠ [] → upstream a s = Some v → twice 1 a s.

(** One access of a materialized artifact: if it fetches at all it
    fetches once and leaves the service as it was; and it does fetch
    when a local copy can be read. *)
Definition fetches_once (a : tracked) : Prop :=
  ∀ s v, upstream a s = Some v →
    (fetched a s ≠ [] →
     length (fetched a s) = 1%nat ∧ upstream a (after a s) = Some v)
    ∧ (∀ v0, local a s = Some v0 → fetched a s ≠ [])
    ∧ (∀ b, local a (with_flag b s) = local a s
            ∧ upstream a (with_flag b s) = upstream a s).

(** ** Concrete worlds for the examples *)

(** A clock that gives the readings of [l] in turn, and [last] for
    ever after. *)
Definition clock_of (l : list Z) (last : Z) : nat → Z :=
  λ n, default last (l !! n).

(** Services that are all down, under a given clock. *)
Definition offline (clk : nat → Z) : outside :=
  Outside clk (Raise ApiException) (Raise ApiException)
    (λ _, Raise ApiException) (Raise ApiException) (Raise ApiException)
    (λ _, Raise ApiException) (λ _, None) (λ _, 0) (λ _ fs, fs).

(** A machine that has just started: no file, no event. *)
Definition boot (o : outside) : world := World o 0 ∅ ∅ 0 0 [].

(** The same machine with the record [r] stored at [p]. *)
Definition with_record (p : string) (r : ts_record) (w : world) : world :=
  set_tsfiles (<[p := to_json r]> (tsfiles w)) w.

Definition seconds (n : Z) : Z := n * 1000000.

(** A cluster whose services answer: settings [settings], certificate
    [cert], the same BSS script under every configmap name, a debug
    script, no S3 host name, and a token endpoint that hands out
    [token], whose [exp] claim is [exp]. The toolchain exits with the
    statuses of [exits] in turn, then 0, and leaves the x86 binary. *)
Definition cluster (clk : nat → Z) (settings : gmap string pyval)
    (cert bss debug : string) (token : string) (exp : Z) (exits : list Z) : outside :=
  Outside clk (Ok (Some settings)) (Ok cert) (λ _, Ok (Some bss))
    (Ok (Some debug)) (Ok None) (λ _, Ok (Some (Some token)))
    (λ t, if bool_decide (t = token) then Some {[ "exp" := PInt exp ]} else None)
    (λ n, default 0 (exits !! n))
    (λ _ fs, <["/ipxe/bin-x86_64-efi/ipxe.efi" := "ipxe"]> fs).

(** The build container at start: the source file the token is
    compiled into and the client credentials are in place. *)
Definition container (o : outside) : world :=
  World o 0 ∅
    {[ "/ipxe/net/tcp/httpcore.c" := "httpcore";
       "/client_auth/client-id" := "id";
       "/client_auth/client-secret" := "secret" ]} 0 0 [].

(** A builder of class [k] just made, on the machine [w]. *)
Definition fresh (k : klass) (w : world) : state :=
  match BinaryBuilder.init k (seconds 40) w with
  | (Ok b, w') => State b w'
  | (Raise _, w') =>
      State (Builder k None None None None None None None None
               (Timestamp LIVENESS_PATH) true) w'
  end.

(** Settings that switch the x86 builder off. *)
Definition disabled_x86 : gmap string pyval :=
  {[ "cray_ipxe_build_x86" := PFalse ]}.

Definition disabled_x86_quiet : gmap string pyval :=
  {[ "cray_ipxe_build_x86" := PFalse;
     "cray_ipxe_build_service_log_level" := PStr "INFO" ]}.

(** A cluster that has the x86 builder switched off, and an x86 builder
    starting there. *)
Definition disabled_cluster (clk : nat → Z) (settings : gmap string pyval) : outside :=
  cluster clk settings "CERT" "bss" "dbg" "tok" 5000 [].

Definition disabled_start (clk : nat → Z) : state :=
  fresh X86Builder (container (disabled_cluster clk disabled_x86)).

(** The same builder after a first round, its flag cleared, when the
    settings of the cluster have been edited. *)
Definition disabled_later (clk : nat → Z) : state :=
  let s := with_flag false (exec (BinaryBuilder.cycle true) (disabled_start clk)) in
  State (self s) (set_env (disabled_cluster clk disabled_x86_quiet) (os s)).

(** An x86 builder in a cluster whose toolchain exits with [exits]. *)
Definition building (exits : list Z) : state :=
  fresh X86Builder
    (container (cluster (clock_of [] (seconds 100))
       {[ "cray_ipxe_binary_name" := PStr "ipxe.efi";
          "cray_ipxe_debug_binary_name" := PStr "debug-ipxe.efi" ]}
       "CERT" "bss" "dbg" "tok" 5000 exits)).



Definition names_x86 : gmap string pyval :=
  {[ "cray_ipxe_binary_name" := PStr "ipxe.efi";
     "cray_ipxe_debug_binary_name" := PStr "debug-ipxe.efi" ]}.

(** ** Further definitions for the properties of the code *)

(** The JSON object a handle reads: that of its file, or the record
    with every field [None]. *)
Definition data_of (p : string) (w : world) : gmap string jval :=
  default no_data (tsfiles w !! p).

(** The time a setter stores for its argument: the argument, or the
    next reading of the clock when the argument is false. *)
Definition stored (when : option Z) (w : world) : Z :=
  match when with
  | Some t => if t =? 0 then clock (env w) (ticks w) else t
  | None => clock (env w) (ticks w)
  end.

(** Both files of the client credentials can be read. *)
Definition credentials_mounted (w : world) : bool :=
  bool_decide (is_Some (files w !! tokens.auth_user_file))
  && bool_decide (is_Some (files w !! tokens.auth_secret_file)).

(** The value the cached settings give for a key, [dflt] when the key
    is missing: [self._global_settings.get(key, dflt)]. *)
Definition setting (s : state) (key : option string) (dflt : pyval) : pyval :=
  default dflt (key ≫= λ k, _global_settings (self s) ≫= λ m, m !! k).

(** The same builder on a machine whose clock has been read up to
    [n]. *)
Definition later (n : nat) (s : state) : state :=
  State (self s) (set_ticks n (os s)).

(** An x86 builder that has read the settings once, in a cluster whose
    clock gives the readings [clk], then [last]. *)
Definition cached (clk : list Z) (last : Z) (settings : gmap string pyval) : state :=
  exec BinaryBuilder.global_settings
    (fresh X86Builder
       (container (cluster (clock_of clk last) settings "CERT" "bss" "dbg"
                     "tok" 5000 []))).

(** The same builder in a cluster whose settings service answers
    [reply]. *)
Definition answering (reply : result (option (gmap string pyval))) (s : state) : state :=
  let o := env (os s) in
  State (self s)
    (set_env (Outside (clock o) reply (api_cert o) (api_bss o)
                (api_debug_script o) (api_s3_host o) (oauth_token o)
                (jwt_decode o) (make_exit o) (make_files o)) (os s)).

(** The events of a builder that prepares the primary build and stops
    there: anything but a toolchain run, a publication, a refresh of the
    build-completion marker and a fetch of the debug script. *)
Definition preparing (e : event) : Prop :=
  match e with
  | EvMake _ _ | EvMove _ _ | EvRefreshBuild | EvFetch ADebugScript => False
  | _ => True
  end.

(** A field of a record that is missing, [null] or a number from 0 to
    4 000 000 000 seconds (a time of this century, a duration of no
    more than a century): what the code itself writes, or nothing. *)
Definition plain_field (d : gmap string jval) (key : string) : Prop :=
  match d !! key with
  | Some (JNum x) => 0 ≤ x ≤ 4000000000 * 1000000
  | _ => True
  end.

(** A path that can name a file: its last component is not empty, [.]
    or [..], and it holds no NUL character. *)
Definition names_file (p : string) : bool :=
  negb (bool_decide (basename p ∈ [""; "."; ".."]))
  && forallb (λ c, negb (Ascii.eqb c "000"%char)) (list_ascii_of_string p).

(** A plain file name: a path of one component that can name a file. *)
Definition plain_name (name : string) : bool :=
  names_file name
  && forallb (λ c, negb (Ascii.eqb c "/"%char)) (list_ascii_of_string name).


(** A log record. *)
Definition is_log (e : event) : Prop :=
  match e with
  | EvLog _ _ => True
  | _ => False
  end.

(** The name the next temporary file gets. *)
Definition next_tmp (w : world) : string :=
  IPXE_BUILD_DIR +:+ "/tmp" +:+ pretty (tmp_count w).

(** The same builder in a cluster whose BSS configmaps answer
    [reply]. *)
Definition with_bss (reply : string → result (option string)) (s : state) : state :=
  let o := env (os s) in
  State (self s)
    (set_env (Outside (clock o) (api_settings o) (api_cert o) reply
                (api_debug_script o) (api_s3_host o) (oauth_token o)
                (jwt_decode o) (make_exit o) (make_files o)) (os s)).

(** The source file the token is compiled into. *)
Definition httpcore : string := IPXE_BUILD_DIR +:+ "/net/tcp/httpcore.c".

(** A string of ASCII characters, no longer than the 4300 digits that
    [int()] accepts. *)
Definition ascii_only (s : string) : bool :=
  forallb (λ c, (nat_of_ascii c <? 128)%nat) (list_ascii_of_string s)
  && (String.length s <=? 4300)%nat.

(** [int(v)], when it gives a number. *)
Definition int_of (v : pyval) : option Z :=
  match v with
  | PInt n => Some n
  | PStr s => int_of_str s
  | PNone => None
  end.

(** The build directory of a class, ['bin-%s-efi' % ARCH]. *)
Definition arch_dir (k : klass) : string :=
  "bin-" +:+ default "None" (ARCH k) +:+ "-efi".

(** The build directory is not yet computed, or is that of the class. *)
Definition arch_inv (b : builder) : Prop :=
  _arch_build_dir b = None ∨ _arch_build_dir b = Some (arch_dir (cls b)).

(** Where the toolchain leaves the binary of a class. *)
Definition built_binary (k : klass) : string :=
  IPXE_BUILD_DIR +:+ "/" +:+ arch_dir k +:+ "/ipxe.efi".

(** A relation on builders, as a relation on states. *)
Definition preserves (P : builder → builder → Prop) (s s' : state) : Prop :=
  P (self s) (self s').

(** The class and the build directory of a builder. *)
Definition same_dir (b b' : builder) : Prop :=
  cls b' = cls b ∧ _arch_build_dir b' = _arch_build_dir b.

(** * Properties *)

(** ** The monad: how computations run *)

Lemma run_bind {S A B} (m : M S A) (f : A → M S B) (s : S) :
  (m ≫= f) s = match m s with
               | (Ok a, s') => f a s'
               | (Raise e, s') => (Raise e, s')
               end.
Proof. reflexivity. Qed.

Lemma run_bind_ok {S A B} (m : M S A) (f : A → M S B) (s s' : S) (a : A) :
  m s = (Ok a, s') → (m ≫= f) s = f a s'.
Proof. intros H. rewrite run_bind, H. reflexivity. Qed.

Lemma run_bind_raise {S A B} (m : M S A) (f : A → M S B) (s s' : S) (e : exn) :
  m s = (Raise e, s') → (m ≫= f) s = (Raise e, s').
Proof. intros H. rewrite run_bind, H. reflexivity. Qed.

Lemma run_try_ok {S A} (m : M S A) h (s s' : S) (a : A) :
  m s = (Ok a, s') → try_except m h s = (Ok a, s').
Proof. intros H. unfold try_except. rewrite H. reflexivity. Qed.

(** ** The timestamp: how each property runs on a well-formed file *)

Section timestamp_runs.
Import ipxeTimestamp.

Variable p : string.
Variable d : gmap string jval.
Variables t a : Z.
Hypothesis Ht : d !! "timestamp" = Some (JNum t).
Hypothesis Ha : d !! "max_age" = Some (JNum a).

Local Abbreviation self := (Timestamp p).
Local Abbreviation holds := (holds p d).

Lemma holds_set_ticks n w : holds w → holds (set_ticks n w).
Proof. done. Qed.

Lemma run_data w : holds w → _data self w = (Ok d, w).
Proof. unfold holds, _data, gets. simpl. by intros ->. Qed.

Lemma run_value w : holds w → value self w = (Ok (Some t), w).
Proof.
  intros H. unfold value. apply run_try_ok.
  rewrite (run_bind_ok _ _ _ _ _ (run_data w H)).
  unfold float_of_key. by rewrite Ht.
Qed.

Lemma run_max_delta w : holds w → max_delta self w = (Ok a, w).
Proof.
  intros H. unfold max_delta, max_age.
  rewrite (run_bind_ok _ _ _ _ _ (run_data w H)).
  unfold float_of_key. by rewrite Ha.
Qed.

Lemma run_expiration_date w :
  holds w → expiration_date self w = (Ok (t + a), w).
Proof.
  intros H. unfold expiration_date.
  rewrite (run_bind_ok _ _ _ _ _ (run_value w H)).
  by rewrite (run_bind_ok _ _ _ _ _ (run_max_delta w H)).
Qed.

Lemma run_expired w :
  holds w →
  expired self w =
    (Ok (bool_decide (clock (env w) (ticks w) > t + a)),
     set_ticks (S (ticks w)) w).
Proof.
  intros H. unfold expired.
  rewrite (run_bind_ok datetime_now _ w (set_ticks (S (ticks w)) w)
             (clock (env w) (ticks w))) by done.
  by rewrite (run_bind_ok _ _ _ _ _
                (run_expiration_date _ (holds_set_ticks _ w H))).
Qed.

Lemma run_last_build w :
  holds w → last_build self w = (Ok (json_num d "last_build"), w).
Proof.
  intros H. unfold last_build, json_num, try_except.
  rewrite (run_bind_ok _ _ _ _ _ (run_data w H)).
  unfold float_of_key.
  destruct (d !! "last_build") as [[|l]|]; reflexivity.
Qed.

Lemma run_last_build_age w :
  holds w →
  last_build_age self w =
    match json_num d "last_build" with
    | Some l => (Ok (Some (clock (env w) (ticks w) - l)),
                 set_ticks (S (ticks w)) w)
    | None => (Ok None, w)
    end.
Proof.
  intros H. unfold last_build_age.
  rewrite (run_bind_ok _ _ _ _ _ (run_last_build w H)).
  destruct (json_num d "last_build") as [l|] eqn:E; [|done].
  rewrite (run_bind_ok datetime_now _ w (set_ticks (S (ticks w)) w)
             (clock (env w) (ticks w))) by done.
  rewrite (run_bind_ok _ _ _ _ _
             (run_last_build _ (holds_set_ticks _ w H))).
  by rewrite E.
Qed.

Lemma run_recent_build w :
  holds w →
  recent_build self w =
    match json_num d "last_build" with
    | Some l => (Ok (bool_decide (clock (env w) (S (ticks w)) - l < a)),
                 set_ticks (S (S (ticks w))) w)
    | None => (Ok false, w)
    end.
Proof.
  intros H. unfold recent_build.
  rewrite run_bind, (run_last_build_age w H).
  destruct (json_num d "last_build") as [l|] eqn:E; [|done].
  rewrite run_bind, (run_last_build_age _ (holds_set_ticks _ w H)), E.
  by rewrite (run_bind_ok _ _ _ _ _
                (run_max_delta _ (holds_set_ticks _ _ (holds_set_ticks _ w H)))).
Qed.

Lemma run_alive w :
  holds w →
  (alive self w).1 =
    Ok (negb (bool_decide (clock (env w) (ticks w) > t + a))
        || match json_num d "last_build" with
           | Some l => bool_decide (clock (env w) (S (S (ticks w))) - l < a)
           | None => false
           end).
Proof.
  intros H. unfold alive.
  rewrite run_bind, (run_expired w H).
  rewrite run_bind, (run_recent_build _ (holds_set_ticks _ w H)).
  by destruct (json_num d "last_build").
Qed.
End timestamp_runs.

Lemma to_json_timestamp r : to_json r !! "timestamp" = Some (JNum (touched_at r)).
Proof. unfold to_json. by simplify_map_eq. Qed.

Lemma to_json_max_age r : to_json r !! "max_age" = Some (JNum (rec_max_age r)).
Proof. unfold to_json. by simplify_map_eq. Qed.

Lemma to_json_last_build r : json_num (to_json r) "last_build" = last_build_at r.
Proof.
  unfold json_num, to_json. simplify_map_eq. by destruct (last_build_at r).
Qed.

(** With the clock read three times during one liveness query, the
    verdict compares the first reading with the heartbeat and the third
    with the build marker. *)
Lemma alive_readings w p r :
  holds p (to_json r) w →
  (ipxeTimestamp.alive (Timestamp p) w).1 =
    Ok (negb (spec_is_expired r (clock (env w) (ticks w)))
        || spec_has_recent_build r (clock (env w) (S (S (ticks w))))).
Proof.
  intros H.
  rewrite (run_alive p _ _ _ (to_json_timestamp r) (to_json_max_age r) w H).
  rewrite to_json_last_build. unfold spec_is_expired, spec_has_recent_build.
  do 3 f_equal. apply bool_decide_ext. lia.
Qed.

(** C6: on a valid record, [expired] queried at time [now] is
    [now - touched_at > max_age]; the build marker plays no part: two
    records that differ in it only give the same answer. *)
Theorem expired_spec (w w' : world) (p : string) (r r' : ts_record) (now : Z) :
  holds p (to_json r) w →
  clock (env w) (ticks w) = now →
  holds p (to_json r') w' →
  clock (env w') (ticks w') = now →
  touched_at r' = touched_at r →
  rec_max_age r' = rec_max_age r →
  (ipxeTimestamp.expired (Timestamp p) w).1
    = Ok (bool_decide (now - touched_at r > rec_max_age r))
  ∧ (ipxeTimestamp.expired (Timestamp p) w).1 = Ok (spec_is_expired r now)
  ∧ (ipxeTimestamp.expired (Timestamp p) w').1
    = (ipxeTimestamp.expired (Timestamp p) w).1.
Proof.
  intros H Hc H' Hc' Et Ea.
  rewrite (run_expired p _ _ _ (to_json_timestamp r) (to_json_max_age r) w H).
  rewrite (run_expired p _ _ _ (to_json_timestamp r') (to_json_max_age r') w' H').
  rewrite Hc, Hc', Et, Ea. unfold spec_is_expired. simpl.
  split_and!; f_equal; apply bool_decide_ext; lia.
Qed.

(** C4: on a valid record queried at time [now], [alive] is
    [(not expired) or recent_build]; a build marker younger than
    [max_age] makes the record alive whatever [expired] says. *)
Theorem alive_spec (w : world) (p : string) (r : ts_record) (now : Z) :
  holds p (to_json r) w →
  (∀ n, clock (env w) n = now) →
  (ipxeTimestamp.expired (Timestamp p) w).1 = Ok (spec_is_expired r now)
  ∧ (ipxeTimestamp.recent_build (Timestamp p) w).1
    = Ok (spec_has_recent_build r now)
  ∧ (ipxeTimestamp.alive (Timestamp p) w).1
    = Ok (negb (spec_is_expired r now) || spec_has_recent_build r now)
  ∧ (∀ l, last_build_at r = Some l → now - l < rec_max_age r →
          (ipxeTimestamp.alive (Timestamp p) w).1 = Ok true).
Proof.
  intros H Hc.
  assert (Hx : (ipxeTimestamp.expired (Timestamp p) w).1
               = Ok (spec_is_expired r now)).
  { rewrite (run_expired p _ _ _ (to_json_timestamp r) (to_json_max_age r) w H).
    rewrite Hc. unfold spec_is_expired. simpl. f_equal.
    apply bool_decide_ext. lia. }
  assert (Hr : (ipxeTimestamp.recent_build (Timestamp p) w).1
               = Ok (spec_has_recent_build r now)).
  { rewrite (run_recent_build p _ _ (to_json_max_age r) w H).
    rewrite to_json_last_build. unfold spec_has_recent_build.
    destruct (last_build_at r); [|done]. by rewrite Hc. }
  assert (Hal : (ipxeTimestamp.alive (Timestamp p) w).1
                = Ok (negb (spec_is_expired r now) || spec_has_recent_build r now)).
  { by rewrite (alive_readings w p r H), !Hc. }
  split_and!; try done.
  intros l El Hl. rewrite Hal. f_equal.
  unfold spec_has_recent_build. rewrite El.
  rewrite (bool_decide_eq_true_2 _ Hl). apply orb_true_r.
Qed.

Lemma expired_spec_witness :
  let w := with_record LIVENESS_PATH (TsRecord 0 (seconds 40) None)
             (boot (offline (clock_of [] (seconds 41)))) in
  let w' := with_record LIVENESS_PATH (TsRecord 0 (seconds 40) (Some (seconds 40)))
              (boot (offline (clock_of [] (seconds 41)))) in
  (ipxeTimestamp.expired (Timestamp LIVENESS_PATH) w).1 = Ok true
  ∧ (ipxeTimestamp.expired (Timestamp LIVENESS_PATH) w').1 = Ok true.
Proof.
  intros w w'.
  destruct (expired_spec w w' LIVENESS_PATH
              (TsRecord 0 (seconds 40) None)
              (TsRecord 0 (seconds 40) (Some (seconds 40)))
              (seconds 41)) as (H1 & _ & H2);
    [reflexivity | reflexivity | reflexivity | reflexivity
    | reflexivity | reflexivity |].
  rewrite H2, H1. split; reflexivity.
Defined.

Lemma alive_spec_witness :
  let w := with_record LIVENESS_PATH (TsRecord 0 (seconds 40) (Some (seconds 40)))
             (boot (offline (clock_of [] (seconds 41)))) in
  (ipxeTimestamp.expired (Timestamp LIVENESS_PATH) w).1 = Ok true
  ∧ (ipxeTimestamp.alive (Timestamp LIVENESS_PATH) w).1 = Ok true.
Proof.
  intros w.
  destruct (alive_spec w LIVENESS_PATH
              (TsRecord 0 (seconds 40) (Some (seconds 40))) (seconds 41))
    as (H1 & _ & _ & H2); [reflexivity | reflexivity |].
  split.
  - exact H1.
  - apply (H2 (seconds 40)); reflexivity.
Defined.

(** The scenario of the design document: a store created at [t = 0]
    with [max_age = 40s] is alive at 39s, dead at 41s without a build,
    and alive at 41s with a build completed at 40s. *)
Example liveness_scenario :
  let created t :=
    exec (ipxeTimestamp.init LIVENESS_PATH (seconds 40) None)
      (boot (offline (clock_of [0] (seconds t)))) in
  let built t :=
    exec (ipxeTimestamp.refresh_build (Timestamp LIVENESS_PATH))
      (exec (ipxeTimestamp.init LIVENESS_PATH (seconds 40) None)
         (boot (offline (clock_of [0; seconds 40] (seconds t))))) in
  (ipxeTimestamp.alive (Timestamp LIVENESS_PATH) (created 39)).1 = Ok true
  ∧ (ipxeTimestamp.alive (Timestamp LIVENESS_PATH) (created 41)).1 = Ok false
  ∧ (ipxeTimestamp.alive (Timestamp LIVENESS_PATH) (built 41)).1 = Ok true.
Proof. vm_compute. done. Qed.

(** C10: a handle got by [byref] whose file is gone when it is read:
    [_data] gives the record with every field [None], and [value],
    [expired] and [alive] raise [TypeError] instead of answering. *)
Theorem deleted_record_raises (w0 w1 w : world) (p : string) (ts : ipxeTimestamp) :
  ipxeTimestamp.byref p w0 = (Ok ts, w1) →
  tsfiles w !! p = None →
  (ipxeTimestamp._data ts w).1 = Ok no_data
  ∧ (ipxeTimestamp.value ts w).1 = Raise TypeError
  ∧ (ipxeTimestamp.expired ts w).1 = Raise TypeError
  ∧ (ipxeTimestamp.alive ts w).1 = Raise TypeError.
Proof.
  intros Hb Hw.
  assert (ts = Timestamp p) as ->.
  { unfold ipxeTimestamp.byref in Hb. rewrite run_bind in Hb.
    unfold gets in Hb. destruct (bool_decide _); by inversion Hb. }
  assert (Hd : ∀ w', tsfiles w' !! p = None →
                     ipxeTimestamp._data (Timestamp p) w' = (Ok no_data, w')).
  { intros w' E. unfold ipxeTimestamp._data, gets. simpl. by rewrite E. }
  assert (Hv : ∀ w', tsfiles w' !! p = None →
                     ipxeTimestamp.value (Timestamp p) w' = (Raise TypeError, w')).
  { intros w' E. unfold ipxeTimestamp.value, try_except.
    by rewrite (run_bind_ok _ _ _ _ _ (Hd w' E)). }
  assert (Hx : ∀ w', tsfiles w' !! p = None →
                     (ipxeTimestamp.expired (Timestamp p) w').1 = Raise TypeError).
  { intros w' E. unfold ipxeTimestamp.expired.
    rewrite (run_bind_ok datetime_now _ w' (set_ticks (S (ticks w')) w')
               (clock (env w') (ticks w'))) by done.
    unfold ipxeTimestamp.expiration_date.
    rewrite run_bind, run_bind, (Hv (set_ticks _ w')); done. }
  split_and!.
  - by rewrite (Hd w Hw).
  - by rewrite (Hv w Hw).
  - by apply Hx.
  - unfold ipxeTimestamp.alive. rewrite run_bind.
    specialize (Hx w Hw).
    destruct (ipxeTimestamp.expired (Timestamp p) w) as [[b|e] w'];
      simpl in Hx; by inversion Hx.
Qed.

Lemma deleted_record_raises_witness :
  let w0 := with_record LIVENESS_PATH (TsRecord 0 (seconds 40) None)
              (boot (offline (clock_of [] (seconds 1)))) in
  let w := (ipxeTimestamp.delete (Timestamp LIVENESS_PATH) w0).2 in
  (ipxeTimestamp.alive (Timestamp LIVENESS_PATH) w0).1 = Ok true
  ∧ (ipxeTimestamp.alive (Timestamp LIVENESS_PATH) w).1 = Raise TypeError.
Proof.
  intros w0 w. split; [reflexivity |].
  apply (deleted_record_raises w0 w0 w LIVENESS_PATH (Timestamp LIVENESS_PATH));
    reflexivity.
Defined.

(** ** The getters of the timestamp are queries *)

Lemma set_ticks_same w : set_ticks (ticks w) w = w.
Proof. by destruct w. Qed.

Lemma query_ret {A} (a : A) : query (mret a).
Proof. intros w. split; [exists (ticks w); by rewrite set_ticks_same | done]. Qed.

Lemma query_gets {A} (f : world → A) : query (gets f).
Proof. intros w. split; [exists (ticks w); by rewrite set_ticks_same | done]. Qed.

Lemma query_now : query datetime_now.
Proof. intros w. split; [by eexists | done]. Qed.

Lemma query_raise_TypeError {A} : query (raise (A:=A) TypeError).
Proof.
  intros w. split; [exists (ticks w); by rewrite set_ticks_same |].
  intros e [= <-]. by left.
Qed.

Lemma query_raise_KeyError {A} : query (raise (A:=A) KeyError).
Proof.
  intros w. split; [exists (ticks w); by rewrite set_ticks_same |].
  intros e [= <-]. by right.
Qed.

Lemma query_bind {A B} (m : M world A) (f : A → M world B) :
  query m → (∀ a, query (f a)) → query (m ≫= f).
Proof.
  intros Hm Hf w. rewrite run_bind.
  destruct (Hm w) as [[n Hn] He].
  destruct (m w) as [[a|e] w1]; simpl in *; subst w1.
  - destruct (Hf a (set_ticks n w)) as [[k Hk] He'].
    split; [exists k; by rewrite Hk | exact He'].
  - split; [by eexists |]. intros e' [= <-]. by apply He.
Qed.

Lemma query_try {A} (m : M world A) h :
  query m → (∀ e k, h e = Some k → query k) → query (try_except m h).
Proof.
  intros Hm Hh w. unfold try_except.
  destruct (Hm w) as [[n Hn] He].
  destruct (m w) as [[a|e] w1]; simpl in *; subst w1.
  - split; [by eexists | exact He].
  - destruct (h e) as [k|] eqn:E.
    + destruct (Hh e k E (set_ticks n w)) as [[j Hj] He'].
      split; [exists j; by rewrite Hj | exact He'].
    + split; [by eexists | exact He].
Qed.

Create HintDb query discriminated.
#[local] Hint Resolve query_ret query_gets query_now query_raise_TypeError
  query_raise_KeyError : query.

Ltac query_step :=
  first [ solve [eauto with query]
        | apply query_bind; [| intros ?]
        | apply query_try; [| intros ? ? ?]
        | case_match ].

Lemma query_float_of_key d key : query (ipxeTimestamp.float_of_key d key).
Proof. unfold ipxeTimestamp.float_of_key. repeat query_step. Qed.

Lemma query_data self : query (ipxeTimestamp._data self).
Proof. unfold ipxeTimestamp._data. repeat query_step. Qed.

#[local] Hint Resolve query_float_of_key query_data : query.

Lemma query_value self : query (ipxeTimestamp.value self).
Proof. unfold ipxeTimestamp.value. repeat query_step; simplify_eq; eauto with query. Qed.

Lemma query_last_build self : query (ipxeTimestamp.last_build self).
Proof. unfold ipxeTimestamp.last_build. repeat query_step; simplify_eq; eauto with query. Qed.

Lemma query_max_delta self : query (ipxeTimestamp.max_delta self).
Proof. unfold ipxeTimestamp.max_delta, ipxeTimestamp.max_age. repeat query_step. Qed.

#[local] Hint Resolve query_value query_last_build query_max_delta : query.

Lemma query_last_build_age self : query (ipxeTimestamp.last_build_age self).
Proof. unfold ipxeTimestamp.last_build_age. repeat query_step. Qed.

Lemma query_expired self : query (ipxeTimestamp.expired self).
Proof.
  unfold ipxeTimestamp.expired, ipxeTimestamp.expiration_date.
  repeat query_step.
Qed.

#[local] Hint Resolve query_last_build_age query_expired : query.

Lemma query_recent_build self : query (ipxeTimestamp.recent_build self).
Proof. unfold ipxeTimestamp.recent_build. repeat query_step. Qed.

#[local] Hint Resolve query_recent_build : query.

Lemma query_alive self : query (ipxeTimestamp.alive self).
Proof. unfold ipxeTimestamp.alive. repeat query_step. Qed.

(** The four ways the probe can run. *)
Lemma byref_present p w :
  is_Some (tsfiles w !! p) → ipxeTimestamp.byref p w = (Ok (Timestamp p), w).
Proof.
  intros H. unfold ipxeTimestamp.byref. rewrite run_bind. unfold gets.
  by rewrite bool_decide_eq_true_2.
Qed.

Lemma byref_absent p w :
  tsfiles w !! p = None → ipxeTimestamp.byref p w = (Raise ipxeTimestampNoEnt, w).
Proof.
  intros H. unfold ipxeTimestamp.byref. rewrite run_bind. unfold gets.
  rewrite bool_decide_eq_false_2; [done |]. rewrite H. by intros [? [=]].
Qed.

Lemma main_no_record w :
  tsfiles w !! LIVENESS_PATH = None →
  liveness.main w =
    (Raise (SystemExit 1),
     set_trace (trace w ++ [EvLog "WARNING" liveness.no_data_message]) w).
Proof.
  intros H. unfold liveness.main, try_except.
  by rewrite (run_bind_raise _ _ _ _ _ (byref_absent _ w H)).
Qed.

Lemma main_alive w w' :
  is_Some (tsfiles w !! LIVENESS_PATH) →
  ipxeTimestamp.alive (Timestamp LIVENESS_PATH) w = (Ok true, w') →
  liveness.main w = (Raise (SystemExit 0), w').
Proof.
  intros H Ha. unfold liveness.main, try_except.
  rewrite (run_bind_ok _ _ _ _ _ (byref_present _ w H)).
  by rewrite (run_bind_ok _ _ _ _ _ Ha).
Qed.

Lemma main_dead w w' :
  is_Some (tsfiles w !! LIVENESS_PATH) →
  ipxeTimestamp.alive (Timestamp LIVENESS_PATH) w = (Ok false, w') →
  liveness.main w =
    (Raise (SystemExit 1),
     set_trace (trace w' ++ [EvLog "WARNING" liveness.expired_message]) w').
Proof.
  intros H Ha. unfold liveness.main, try_except.
  rewrite (run_bind_ok _ _ _ _ _ (byref_present _ w H)).
  by rewrite (run_bind_ok _ _ _ _ _ Ha).
Qed.

Lemma main_error w w' e :
  is_Some (tsfiles w !! LIVENESS_PATH) →
  ipxeTimestamp.alive (Timestamp LIVENESS_PATH) w = (Raise e, w') →
  e = TypeError ∨ e = KeyError →
  liveness.main w = (Raise e, w').
Proof.
  intros H Ha He. unfold liveness.main, try_except.
  rewrite (run_bind_ok _ _ _ _ _ (byref_present _ w H)).
  rewrite (run_bind_raise _ _ _ _ _ Ha).
  by destruct He as [-> | ->].
Qed.

(** C8: the probe exits with status 0 exactly when the record exists
    and [alive] is true; with status 1 when the record exists and is not
    alive, and when there is no record, each with a warning of its
    own. *)
Theorem probe_exit_status (w : world) :
  let ts := Timestamp LIVENESS_PATH in
  let r := liveness.main w in
  (exit_status r.1 = 0 ↔
     is_Some (tsfiles w !! LIVENESS_PATH) ∧ (ipxeTimestamp.alive ts w).1 = Ok true)
  ∧ (is_Some (tsfiles w !! LIVENESS_PATH) →
     (ipxeTimestamp.alive ts w).1 = Ok false →
     exit_status r.1 = 1
     ∧ logged (trace r.2) = (logged (trace w) ++ [liveness.expired_message])%list)
  ∧ (tsfiles w !! LIVENESS_PATH = None →
     exit_status r.1 = 1
     ∧ logged (trace r.2) = (logged (trace w) ++ [liveness.no_data_message])%list)
  ∧ (exit_status r.1 = 0 ∨ exit_status r.1 = 1)
  ∧ liveness.expired_message ≠ liveness.no_data_message.
Proof.
  intros ts r. subst r.
  destruct (tsfiles w !! LIVENESS_PATH) as [d|] eqn:E.
  - assert (Hd : is_Some (tsfiles w !! LIVENESS_PATH)) by (rewrite E; eauto).
    destruct (query_alive ts w) as [[n Hn] He].
    destruct (ipxeTimestamp.alive ts w) as [[[|]|e] w1] eqn:Ea;
      simpl in Hn; subst w1.
    + rewrite (main_alive w _ Hd Ea). simpl. split_and!; try done; eauto.
    + rewrite (main_dead w _ Hd Ea). simpl.
      unfold logged. rewrite omap_app. simpl.
      split_and!; try done; eauto. split; [done | by intros [_ [=]]].
    + specialize (He e eq_refl).
      rewrite (main_error w _ e Hd Ea He).
      destruct He as [-> | ->]; simpl;
        (split_and!; try done; eauto; split; [done | by intros [_ [=]]]).
  - rewrite (main_no_record w E). simpl.
    unfold logged. rewrite omap_app. simpl.
    split_and!; try done; eauto.
    split; [done | by intros [[? [=]] _]].
Qed.

Lemma probe_exit_status_witness :
  let alive_w := with_record LIVENESS_PATH (TsRecord 0 (seconds 40) None)
                   (boot (offline (clock_of [] (seconds 39)))) in
  let dead_w := with_record LIVENESS_PATH (TsRecord 0 (seconds 40) None)
                  (boot (offline (clock_of [] (seconds 41)))) in
  let no_w := boot (offline (clock_of [] (seconds 41))) in
  exit_status (liveness.main alive_w).1 = 0
  ∧ (exit_status (liveness.main dead_w).1 = 1
     ∧ logged (trace (liveness.main dead_w).2) = [liveness.expired_message])
  ∧ (exit_status (liveness.main no_w).1 = 1
     ∧ logged (trace (liveness.main no_w).2) = [liveness.no_data_message]).
Proof.
  intros alive_w dead_w no_w.
  destruct (probe_exit_status alive_w) as (H0 & _).
  destruct (probe_exit_status dead_w) as (_ & H1 & _).
  destruct (probe_exit_status no_w) as (_ & _ & H2 & _).
  split; [| split].
  - apply H0. split; [by eexists | reflexivity].
  - apply H1; [by eexists | reflexivity].
  - apply H2. reflexivity.
Defined.

(** ** tokens.py: when a token is about to expire *)

(** C7: for a token that decodes and carries an [exp] claim,
    [token_expiring_soon] is true exactly when
    [now >= exp - int(min_remaining_valid_time)], [now] in whole
    seconds; so a token with 1000 seconds left is expiring soon for the
    setting ["1800"] and not for ["500"]. *)
Theorem token_expiring_soon_spec (w : world) (token : string)
    (claims : gmap string pyval) (exp : Z) (setting : string) (buffer : Z) :
  jwt_decode (env w) token = Some claims →
  claims !! "exp" = Some (PInt exp) →
  int_of_str setting = Some buffer →
  let tnow := clock (env w) (ticks w) `quot` 1000000 in
  let soon := (tokens.token_expiring_soon (Some token) (PStr setting) w).1 in
  soon = Ok (bool_decide (tnow >= exp - buffer))
  ∧ (exp = tnow + 1000 → setting = "1800" → soon = Ok true)
  ∧ (exp = tnow + 1000 → setting = "500" → soon = Ok false).
Proof.
  intros Hd He Hi tnow soon.
  assert (Hs : soon = Ok (bool_decide (tnow >= exp - buffer))).
  { subst soon. unfold tokens.token_expiring_soon.
    rewrite run_bind. unfold gets at 1. rewrite Hd, He. simpl.
    rewrite run_bind. unfold tokens.int_time. rewrite run_bind.
    unfold datetime_now at 1. unfold mret at 1, M_ret.
    rewrite run_bind. unfold py_int. rewrite Hi. reflexivity. }
  split_and!; [done | |].
  - intros -> ->. rewrite Hs. vm_compute in Hi. injection Hi as <-.
    f_equal. apply bool_decide_eq_true_2. lia.
  - intros -> ->. rewrite Hs. vm_compute in Hi. injection Hi as <-.
    f_equal. apply bool_decide_eq_false_2. lia.
Qed.

Lemma token_expiring_soon_spec_witness :
  let o now := cluster (clock_of [] (seconds now)) names_x86 "CERT" "bss" "dbg"
                 "tok" 2000 [] in
  (tokens.token_expiring_soon (Some "tok") (PStr "1800") (container (o 1000))).1
    = Ok true
  ∧ (tokens.token_expiring_soon (Some "tok") (PStr "500") (container (o 1000))).1
    = Ok false
  ∧ (tokens.token_expiring_soon (Some "tok") (PStr "500") (container (o 1500))).1
    = Ok true.
Proof.
  intros o. split_and!.
  - apply (token_expiring_soon_spec (container (o 1000)) "tok"
             {[ "exp" := PInt 2000 ]} 2000 "1800" 1800); reflexivity.
  - apply (token_expiring_soon_spec (container (o 1000)) "tok"
             {[ "exp" := PInt 2000 ]} 2000 "500" 500); reflexivity.
  - destruct (token_expiring_soon_spec (container (o 1500)) "tok"
                {[ "exp" := PInt 2000 ]} 2000 "500" 500) as [H _];
      [reflexivity | reflexivity | reflexivity | exact H].
Defined.

(** The other ways out of [token_expiring_soon]: no token, a token that
    does not decode and a token without [exp] are all expiring. *)
Lemma token_expiring_soon_degenerate (w : world) (token : string) (setting : pyval) :
  (tokens.token_expiring_soon None setting w).1 = Ok true
  ∧ (jwt_decode (env w) token = None →
     (tokens.token_expiring_soon (Some token) setting w).1 = Ok true)
  ∧ (∀ claims, jwt_decode (env w) token = Some claims →
       default PNone (claims !! "exp") = PNone →
       (tokens.token_expiring_soon (Some token) setting w).1 = Ok true).
Proof.
  split_and!; [done | |].
  - intros H. unfold tokens.token_expiring_soon. rewrite run_bind.
    unfold gets at 1. by rewrite H.
  - intros claims H E. unfold tokens.token_expiring_soon. rewrite run_bind.
    unfold gets at 1. by rewrite H, E.
Qed.

(** ** Frames: what the properties of a builder leave alone *)

Section frames.
Variable ok : event → Prop.

Lemma grows_refl w : grows ok w w.
Proof. split; [done |]. exists []. by rewrite app_nil_r. Qed.

Lemma grows_trans w1 w2 w3 : grows ok w1 w2 → grows ok w2 w3 → grows ok w1 w3.
Proof.
  intros [E1 (e1 & T1 & F1)] [E2 (e2 & T2 & F2)]. split; [congruence |].
  exists (e1 ++ e2)%list. rewrite T2, T1, app_assoc. split; [done |].
  by apply Forall_app.
Qed.

Lemma extends_refl s : extends ok s s.
Proof. split_and!; [done | done | done | apply grows_refl]. Qed.

Lemma extends_trans s1 s2 s3 :
  extends ok s1 s2 → extends ok s2 s3 → extends ok s1 s3.
Proof.
  intros (C1 & F1 & I1 & G1) (C2 & F2 & I2 & G2).
  split_and!; [congruence | auto | auto | by eapply grows_trans].
Qed.

(** On the machine. *)
Lemma wsteps_ret {A} (a : A) : steps (grows ok) (mret a).
Proof. intros w. apply grows_refl. Qed.

Lemma wsteps_raise {A} e : steps (grows ok) (raise (A:=A) e).
Proof. intros w. apply grows_refl. Qed.

Lemma wsteps_gets {A} (f : world → A) : steps (grows ok) (gets f).
Proof. intros w. apply grows_refl. Qed.

Lemma wsteps_bind {A B} (m : M world A) (f : A → M world B) :
  steps (grows ok) m → (∀ a, steps (grows ok) (f a)) →
  steps (grows ok) (m ≫= f).
Proof.
  intros Hm Hf w. rewrite run_bind. specialize (Hm w).
  destruct (m w) as [[a|e] w1]; simpl in *; [| done].
  eapply grows_trans; [exact Hm | apply Hf].
Qed.

Lemma wsteps_try {A} (m : M world A) h :
  steps (grows ok) m → (∀ e k, h e = Some k → steps (grows ok) k) →
  steps (grows ok) (try_except m h).
Proof.
  intros Hm Hh w. unfold try_except. specialize (Hm w).
  destruct (m w) as [[a|e] w1]; simpl in *; [done |].
  destruct (h e) as [k|] eqn:E; [| done].
  eapply grows_trans; [exact Hm | by eapply Hh].
Qed.

Lemma wsteps_modify (f : world → world) :
  (∀ w, env (f w) = env w ∧ trace (f w) = trace w) →
  steps (grows ok) (modify f).
Proof.
  intros H w. destruct (H w) as [E T]. split; [done |].
  exists []. simpl. by rewrite T, app_nil_r.
Qed.

Lemma wsteps_emit e : ok e → steps (grows ok) (emit e).
Proof. intros H w. split; [done |]. exists [e]. by repeat constructor. Qed.

Lemma wsteps_now : steps (grows ok) datetime_now.
Proof. intros w. split; [done |]. exists []. simpl. by rewrite app_nil_r. Qed.

(** On the builder. *)
Lemma steps_ret {A} (a : A) : steps (extends ok) (mret a).
Proof. intros s. apply extends_refl. Qed.

Lemma steps_raise {A} e : steps (extends ok) (raise (A:=A) e).
Proof. intros s. apply extends_refl. Qed.

Lemma steps_attr {A} (f : builder → A) : steps (extends ok) (attr f).
Proof. intros s. apply extends_refl. Qed.

Lemma steps_bind {A B} (m : M state A) (f : A → M state B) :
  steps (extends ok) m → (∀ a, steps (extends ok) (f a)) →
  steps (extends ok) (m ≫= f).
Proof.
  intros Hm Hf s. rewrite run_bind. specialize (Hm s).
  destruct (m s) as [[a|e] s1]; simpl in *; [| done].
  eapply extends_trans; [exact Hm | apply Hf].
Qed.

Lemma steps_try {A} (m : M state A) h :
  steps (extends ok) m → (∀ e k, h e = Some k → steps (extends ok) k) →
  steps (extends ok) (try_except m h).
Proof.
  intros Hm Hh s. unfold try_except. specialize (Hm s).
  destruct (m s) as [[a|e] s1]; simpl in *; [done |].
  destruct (h e) as [k|] eqn:E; [| done].
  eapply extends_trans; [exact Hm | by eapply Hh].
Qed.

Lemma steps_lift {A} (m : M world A) :
  steps (grows ok) m → steps (extends ok) (lift m).
Proof.
  intros Hm s. unfold lift. specialize (Hm (os s)).
  destruct (m (os s)) as [r w]. simpl in *. by split_and!.
Qed.

Lemma steps_assign (f : builder → builder) :
  (∀ b, cls (f b) = cls b
        ∧ (recreation_necessary b = true → recreation_necessary (f b) = true)
        ∧ (configmap_inv b → configmap_inv (f b))) →
  steps (extends ok) (assign f).
Proof.
  intros H s. destruct (H (self s)) as (C & F & I).
  split_and!; [done | done | done | apply grows_refl].
Qed.

Lemma wsteps_service {A} (r : result A) : steps (grows ok) (service r).
Proof. destruct r; [apply wsteps_ret | apply wsteps_raise]. Qed.

Lemma wsteps_py_int v : steps (grows ok) (py_int v).
Proof.
  destruct v; simpl; try case_match;
    first [apply wsteps_ret | apply wsteps_raise].
Qed.
End frames.

Create HintDb frame discriminated.

Ltac frame_step :=
  first [ solve [eauto with frame]
        | apply steps_bind; [| intros ?]
        | apply wsteps_bind; [| intros ?]
        | apply steps_try; [| intros ? ? ?]
        | apply wsteps_try; [| intros ? ? ?]
        | apply steps_lift
        | apply wsteps_modify; intros ?; split; reflexivity
        | apply steps_assign; intros ?; split_and!; solve [auto]
        | apply wsteps_emit; solve [auto]
        | case_match
        | progress simplify_eq ].

Ltac frame := repeat frame_step.

Section builder_frames.
Import BinaryBuilder.
Variable ok : event → Prop.
Hypothesis ok_log : ∀ level message, ok (EvLog level message).
Hypothesis ok_settings : ok (EvFetch ASettings).

#[local] Hint Resolve wsteps_ret wsteps_raise wsteps_gets wsteps_now
  wsteps_service wsteps_py_int steps_ret steps_raise steps_attr : frame.

Lemma frame_log level message : steps (grows ok) (log level message).
Proof. apply wsteps_emit, ok_log. Qed.
#[local] Hint Resolve frame_log : frame.

Lemma frame_global_settings : steps (extends ok) global_settings.
Proof. unfold global_settings. frame. Qed.
#[local] Hint Resolve frame_global_settings : frame.

Lemma frame_settings_get key dflt : steps (extends ok) (settings_get key dflt).
Proof. unfold settings_get. frame. Qed.
#[local] Hint Resolve frame_settings_get : frame.

Lemma frame_enabled : steps (extends ok) enabled.
Proof. unfold enabled. frame. Qed.

Lemma frame_set_log_level : steps (extends ok) set_log_level.
Proof. unfold set_log_level. frame. Qed.

Lemma frame_binary_name : steps (extends ok) binary_name.
Proof. unfold binary_name. frame. Qed.

Lemma frame_debug_binary_name : steps (extends ok) debug_binary_name.
Proof. unfold debug_binary_name. frame. Qed.

Lemma frame_arch_build_dir : steps (extends ok) arch_build_dir.
Proof. unfold arch_build_dir. frame. Qed.
#[local] Hint Resolve frame_enabled frame_set_log_level frame_binary_name
  frame_debug_binary_name frame_arch_build_dir : frame.

Lemma frame_built_binary_abs_path : steps (extends ok) built_binary_abs_path.
Proof. unfold built_binary_abs_path. frame. Qed.

Lemma frame_destination_abs_path : steps (extends ok) destination_abs_path.
Proof. unfold destination_abs_path, join_name. frame. Qed.

Lemma frame_debug_destination_abs_path :
  steps (extends ok) debug_destination_abs_path.
Proof. unfold debug_destination_abs_path, join_name. frame. Qed.
#[local] Hint Resolve frame_built_binary_abs_path frame_destination_abs_path
  frame_debug_destination_abs_path : frame.

(** Publishing moves a file. *)
Hypothesis ok_move : ∀ src dst, ok (EvMove src dst).

Lemma frame_move src dst : steps (grows ok) (move src dst).
Proof. unfold move. frame. Qed.
#[local] Hint Resolve frame_move : frame.

Lemma frame_publish_binary : steps (extends ok) publish_binary.
Proof. unfold publish_binary. frame. Qed.

Lemma frame_publish_debug : steps (extends ok) publish_debug.
Proof. unfold publish_debug. frame. Qed.
End builder_frames.

(** ** A round of polling *)

Lemma added_app w w' evs : trace w' = (trace w ++ evs)%list → added w w' = evs.
Proof. intros H. unfold added. rewrite H. apply drop_app_length. Qed.

Lemma fetches_app e1 e2 : fetches (e1 ++ e2) = (fetches e1 ++ fetches e2)%list.
Proof. apply omap_app. Qed.

Lemma gsteps_bind {S A B} (R : S → S → Prop) (m : M S A) (f : A → M S B) :
  (∀ x y z, R x y → R y z → R x z) →
  steps R m → (∀ a, steps R (f a)) → steps R (m ≫= f).
Proof.
  intros HR Hm Hf s. rewrite run_bind. specialize (Hm s).
  destruct (m s) as [[a|e] s1]; simpl in *; [| done].
  eapply HR; [exact Hm | apply Hf].
Qed.

Lemma polls_refl s : polls s s.
Proof. split; [apply extends_refl | done]. Qed.

Lemma polls_trans s1 s2 s3 : polls s1 s2 → polls s2 s3 → polls s1 s3.
Proof.
  intros [E1 Q1] [E2 Q2]. split; [by eapply extends_trans |].
  destruct E1 as (_ & _ & _ & _ & e1 & T1 & _).
  destruct E2 as (_ & _ & _ & _ & e2 & T2 & _).
  rewrite (added_app (os s1) (os s3) (e1 ++ e2)) by (by rewrite T2, T1, app_assoc).
  rewrite (added_app _ _ _ T1) in Q1. rewrite (added_app _ _ _ T2) in Q2.
  rewrite fetches_app. intros [F1 F2]%app_eq_nil.
  by rewrite Q2, Q1.
Qed.

(** A step that leaves the builder alone polls, if its events are
    allowed. *)
Lemma polls_same_self {A} (m : M state A) :
  steps (extends ok_poll) m → (∀ s, self (m s).2 = self s) → steps polls m.
Proof. intros H Hs s. split; [apply H | by rewrite Hs]. Qed.

Ltac decided :=
  repeat match goal with
         | H : bool_decide _ = true |- _ => apply bool_decide_eq_true_1 in H
         | H : bool_decide _ = false |- _ => apply bool_decide_eq_false_1 in H
         end.

Lemma polls_global_settings : steps polls BinaryBuilder.global_settings.
Proof.
  intros s. split; [by apply frame_global_settings |].
  destruct s as [b w]. destruct b, w.
  unfold BinaryBuilder.global_settings, added.
  cbv [mbind M_bind attr gets assign modify lift mret M_ret emit log
       datetime_now service raise]; simpl.
  repeat (case_match; simpl in *; simplify_eq); simpl;
    rewrite <- ?app_assoc, ?drop_app_length, ?drop_all; simpl; try done.
  all: by decided.
Qed.

(** Inversion of a sequence that ends well. *)
Lemma bind_ok_inv {S A B} (m : M S A) (f : A → M S B) s b s' :
  (m ≫= f) s = (Ok b, s') →
  ∃ a s1, m s = (Ok a, s1) ∧ f a s1 = (Ok b, s').
Proof.
  rewrite run_bind. destruct (m s) as [[a|e] s1]; [eauto | done].
Qed.

(** What holds of reading the settings, logging and sleeping holds of
    a round that is skipped. *)
Section polling.
Import BinaryBuilder.
Variable R : state → state → Prop.
Hypothesis R_refl : ∀ s, R s s.
Hypothesis R_trans : ∀ s1 s2 s3, R s1 s2 → R s2 s3 → R s1 s3.
Hypothesis R_global_settings : steps R global_settings.
Hypothesis R_log : ∀ level message, steps R (lift (log level message)).
Hypothesis R_sleep : ∀ n, steps R (lift (time_sleep n)).

Lemma poll_ret {A} (a : A) : steps R (mret a).
Proof. intros s. apply R_refl. Qed.

Lemma poll_raise {A} e : steps R (raise (A:=A) e).
Proof. intros s. apply R_refl. Qed.

Lemma poll_attr {A} (f : builder → A) : steps R (attr f).
Proof. intros s. apply R_refl. Qed.

Lemma poll_bind {A B} (m : M state A) (f : A → M state B) :
  steps R m → (∀ a, steps R (f a)) → steps R (m ≫= f).
Proof. apply gsteps_bind, R_trans. Qed.

Lemma poll_settings_get key dflt : steps R (settings_get key dflt).
Proof.
  unfold settings_get. apply poll_bind; [apply R_global_settings |].
  intros [m|]; [apply poll_ret | apply poll_raise].
Qed.

Lemma poll_enabled : steps R enabled.
Proof.
  unfold enabled.
  apply poll_bind; [apply poll_attr | intros k; apply poll_settings_get].
Qed.

Lemma poll_set_log_level : steps R set_log_level.
Proof.
  unfold set_log_level. apply poll_bind; [apply poll_settings_get |].
  intros [|n|name]; [apply poll_raise | apply poll_ret |].
  case_match; [apply poll_ret | apply R_log].
Qed.

Lemma cycle_skipped first_time s s' :
  cycle first_time s = (Ok Skipped, s') → R s s'.
Proof.
  unfold cycle. intros H.
  apply bind_ok_inv in H as ([] & s1 & H1 & H).
  apply bind_ok_inv in H as ([] & s2 & H2 & H).
  apply bind_ok_inv in H as (on & s3 & H3 & H).
  assert (P : R s s3).
  { eapply R_trans; [| eapply R_trans].
    - pose proof (poll_set_log_level s) as P. by rewrite H1 in P.
    - assert (P : steps R (if negb first_time
                  then lift (time_sleep TIME_BETWEEN_BUILDCHECKS) else mret ())).
      { destruct first_time; [apply poll_ret | apply R_sleep]. }
      specialize (P s1). rewrite H2 in P. exact P.
    - pose proof (poll_enabled s2) as P. by rewrite H3 in P. }
  destruct (negb (truthy on)).
  { unfold mret, M_ret in H. by simplify_eq. }
  exfalso.
  apply bind_ok_inv in H as (c1 & s4 & _ & H).
  apply bind_ok_inv in H as ([bc be] & s5 & _ & H).
  apply bind_ok_inv in H as (c2 & s6 & _ & H).
  apply bind_ok_inv in H as ([dc de] & s7 & _ & H).
  apply bind_ok_inv in H as (necessary & s8 & _ & H).
  destruct (negb necessary); [done |].
  by apply bind_ok_inv in H as ([] & s9 & _ & H).
Qed.
End polling.

Lemma polls_lift {A} (m : M world A) :
  steps (grows ok_poll) m → steps polls (lift m).
Proof.
  intros H. apply polls_same_self; [by apply steps_lift |].
  intros s. unfold lift. by destruct (m (os s)).
Qed.

Lemma idles_refl s : idles s s.
Proof. intros H. split; [done |]. exists []. by rewrite app_nil_r. Qed.

Lemma idles_trans s1 s2 s3 : idles s1 s2 → idles s2 s3 → idles s1 s3.
Proof.
  intros H1 H2 F1. destruct (H1 F1) as (F2 & e1 & T1 & N1).
  destruct (H2 F2) as (F3 & e2 & T2 & N2). split; [done |].
  exists (e1 ++ e2)%list. rewrite T2, T1, app_assoc, fetches_app, N1, N2. done.
Qed.

Lemma idles_global_settings : steps idles BinaryBuilder.global_settings.
Proof.
  intros s [Hd Hc]. destruct s as [b w].
  destruct b, w as [o tk tsf fs tc mc tr]. simpl in *.
  unfold BinaryBuilder.global_settings, fresh_cache.
  cbv [mbind M_bind attr gets assign modify lift mret M_ret emit log
       datetime_now service raise]; simpl.
  rewrite Hd. simpl.
  destruct (float_truthy _) eqn:Ef; simpl.
  - rewrite bool_decide_eq_false_2 by (specialize (Hc tk); lia). simpl.
    rewrite Hd. simpl.
    rewrite bool_decide_eq_false_2 by (by intros []). simpl.
    split_and!; [done | done |]. exists []. by rewrite app_nil_r.
  - rewrite Hd. simpl.
    rewrite bool_decide_eq_false_2 by (by intros []). simpl.
    split_and!; [done | done |]. exists []. by rewrite app_nil_r.
Qed.

Lemma idles_lift_emit e :
  fetches [e] = [] → steps idles (lift (emit e)).
Proof.
  intros He s F. split; [exact F |]. by exists [e].
Qed.


(** C3, as the code has it: a round in which the builder is found
    disabled makes no remote call but reads of the global settings, runs
    no toolchain, and never clears [recreation_necessary]; the flag
    changes only if the settings were read from the service, and with a
    fresh cache no remote call is made at all and the flag is
    unchanged. *)
Theorem disabled_cycle_polls (first_time : bool) (s s' : state) :
  BinaryBuilder.cycle first_time s = (Ok BinaryBuilder.Skipped, s') →
  let evs := added (os s) (os s') in
  Forall ok_poll evs
  ∧ (∀ a, a ∈ fetches evs → a = ASettings)
  ∧ (recreation_necessary (self s) = true →
     recreation_necessary (self s') = true)
  ∧ (fetches evs = [] →
     recreation_necessary (self s') = recreation_necessary (self s))
  ∧ (fresh_cache s →
     fetches evs = []
     ∧ recreation_necessary (self s') = recreation_necessary (self s)).
Proof.
  intros H evs.
  assert (P : polls s s').
  { apply (cycle_skipped polls polls_refl polls_trans polls_global_settings)
      with first_time; [| | done].
    - intros l m. apply polls_lift, wsteps_emit. done.
    - intros n. apply polls_lift, wsteps_emit. done. }
  assert (I : idles s s').
  { apply (cycle_skipped idles idles_refl idles_trans idles_global_settings)
      with first_time; [| | done].
    - intros l m. by apply idles_lift_emit.
    - intros n. by apply idles_lift_emit. }
  destruct P as [(_ & Hf & _ & _ & e & T & Hok) Hq].
  subst evs. rewrite (added_app _ _ _ T) in *.
  split_and!; [done | | done | done |].
  - intros a Ha. unfold fetches in Ha. apply list_elem_of_omap in Ha as (ev & Hin & Hev).
    rewrite Forall_forall in Hok. specialize (Hok ev Hin).
    destruct ev as [[]| | | | | | |]; simpl in *; by simplify_eq.
  - intros F. destruct (I F) as (_ & e' & T' & N).
    assert (e' = e) as -> by (rewrite T in T'; by apply app_inv_head in T').
    split; [done | by apply Hq].
Qed.

Lemma disabled_cycle_polls_witness :
  let s := exec (BinaryBuilder.cycle true) (disabled_start (clock_of [] 0)) in
  let s' := exec (BinaryBuilder.cycle false) s in
  fetches (added (os s) (os s')) = []
  ∧ recreation_necessary (self s') = recreation_necessary (self s).
Proof.
  intros s s'.
  apply (disabled_cycle_polls false s s'); [reflexivity |].
  split; [reflexivity |]. intros n. by destruct n.
Defined.

(** C3 as it was stated does not hold: the first round of a disabled
    builder reads the settings from the service, and a later round that
    finds the settings edited sets a flag that was clear. *)
Lemma disabled_cycle_reads_settings :
  let s := disabled_start (clock_of [] 0) in
  let t := disabled_later (clock_of [1; 1; 1] (seconds 1000)) in
  ((BinaryBuilder.cycle true s).1 = Ok BinaryBuilder.Skipped
   ∧ fetches (added (os s) (os (exec (BinaryBuilder.cycle true) s))) = [ASettings])
  ∧ ((BinaryBuilder.cycle false t).1 = Ok BinaryBuilder.Skipped
     ∧ recreation_necessary (self t) = false
     ∧ recreation_necessary (self (exec (BinaryBuilder.cycle false) t)) = true).
Proof. vm_compute. done. Qed.

(** ** Building and publishing *)

Lemma refreshes_app e1 e2 : refreshes (e1 ++ e2) = (refreshes e1 + refreshes e2)%nat.
Proof. unfold refreshes. by rewrite filter_app, length_app. Qed.

Lemma publishing_refreshes q : Forall publishing q → refreshes q = 0%nat.
Proof.
  induction 1 as [| e q He _ IH]; [done |].
  unfold refreshes in *. rewrite filter_cons.
  destruct (decide (e = EvRefreshBuild)) as [-> | _]; [done | exact IH].
Qed.

Lemma publishing_no_make q d c : Forall publishing q → EvMake d c ∉ q.
Proof. rewrite Forall_forall. intros H Hin. exact (H _ Hin). Qed.

Lemma run_build_binary {C E} (c : C) (e : E) (d : bool) (s : state) :
  let code := make_exit (env (os s)) (make_calls (os s)) in
  ∃ w' message,
    BinaryBuilder.build_binary c e d s =
      (if code =? 0 then Ok () else Raise (CalledProcessError code),
       State (self s) w')
    ∧ trace w' = (trace (os s) ++ [EvLog "INFO" message; EvMake d code])%list
    ∧ env w' = env (os s).
Proof.
  intros code. destruct s as [b w]. unfold BinaryBuilder.build_binary.
  cbv [mbind M_bind lift log emit modify gets check_call mret M_ret raise].
  subst code. simpl.
  destruct d; simpl; destruct (make_exit (env w) (make_calls w) =? 0); simpl;
    eexists _, _; (split_and!; [reflexivity | by rewrite <- app_assoc | done]).
Qed.

Lemma run_refresh_build (s : state) :
  ∃ w',
    (attr liveness_probe ≫= λ probe, lift (ipxeTimestamp.refresh_build probe)) s
      = (Ok (), State (self s) w')
    ∧ trace w' = (trace (os s) ++ [EvRefreshBuild])%list
    ∧ env w' = env (os s).
Proof.
  destruct s as [b w].
  cbv [mbind M_bind attr lift emit modify gets mret M_ret
       ipxeTimestamp.refresh_build ipxeTimestamp.last_build_set
       ipxeTimestamp._data ipxeTimestamp._data_set datetime_now].
  simpl. eexists. split_and!; [reflexivity | done | done].
Qed.

(** A refresh of the build-completion marker is one event and one
    write: [last_build] becomes the time read. *)
Lemma refresh_build_marks (probe : ipxeTimestamp) (w : world) :
  let w' := exec (ipxeTimestamp.refresh_build probe) w in
  (ipxeTimestamp.refresh_build probe w).1 = Ok ()
  ∧ added w w' = [EvRefreshBuild]
  ∧ (ipxeTimestamp.last_build probe w').1 = Ok (Some (clock (env w) (ticks w))).
Proof.
  destruct w, probe as [p].
  cbv [exec ipxeTimestamp.refresh_build ipxeTimestamp.last_build_set
       ipxeTimestamp.last_build ipxeTimestamp._data ipxeTimestamp._data_set
       ipxeTimestamp.float_of_key try_except
       mbind M_bind emit modify gets mret M_ret datetime_now added].
  simpl. rewrite drop_app_length, !lookup_insert_eq. done.
Qed.

(** A publication that ends well has moved a file. *)
Lemma publish_binary_moves s s' :
  BinaryBuilder.publish_binary s = (Ok (), s') →
  ∃ src dst, EvMove src dst ∈ added (os s) (os s').
Proof.
  unfold BinaryBuilder.publish_binary. intros H.
  apply bind_ok_inv in H as (src & s1 & H1 & H).
  apply bind_ok_inv in H as (dst & s2 & H2 & H).
  apply bind_ok_inv in H as ([] & s3 & H3 & H).
  pose proof (frame_built_binary_abs_path (λ _, True) s) as F1.
  pose proof (frame_destination_abs_path (λ _, True) (λ _ _, I) I s1) as F2.
  rewrite H1 in F1. rewrite H2 in F2. simpl in *.
  destruct F1 as (_ & _ & _ & _ & e1 & T1 & _).
  destruct F2 as (_ & _ & _ & _ & e2 & T2 & _).
  exists src, dst.
  unfold lift, move in H3. rewrite run_bind in H3. unfold gets at 1 in H3.
  destruct (files (os s2) !! src) as [content|] eqn:Ef; [| done].
  cbv [mbind M_bind emit modify] in H3. simpl in H3.
  injection H3 as <-.
  unfold lift, log, emit, modify in H. simpl in H. injection H as <-.
  unfold added. simpl. rewrite T2, T1, <- !app_assoc, drop_app_length.
  rewrite !elem_of_app. right. right. left. apply list_elem_of_singleton. done.
Qed.

Lemma publish_debug_moves s s' :
  BinaryBuilder.publish_debug s = (Ok (), s') →
  ∃ src dst, EvMove src dst ∈ added (os s) (os s').
Proof.
  unfold BinaryBuilder.publish_debug. intros H.
  apply bind_ok_inv in H as (src & s1 & H1 & H).
  apply bind_ok_inv in H as (dst & s2 & H2 & H).
  apply bind_ok_inv in H as ([] & s3 & H3 & H).
  pose proof (frame_built_binary_abs_path (λ _, True) s) as F1.
  pose proof (frame_debug_destination_abs_path (λ _, True) (λ _ _, I) I s1) as F2.
  rewrite H1 in F1. rewrite H2 in F2. simpl in *.
  destruct F1 as (_ & _ & _ & _ & e1 & T1 & _).
  destruct F2 as (_ & _ & _ & _ & e2 & T2 & _).
  exists src, dst.
  unfold lift, move in H3. rewrite run_bind in H3. unfold gets at 1 in H3.
  destruct (files (os s2) !! src) as [content|] eqn:Ef; [| done].
  cbv [mbind M_bind emit modify] in H3. simpl in H3.
  injection H3 as <-.
  unfold lift, log, emit, modify in H. simpl in H. injection H as <-.
  unfold added. simpl. rewrite T2, T1, <- !app_assoc, drop_app_length.
  rewrite !elem_of_app. right. right. left. apply list_elem_of_singleton. done.
Qed.

Lemma publishing_ok_log level message : publishing (EvLog level message).
Proof. done. Qed.

Lemma publishing_ok_move src dst : publishing (EvMove src dst).
Proof. done. Qed.

(** Every run of [build_and_publish] is one of the five; the flag is
    cleared by the last only, and kept by the others. *)
Lemma build_and_publish_run {C E} (bc dc : C) (be de : E) (s : state) :
  let run := BinaryBuilder.build_and_publish bc be dc de s in
  build_run run.1 (added (os s) (os run.2))
  ∧ (run.1 = Ok () → recreation_necessary (self run.2) = false)
  ∧ (run.1 ≠ Ok () → recreation_necessary (self s) = true →
     recreation_necessary (self run.2) = true).
Proof.
  intros run. subst run. unfold BinaryBuilder.build_and_publish.
  destruct (run_build_binary bc be false s) as (w1 & m1 & Hb1 & T1 & E1).
  rewrite run_bind, Hb1.
  destruct (make_exit (env (os s)) (make_calls (os s)) =? 0) eqn:Hc1.
  2: { simpl. rewrite (added_app _ _ _ T1).
       split_and!; [| done | done].
       apply primary_failed. by apply Z.eqb_neq. }
  apply Z.eqb_eq in Hc1. rewrite Hc1 in T1.
  rewrite run_bind.
  pose proof (frame_publish_binary publishing publishing_ok_log I
                publishing_ok_move (State (self s) w1)) as F1.
  destruct (BinaryBuilder.publish_binary (State (self s) w1))
    as [[[]|e] s2] eqn:Hp1; simpl in F1;
    destruct F1 as (_ & Hf1 & _ & _ & q1 & Tq1 & Hq1); simpl in Tq1, Hf1.
  2: { simpl. rewrite (added_app _ _ ([EvLog "INFO" m1; EvMake false 0] ++ q1))
         by (by rewrite Tq1, T1, <- app_assoc).
       split_and!; [by apply primary_unpublished | done | auto]. }
  apply publish_binary_moves in Hp1 as (src1 & dst1 & Hm1).
  simpl in Hm1. rewrite (added_app _ _ _ Tq1) in Hm1.
  destruct (run_refresh_build s2) as (w3 & Hr1 & T3 & E3).
  rewrite run_bind, Hr1.
  destruct (run_build_binary dc de true (State (self s2) w3))
    as (w4 & m2 & Hb2 & T4 & E4).
  simpl in Hb2, T4. rewrite run_bind, Hb2.
  destruct (make_exit (env w3) (make_calls w3) =? 0) eqn:Hc2.
  2: { simpl.
       rewrite (added_app _ _ ([EvLog "INFO" m1; EvMake false 0] ++ q1
                  ++ [EvRefreshBuild; EvLog "INFO" m2; EvMake true _]))
         by (rewrite T4, T3, Tq1, T1, <- !app_assoc; reflexivity).
       split_and!; [| done | auto].
       eapply debug_failed; [by apply Z.eqb_neq | done | done]. }
  apply Z.eqb_eq in Hc2. rewrite Hc2 in T4.
  rewrite run_bind.
  pose proof (frame_publish_debug publishing publishing_ok_log I
                publishing_ok_move (State (self s2) w4)) as F2.
  destruct (BinaryBuilder.publish_debug (State (self s2) w4))
    as [[[]|e] s5] eqn:Hp2; simpl in F2;
    destruct F2 as (_ & Hf2 & _ & _ & q2 & Tq2 & Hq2); simpl in Tq2, Hf2.
  2: { simpl.
       rewrite (added_app _ _ ([EvLog "INFO" m1; EvMake false 0] ++ q1
                  ++ [EvRefreshBuild; EvLog "INFO" m2; EvMake true 0] ++ q2))
         by (rewrite Tq2, T4, T3, Tq1, T1, <- !app_assoc; reflexivity).
       split_and!; [| done | auto].
       by eapply debug_unpublished. }
  apply publish_debug_moves in Hp2 as (src2 & dst2 & Hm2).
  simpl in Hm2. rewrite (added_app _ _ _ Tq2) in Hm2.
  destruct (run_refresh_build s5) as (w6 & Hr2 & T6 & E6).
  rewrite run_bind, Hr2. unfold assign, modify. simpl.
  rewrite (added_app _ _ ([EvLog "INFO" m1; EvMake false 0] ++ q1
             ++ [EvRefreshBuild; EvLog "INFO" m2; EvMake true 0] ++ q2
             ++ [EvRefreshBuild]))
    by (rewrite T6, Tq2, T4, T3, Tq1, T1, <- !app_assoc; reflexivity).
  split_and!; [| done | done].
  by eapply both_published.
Qed.

Ltac in_events H :=
  repeat (rewrite ?elem_of_app, ?elem_of_cons, ?elem_of_nil in H);
  repeat match type of H with
         | _ ∨ _ => destruct H as [H | H]
         end;
  try done; try (simplify_eq; done);
  try (exfalso;
       match goal with
       | Hq : Forall publishing ?q, Hin : _ ∈ ?q |- _ =>
           exact (publishing_no_make q _ _ Hq Hin)
       end).

(** The build steps of the loop body, entered with the flag set: if
    the primary toolchain run succeeds and the debug run then fails, the
    run ends in the toolchain's error with the flag still set and the
    build-completion marker refreshed exactly once, after the primary
    binary was published and before the debug run; and the flag is
    cleared only by a run that built and published both flavors and
    refreshed the marker after each. *)
Lemma debug_failure_keeps_flag {C E} (bc dc : C) (be de : E) (s : state) :
  recreation_necessary (self s) = true →
  let run := BinaryBuilder.build_and_publish bc be dc de s in
  let evs := added (os s) (os run.2) in
  (∀ code, EvMake false 0 ∈ evs → EvMake true code ∈ evs → code ≠ 0 →
     run.1 = Raise (CalledProcessError code)
     ∧ recreation_necessary (self run.2) = true
     ∧ refreshes evs = 1%nat
     ∧ ∃ m1 q1 m2 src dst,
         evs = ([EvLog "INFO" m1; EvMake false 0] ++ q1
                ++ [EvRefreshBuild; EvLog "INFO" m2; EvMake true code])%list
         ∧ Forall publishing q1 ∧ EvMove src dst ∈ q1)
  ∧ (recreation_necessary (self run.2) = false →
     run.1 = Ok ()
     ∧ refreshes evs = 2%nat
     ∧ ∃ m1 q1 m2 q2 src1 dst1 src2 dst2,
         evs = ([EvLog "INFO" m1; EvMake false 0] ++ q1
                ++ [EvRefreshBuild; EvLog "INFO" m2; EvMake true 0] ++ q2
                ++ [EvRefreshBuild])%list
         ∧ Forall publishing q1 ∧ EvMove src1 dst1 ∈ q1
         ∧ Forall publishing q2 ∧ EvMove src2 dst2 ∈ q2).
Proof.
  intros Hflag run evs.
  destruct (build_and_publish_run bc dc be de s) as (Hrun & Hok & Hkeep).
  fold run in Hrun, Hok, Hkeep. fold evs in Hrun.
  split.
  - intros code H1 H2 Hcode.
    destruct Hrun as [m1 c1 Hc1 | m1 q1 e Hq1 | m1 q1 m2 c2 src dst Hc2 Hq1 Hm1
                     | m1 q1 m2 q2 e src dst Hq1 Hm1 Hq2
                     | m1 q1 m2 q2 src1 dst1 src2 dst2 Hq1 Hm1 Hq2 Hm2].
    + in_events H2.
    + in_events H2.
    + assert (code = c2) as -> by (in_events H2; by simplify_eq).
      split_and!; [done | by apply Hkeep | |].
      * rewrite !refreshes_app, (publishing_refreshes q1 Hq1). done.
      * by exists m1, q1, m2, src, dst.
    + in_events H2.
    + in_events H2.
  - intros Hclear.
    assert (Heq : run.1 = Ok ()).
    { destruct (run.1) as [[]|e] eqn:Er; [done |].
      rewrite Hkeep in Hclear; done. }
    split; [done |]. clearbody evs. clearbody run. rewrite Heq in Hrun.
    inversion Hrun as [| | | | m1 q1 m2 q2 src1 dst1 src2 dst2 Hq1 Hm1 Hq2 Hm2 Hr He].
    subst evs. split.
    + rewrite !refreshes_app, (publishing_refreshes q1 Hq1),
        (publishing_refreshes q2 Hq2). done.
    + by exists m1, q1, m2, q2, src1, dst1, src2, dst2.
Qed.

(** As the loop is written, it does not get as far as building: each
    command property returns one list of at least five arguments, which
    the loop body unpacks into two names. A round either finds the
    builder disabled or ends in an exception. *)
Lemma build_command_length s s' command :
  BinaryBuilder.build_command s = (Ok command, s') → (5 ≤ length command)%nat.
Proof.
  unfold BinaryBuilder.build_command. intros H.
  apply bind_ok_inv in H as (dir & s1 & _ & H).
  apply bind_ok_inv in H as (k & s2 & _ & H).
  apply bind_ok_inv in H as (certs & s3 & _ & H).
  apply bind_ok_inv in H as (script & s4 & _ & H).
  apply bind_ok_inv in H as (embed & s5 & _ & H).
  apply bind_ok_inv in H as (s3h & s6 & _ & H).
  apply bind_ok_inv in H as (token & s7 & _ & H).
  unfold mret, M_ret in H. injection H as <- _.
  repeat (simpl; rewrite ?length_app). lia.
Qed.

Lemma cycle_never_builds first_time s :
  (BinaryBuilder.cycle first_time s).1 ≠ Ok BinaryBuilder.UpToDate
  ∧ (BinaryBuilder.cycle first_time s).1 ≠ Ok BinaryBuilder.Built.
Proof.
  assert (H : ∀ o s', BinaryBuilder.cycle first_time s = (Ok o, s') →
                      o = BinaryBuilder.Skipped).
  { intros o s'. unfold BinaryBuilder.cycle. intros H.
    apply bind_ok_inv in H as ([] & s1 & _ & H).
    apply bind_ok_inv in H as ([] & s2 & _ & H).
    apply bind_ok_inv in H as (on & s3 & _ & H).
    destruct (negb (truthy on)).
    { unfold mret, M_ret in H. by simplify_eq. }
    apply bind_ok_inv in H as (c1 & s4 & Hc & H).
    apply build_command_length in Hc.
    apply bind_ok_inv in H as ([bc be] & s5 & Hu & _).
    unfold unpack2 in Hu.
    destruct c1 as [| a [| b [| c l]]]; simpl in Hc; try lia; done. }
  destruct (BinaryBuilder.cycle first_time s) as [[o|e] s'] eqn:E; simpl;
    [| done].
  rewrite (H o s' eq_refl). done.
Qed.

(** C1: in a cluster whose toolchain would build the primary flavor
    (exit status 0) and fail on the debug flavor (exit status 2), the
    build steps, run on the enabled builder, raise the toolchain's error
    with the flag still set and the build-completion marker refreshed
    once; but the loop does not get to them: the first round prepares
    the primary command, of five arguments, and raises [ValueError]
    where the command is unpacked into two names, before any toolchain
    run: the marker is not refreshed, [last_build] stays [None], and the
    flag stays set. *)
Theorem loop_stops_before_build :
  let s := building [0; 2] in
  let built := BinaryBuilder.build_and_publish "make" "env" "make" "env" s in
  let r := BinaryBuilder.call 1 s in
  let evs := added (os s) (os r.2) in
  (make_exit (env (os s)) 0 = 0 ∧ make_exit (env (os s)) 1 = 2
   ∧ (BinaryBuilder.enabled s).1 = Ok PTrue
   ∧ recreation_necessary (self s) = true)
  ∧ (built.1 = Raise (CalledProcessError 2)
     ∧ recreation_necessary (self built.2) = true
     ∧ refreshes (added (os s) (os built.2)) = 1%nat)
  ∧ ((BinaryBuilder.build_command s).1
     = Ok ["make"; "bin-x86_64-efi/ipxe.efi"; "DEBUG=httpcore,x509,efi_time";
           "EMBED=tmp0"; "BEARER_TOKEN=tok"]
     ∧ r.1 = Raise ValueError
     ∧ fetches evs = [ASettings; ABssScript "cray-ipxe-bss-ipxe"; AS3Host;
                      AToken (PStr tokens.TOKEN_HOST)]
     ∧ make_calls (os r.2) = 0%nat
     ∧ refreshes evs = 0%nat
     ∧ (ipxeTimestamp.last_build (liveness_probe (self r.2)) (os r.2)).1 = Ok None
     ∧ recreation_necessary (self r.2) = true).
Proof. intros s built r evs. by vm_compute. Qed.

(** The properties that materialize a file extend the builder too. *)
Section artifact_frames.
Import BinaryBuilder.
Variable ok : event → Prop.
Hypothesis ok_all : ∀ e, ok e.

#[local] Hint Resolve wsteps_ret wsteps_raise wsteps_gets wsteps_now
  wsteps_service wsteps_py_int steps_ret steps_raise steps_attr : frame.
#[local] Hint Resolve ok_all : core.

Lemma frame_local_copy p : steps (grows ok) (local_copy p).
Proof. unfold local_copy, read_file. frame. Qed.

Lemma frame_path_exists p : steps (grows ok) (path_exists p).
Proof. apply wsteps_gets. Qed.
#[local] Hint Resolve frame_local_copy frame_path_exists : frame.

Lemma frame_cert_path : steps (extends ok) cert_path.
Proof. unfold cert_path. frame. Qed.

Lemma frame_configmap_name : steps (extends ok) configmap_name.
Proof.
  unfold configmap_name, X86Builder_configmap_name, Arm64builder_configmap_name.
  frame.
  all: try match goal with
           | H : bool_decide (ARCH ?k = _) = true |- _ =>
               apply bool_decide_eq_true_1 in H; by destruct k
           end.
  all: apply steps_assign; intros b; split_and!; [done | done |];
    intros _; by right.
Qed.
#[local] Hint Resolve frame_configmap_name : frame.

Lemma frame_bss_script_path : steps (extends ok) bss_script_path.
Proof. unfold bss_script_path. frame. Qed.

Lemma frame_debug_script_path : steps (extends ok) debug_script_path.
Proof. unfold debug_script_path. frame. Qed.
End artifact_frames.

(** ** The whole round keeps the name of the configmap *)

Section round_frames.
Import BinaryBuilder.
Variable ok : event → Prop.
Hypothesis ok_all : ∀ e, ok e.

#[local] Hint Resolve wsteps_ret wsteps_raise wsteps_gets wsteps_now
  wsteps_service wsteps_py_int steps_ret steps_raise steps_attr : frame.
#[local] Hint Resolve ok_all : core.

Lemma all_settings_get key dflt : steps (extends ok) (settings_get key dflt).
Proof. apply frame_settings_get; auto. Qed.

Lemma all_set_log_level : steps (extends ok) set_log_level.
Proof. apply frame_set_log_level; auto. Qed.

Lemma all_enabled : steps (extends ok) enabled.
Proof. apply frame_enabled; auto. Qed.

Lemma all_arch_build_dir : steps (extends ok) arch_build_dir.
Proof. apply frame_arch_build_dir. Qed.

Lemma all_publish_binary : steps (extends ok) publish_binary.
Proof. apply frame_publish_binary; auto. Qed.

Lemma all_publish_debug : steps (extends ok) publish_debug.
Proof. apply frame_publish_debug; auto. Qed.

#[local] Hint Resolve all_settings_get all_set_log_level all_enabled
  all_arch_build_dir all_publish_binary all_publish_debug : frame.
#[local] Hint Resolve frame_cert_path frame_bss_script_path
  frame_debug_script_path : frame.

Lemma all_fetch_token host : steps (grows ok) (tokens.fetch_token host).
Proof. unfold tokens.fetch_token, log. frame. Qed.

Lemma all_token_expiring_soon token buffer :
  steps (grows ok) (tokens.token_expiring_soon token buffer).
Proof. unfold tokens.token_expiring_soon, tokens.int_time, log. frame. Qed.

Lemma all_utime p : steps (grows ok) (utime p).
Proof. unfold utime, path_exists. frame. Qed.
#[local] Hint Resolve all_fetch_token all_token_expiring_soon all_utime : frame.

Lemma all_bearer_token : steps (extends ok) bearer_token.
Proof.
  unfold bearer_token, token_min_remaining_valid_time, cray_ipxe_token_host.
  frame.
Qed.

Lemma all_s3_host : steps (extends ok) s3_host.
Proof. unfold s3_host, log. frame. Qed.
#[local] Hint Resolve all_bearer_token all_s3_host : frame.

Lemma all_cert_arguments : steps (extends ok) cert_arguments.
Proof. unfold cert_arguments, build_with_certs, basename_of. frame. Qed.

Lemma all_s3_arguments : steps (extends ok) s3_arguments.
Proof. unfold s3_arguments. frame. Qed.

Lemma all_basename_of p : steps (extends ok) (basename_of p).
Proof. unfold basename_of. frame. Qed.
#[local] Hint Resolve all_cert_arguments all_s3_arguments all_basename_of : frame.

Lemma all_build_command : steps (extends ok) build_command.
Proof. unfold build_command. frame. Qed.

Lemma all_debug_command : steps (extends ok) debug_command.
Proof. unfold debug_command. frame. Qed.

Lemma all_build_binary {C E} (c : C) (e : E) d :
  steps (extends ok) (build_binary c e d).
Proof. unfold build_binary, check_call, log. frame. Qed.

Lemma all_refresh_build :
  steps (extends ok)
    (attr liveness_probe ≫= λ probe, lift (ipxeTimestamp.refresh_build probe)).
Proof.
  unfold ipxeTimestamp.refresh_build, ipxeTimestamp.last_build_set,
    ipxeTimestamp._data, ipxeTimestamp._data_set.
  frame.
Qed.
End round_frames.

Lemma keeps_of_extends ok s s' : extends ok s s' → keeps_name s s'.
Proof. intros (C & _ & I & _). by split. Qed.

Lemma keeps_name_refl s : keeps_name s s.
Proof. by split. Qed.

Lemma keeps_name_trans s1 s2 s3 :
  keeps_name s1 s2 → keeps_name s2 s3 → keeps_name s1 s3.
Proof. intros [C1 I1] [C2 I2]. split; [congruence | auto]. Qed.

Lemma keeps_steps {A} (m : M state A) :
  steps (extends (λ _, True)) m → steps keeps_name m.
Proof. intros H s. eapply keeps_of_extends, H. Qed.

Lemma keeps_bind {A B} (m : M state A) (f : A → M state B) :
  steps keeps_name m → (∀ a, steps keeps_name (f a)) →
  steps keeps_name (m ≫= f).
Proof. apply gsteps_bind, keeps_name_trans. Qed.

Lemma keeps_build_and_publish {C E} (bc dc : C) (be de : E) :
  steps keeps_name (BinaryBuilder.build_and_publish bc be dc de).
Proof.
  unfold BinaryBuilder.build_and_publish.
  apply keeps_bind; [apply keeps_steps, all_build_binary; done | intros _].
  apply keeps_bind; [apply keeps_steps, all_publish_binary; done | intros _].
  apply keeps_bind; [apply keeps_steps, all_refresh_build; done | intros _].
  apply keeps_bind; [apply keeps_steps, all_build_binary; done | intros _].
  apply keeps_bind; [apply keeps_steps, all_publish_debug; done | intros _].
  apply keeps_bind; [apply keeps_steps, all_refresh_build; done | intros _].
  intros s. by split.
Qed.

Lemma keeps_cycle first_time : steps keeps_name (BinaryBuilder.cycle first_time).
Proof.
  unfold BinaryBuilder.cycle.
  apply keeps_bind; [apply keeps_steps, all_set_log_level; done | intros _].
  apply keeps_bind; [| intros _].
  { apply keeps_steps. destruct first_time; simpl;
      [apply steps_ret | apply steps_lift, wsteps_emit; done]. }
  apply keeps_bind; [apply keeps_steps, all_enabled; done | intros on].
  destruct (negb (truthy on)); [intros s; apply keeps_name_refl |].
  apply keeps_bind; [apply keeps_steps, all_build_command; done | intros c1].
  apply keeps_bind; [| intros [bc be]].
  { unfold unpack2. intros s. repeat case_match; apply keeps_name_refl. }
  apply keeps_bind; [apply keeps_steps, all_debug_command; done | intros c2].
  apply keeps_bind; [| intros [dc de]].
  { unfold unpack2. intros s. repeat case_match; apply keeps_name_refl. }
  apply keeps_bind; [intros s; apply keeps_name_refl | intros necessary].
  destruct (negb necessary); [intros s; apply keeps_name_refl |].
  apply keeps_bind; [apply keeps_build_and_publish | intros _].
  intros s. apply keeps_name_refl.
Qed.

Lemma keeps_loop first_time rounds :
  steps keeps_name (BinaryBuilder.loop first_time rounds).
Proof.
  revert first_time. induction rounds as [| n IH]; intros first_time; simpl.
  - intros s. apply keeps_name_refl.
  - apply keeps_bind; [apply keeps_cycle | intros o].
    apply keeps_bind; [apply IH | intros os].
    intros s. apply keeps_name_refl.
Qed.

(** ** The name of the BSS configmap *)

Lemma run_configmap_name (s : state) :
  cls (self s) ≠ BinaryBuilder →
  configmap_inv (self s) →
  BinaryBuilder.configmap_name s =
    (Ok (Some "cray-ipxe-bss-ipxe"),
     State (set_configmap_name (Some "cray-ipxe-bss-ipxe") (self s)) (os s)).
Proof.
  intros Hk Hinv. destruct s as [b w].
  destruct b as [k ? ? ? ? ? ? ? ? ? ?]. simpl in *.
  unfold configmap_inv in Hinv. simpl in Hinv.
  unfold BinaryBuilder.configmap_name.
  destruct k; [done | |];
    destruct Hinv as [-> | ->]; reflexivity.
Qed.

(** C9: the arm64 builder's [configmap_name] is ['cray-ipxe-bss-ipxe'],
    at the first access, at the next, and after any number of rounds of
    the loop, the same as the x86 builder's: no class has
    [ARCH = 'aarch64'], which the branch for the suffix tests. *)
Theorem arm64_configmap_name (s t : state) (rounds : nat) :
  cls (self s) = Arm64builder →
  configmap_inv (self s) →
  cls (self t) = X86Builder →
  configmap_inv (self t) →
  (BinaryBuilder.configmap_name s).1 = Ok (Some "cray-ipxe-bss-ipxe")
  ∧ (BinaryBuilder.configmap_name (exec BinaryBuilder.configmap_name s)).1
    = Ok (Some "cray-ipxe-bss-ipxe")
  ∧ (BinaryBuilder.configmap_name (exec (BinaryBuilder.call rounds) s)).1
    = Ok (Some "cray-ipxe-bss-ipxe")
  ∧ (BinaryBuilder.configmap_name t).1 = (BinaryBuilder.configmap_name s).1
  ∧ (∀ k, ARCH k ≠ Some "aarch64").
Proof.
  intros Hs Is Ht It.
  assert (Hrun : ∀ u, cls (self u) = Arm64builder → configmap_inv (self u) →
                      (BinaryBuilder.configmap_name u).1
                      = Ok (Some "cray-ipxe-bss-ipxe")).
  { intros u Hu Iu. rewrite (run_configmap_name u); [done | by rewrite Hu | done]. }
  split_and!.
  - by apply Hrun.
  - unfold exec. rewrite (run_configmap_name s) by (by rewrite Hs || done).
    apply Hrun; simpl; [by destruct s as [[]] | by right].
  - destruct (keeps_loop true rounds s) as [C I].
    apply Hrun; [by rewrite <- Hs | by apply I].
  - rewrite (run_configmap_name t) by (by rewrite Ht || done).
    by rewrite (Hrun s Hs Is).
  - by intros [].
Qed.

Lemma arm64_configmap_name_witness :
  let arm := fresh Arm64builder (container (offline (clock_of [] 0))) in
  let x86 := fresh X86Builder (container (offline (clock_of [] 0))) in
  (BinaryBuilder.configmap_name arm).1 = Ok (Some "cray-ipxe-bss-ipxe")
  ∧ (BinaryBuilder.configmap_name x86).1 = Ok (Some "cray-ipxe-bss-ipxe")
  ∧ (BinaryBuilder.configmap_name (exec (BinaryBuilder.call 3) arm)).1
    = Ok (Some "cray-ipxe-bss-ipxe").
Proof.
  intros arm x86.
  destruct (arm64_configmap_name arm x86 3) as (H1 & _ & H2 & H3 & _);
    [reflexivity | by left | reflexivity | by left |].
  split_and!; [exact H1 | by rewrite H3 | exact H2].
Defined.

(** ** Runs from a fresh settings cache *)

Lemma fresh_cache_later n s : fresh_cache s → fresh_cache (later n s).
Proof. done. Qed.

(** With a fresh cache, the settings are served from it: the clock
    apart, nothing changes. *)
Lemma run_global_settings_fresh s :
  fresh_cache s →
  ∃ n, BinaryBuilder.global_settings s
       = (Ok (_global_settings (self s)), later n s).
Proof.
  intros [Hd Hc]. destruct s as [b w].
  destruct b, w as [o tk tsf fs tc mc tr]. simpl in *.
  unfold BinaryBuilder.global_settings, later.
  cbv [mbind M_bind attr gets assign modify lift mret M_ret emit log
       datetime_now service raise]; simpl.
  rewrite Hd. simpl.
  destruct (float_truthy _) eqn:Ef; simpl.
  - rewrite bool_decide_eq_false_2 by (specialize (Hc tk); lia). simpl.
    rewrite Hd. simpl.
    rewrite bool_decide_eq_false_2 by (by intros []). simpl.
    by eexists.
  - rewrite Hd. simpl.
    rewrite bool_decide_eq_false_2 by (by intros []). simpl.
    by eexists.
Qed.

Lemma run_settings_get_fresh s key dflt :
  fresh_cache s →
  ∃ n, BinaryBuilder.settings_get key dflt s = (Ok (setting s key dflt), later n s).
Proof.
  intros F. destruct (run_global_settings_fresh s F) as (n & H).
  exists n. unfold BinaryBuilder.settings_get.
  rewrite (run_bind_ok _ _ _ _ _ H).
  destruct F as [Hd _]. unfold setting.
  destruct (_global_settings (self s)) as [m|]; [| done].
  simpl. by destruct key.
Qed.

Lemma setting_later n s key dflt : setting (later n s) key dflt = setting s key dflt.
Proof. done. Qed.

(** A cache that is fresh for a builder is fresh for the same builder in
    the same cluster. *)
Lemma fresh_cache_same s s' :
  self s' = self s → env (os s') = env (os s) → fresh_cache s → fresh_cache s'.
Proof. intros Hs He [Hd Hc]. split; [by rewrite Hs | by rewrite Hs, He]. Qed.

Lemma run_py_int {S} v n (s : S) : int_of v = Some n → py_int v s = (Ok n, s).
Proof. destruct v; simpl; [done | by intros [= ->] | by intros ->]. Qed.

Lemma run_attr_bind {A B} (f : builder → A) (k : A → M state B) s :
  (attr f ≫= k) s = k (f (self s)) s.
Proof. reflexivity. Qed.

Lemma run_lift_bind {A B} (m : M world A) (k : A → M state B) s :
  (lift m ≫= k) s = match m (os s) with
                    | (Ok a, w) => k a (State (self s) w)
                    | (Raise e, w) => (Raise e, State (self s) w)
                    end.
Proof. rewrite run_bind. unfold lift. by destruct (m (os s)) as [[] ?]. Qed.

(** What [fetch_token] gives, by the credentials and the reply of the
    endpoint. *)
Lemma fetch_token_result host w :
  (∀ t, (tokens.fetch_token host w).1 = Ok (Some t)
        ↔ credentials_mounted w = true
          ∧ oauth_token (env w) host = Ok (Some (Some t)))
  ∧ (∀ e, (tokens.fetch_token host w).1 = Raise e
          ↔ credentials_mounted w = true ∧ oauth_token (env w) host = Raise e)
  ∧ (credentials_mounted w = false → (tokens.fetch_token host w).1 = Ok None).
Proof.
  unfold tokens.fetch_token, credentials_mounted.
  cbv [mbind M_bind gets log emit modify mret M_ret raise]. simpl.
  destruct (files w !! tokens.auth_user_file) as [id|]; simpl.
  2: { split_and!; try done; try (intros ?; split; [done | by intros [[=] _]]). }
  destruct (files w !! tokens.auth_secret_file) as [secret|]; simpl.
  2: { split_and!; try done; try (intros ?; split; [done | by intros [[=] _]]). }
  destruct (oauth_token (env w) host) as [[[t'|]|]|e']; simpl.
  all: split_and!; try done.
  all: try (intros ?; split; [intros [=]; by subst | intros [_ [=]]; by subst]).
Qed.

(** [fetch_token] only adds to the trace. *)
Lemma run_fetch_token host w :
  ∃ evs, tokens.fetch_token host w
         = ((tokens.fetch_token host w).1, set_trace (trace w ++ evs)%list w)
         ∧ fetches evs = (if credentials_mounted w then [AToken host] else []).
Proof.
  unfold tokens.fetch_token, credentials_mounted.
  cbv [mbind M_bind gets log emit modify mret M_ret raise]. simpl.
  destruct (files w !! tokens.auth_user_file) as [id|]; simpl;
    [| by eexists].
  destruct (files w !! tokens.auth_secret_file) as [secret|]; simpl;
    [| by eexists].
  destruct (oauth_token (env w) host) as [[[t|]|]|e]; simpl;
    rewrite <- ?app_assoc; by eexists.
Qed.

(** How [token_expiring_soon] runs on a token that decodes and carries
    an integer [exp]. *)
Lemma run_token_expiring_soon w token claims exp setting :
  jwt_decode (env w) token = Some claims →
  claims !! "exp" = Some (PInt exp) →
  (tokens.token_expiring_soon (Some token) setting w).1 =
    match setting with
    | PInt n => Ok (bool_decide (clock (env w) (ticks w) `quot` 1000000 >= exp - n))
    | PStr s => match int_of_str s with
                | Some n => Ok (bool_decide
                                  (clock (env w) (ticks w) `quot` 1000000 >= exp - n))
                | None => Raise ValueError
                end
    | PNone => Raise TypeError
    end.
Proof.
  intros Hd He. unfold tokens.token_expiring_soon.
  rewrite run_bind. unfold gets at 1. rewrite Hd, He. simpl.
  unfold tokens.int_time. cbv [mbind M_bind datetime_now mret M_ret].
  destruct setting as [|n|s]; simpl; [done | done |].
  by destruct (int_of_str s).
Qed.


(** A held token that is not about to expire is returned as it is. *)
Lemma run_bearer_token_kept (s : state) (tok : string)
    (claims : gmap string pyval) (exp buffer : Z) :
  fresh_cache s →
  _bearer_token (self s) = Some tok →
  jwt_decode (env (os s)) tok = Some claims →
  claims !! "exp" = Some (PInt exp) →
  int_of (setting s (Some "cray_ipxe_token_min_remaining_valid_time")
            (PStr "1800")) = Some buffer →
  (∀ k, clock (env (os s)) k `quot` 1000000 < exp - buffer) →
  ∃ n, BinaryBuilder.bearer_token s = (Ok (Some tok), later n s).
Proof.
  intros F Ht Hd He Hb Hc.
  unfold BinaryBuilder.bearer_token, BinaryBuilder.token_min_remaining_valid_time.
  rewrite run_attr_bind, Ht.
  destruct (run_settings_get_fresh s
              (Some "cray_ipxe_token_min_remaining_valid_time") (PStr "1800") F)
    as (n & Hn).
  rewrite (run_bind_ok _ _ _ _ _ Hn).
  rewrite run_lift_bind.
  assert (Hs : tokens.token_expiring_soon (Some tok)
                 (setting s (Some "cray_ipxe_token_min_remaining_valid_time")
                    (PStr "1800")) (os (later n s))
               = (Ok false, set_ticks (S n) (os s))).
  { unfold tokens.token_expiring_soon.
    cbv [mbind M_bind gets tokens.int_time datetime_now mret M_ret]. simpl.
    rewrite Hd, He. simpl.
    rewrite (run_py_int _ buffer _ Hb).
    by rewrite bool_decide_eq_false_2 by (specialize (Hc n); lia). }
  rewrite Hs. simpl. exists (S n).
  unfold later. by rewrite <- Ht.
Qed.

(** The functions of [tokens.py] only log and, for [fetch_token], ask
    the endpoint. *)
Section token_frames.
Variable ok : event → Prop.
Hypothesis ok_log : ∀ level message, ok (EvLog level message).

#[local] Hint Resolve wsteps_ret wsteps_raise wsteps_gets wsteps_now
  wsteps_service wsteps_py_int : frame.
#[local] Hint Resolve ok_log : core.

Lemma logs_token_expiring_soon token buffer :
  steps (grows ok) (tokens.token_expiring_soon token buffer).
Proof. unfold tokens.token_expiring_soon, tokens.int_time, log. frame. Qed.

Lemma logs_utime p : ok (EvUtime p) → steps (grows ok) (utime p).
Proof. intros H. unfold utime, path_exists. frame. Qed.
End token_frames.

Lemma is_log_poll e : is_log e → ok_poll e.
Proof. by destruct e. Qed.


Lemma is_log_fetches evs : Forall is_log evs → fetches evs = [].
Proof.
  induction 1 as [| e evs He _ IH]; [done |].
  destruct e; simpl in *; done.
Qed.

Lemma token_host_setting s :
  token_host s = setting s (Some "cray_ipxe_token_host") (PStr tokens.TOKEN_HOST).
Proof. unfold token_host, setting. simpl. by destruct (_global_settings (self s)). Qed.

(** The first of two accesses of the token, when it fetches one: the
    token is held afterwards, the settings cache is as it was, and one
    remote call was made. *)
Lemma run_bearer_token_fetched s tok :
  fresh_cache s →
  fetched token_artifact s ≠ [] →
  upstream token_artifact s = Some (Text tok) →
  let s1 := after token_artifact s in
  _bearer_token (self s1) = Some tok
  ∧ _global_settings (self s1) = _global_settings (self s)
  ∧ _global_settings_timestamp (self s1) = _global_settings_timestamp (self s)
  ∧ env (os s1) = env (os s)
  ∧ ∃ evs, trace (os s1) = (trace (os s) ++ evs)%list
           ∧ length (fetches evs) = 1%nat.
Proof.
  intros F Hf Hu s1. subst s1.
  unfold fetched, after, upstream, token_artifact, exec in *.
  assert (Ho : oauth_token (env (os s)) (token_host s) = Ok (Some (Some tok))).
  { destruct (oauth_token _ _) as [[[t|]|]|]; by simplify_eq. }
  clear Hu. revert Hf.
  unfold BinaryBuilder.bearer_token, BinaryBuilder.token_min_remaining_valid_time,
    BinaryBuilder.cray_ipxe_token_host.
  rewrite run_attr_bind.
  destruct (run_settings_get_fresh s
              (Some "cray_ipxe_token_min_remaining_valid_time") (PStr "1800") F)
    as (n & Hn).
  rewrite (run_bind_ok _ _ _ _ _ Hn), run_lift_bind.
  pose proof (logs_token_expiring_soon is_log (λ _ _, I) (_bearer_token (self s))
                (setting s (Some "cray_ipxe_token_min_remaining_valid_time")
                   (PStr "1800")) (os (later n s))) as (E1 & e1 & T1 & L1).
  destruct (tokens.token_expiring_soon _ _ _) as [[soon|e] w1]; simpl in *.
  2: { intros Hf. exfalso. apply Hf.
       rewrite (added_app _ _ _ T1). by apply is_log_fetches. }
  destruct soon.
  2: { simpl. intros Hf. exfalso. apply Hf.
       rewrite (added_app _ _ _ T1). by apply is_log_fetches. }
  assert (F1 : fresh_cache (State (self s) w1))
    by (by apply (fresh_cache_same s)).
  destruct (run_settings_get_fresh _ (Some "cray_ipxe_token_host")
              (PStr tokens.TOKEN_HOST) F1) as (n2 & Hn2).
  rewrite run_bind, (run_bind_ok _ _ _ _ _ Hn2), run_lift_bind.
  change (setting (State (self s) w1) (Some "cray_ipxe_token_host")
            (PStr tokens.TOKEN_HOST))
    with (setting s (Some "cray_ipxe_token_host") (PStr tokens.TOKEN_HOST)).
  rewrite <- token_host_setting. simpl.
  destruct (run_fetch_token (token_host s) (set_ticks n2 w1)) as (e2 & R2 & N2).
  destruct (fetch_token_result (token_host s) (set_ticks n2 w1)) as (K1 & _ & K3).
  rewrite R2.
  destruct (credentials_mounted (set_ticks n2 w1)) eqn:Ec.
  - assert (Hr : (tokens.fetch_token (token_host s) (set_ticks n2 w1)).1
                 = Ok (Some tok)).
    { apply K1. split; [done |]. simpl. by rewrite E1. }
    rewrite Hr. intros _.
    cbv [mbind M_bind assign modify lift utime path_exists gets emit attr
         mret M_ret raise]. simpl.
    destruct (bool_decide _); simpl.
    + split_and!; try done.
      exists (e1 ++ e2 ++ [EvUtime (IPXE_BUILD_DIR +:+ "/net/tcp/httpcore.c")])%list.
      rewrite T1, <- !app_assoc. split; [done |].
      rewrite !fetches_app, (is_log_fetches e1 L1), N2. done.
    + split_and!; try done.
      exists (e1 ++ e2)%list. rewrite T1, <- !app_assoc. split; [done |].
      rewrite !fetches_app, (is_log_fetches e1 L1), N2. done.
  - rewrite (K3 eq_refl). intros Hf. exfalso. apply Hf.
    cbv [mbind M_bind assign modify lift utime path_exists gets emit attr
         mret M_ret raise]. simpl.
    destruct (bool_decide _); simpl.
    + rewrite (added_app _ _ (e1 ++ e2 ++ [EvUtime (IPXE_BUILD_DIR +:+ "/net/tcp/httpcore.c")]))
        by (by rewrite T1, <- !app_assoc).
      rewrite !fetches_app, (is_log_fetches e1 L1), N2. done.
    + rewrite (added_app _ _ (e1 ++ e2)) by (by rewrite T1, <- !app_assoc).
      rewrite !fetches_app, (is_log_fetches e1 L1), N2. done.
Qed.


(** Tactics to run an accessor step by step. *)
Ltac run_monad :=
  cbv [mbind M_bind attr gets assign modify lift mret M_ret emit log
       datetime_now service raise exec after local upstream fetched flag
       local_copy read_file path_exists unlink write_tmp file_copy added];
  simpl.

Ltac stable :=
  repeat match goal with
         | H : ¬ (_ ≠ _) |- _ => apply dec_stable in H
         end.

Ltac looked_up :=
  repeat match goal with
         | H : ?m !! ?k = _, H' : context [?m !! ?k] |- _ =>
             lazymatch H' with H => fail | _ => rewrite H in H' end
         | H : _ !! _ = _ |- _ => rewrite H
         end.

Ltac absurd_file :=
  match goal with
  | H : ¬ is_Some (Some _) |- _ => exfalso; apply H; eauto
  | H : is_Some None |- _ => exfalso; by destruct H
  end.

Ltac finish_artifact :=
  intros; decided; stable; simplify_eq;
  rewrite ?lookup_insert_eq; looked_up; simpl;
  split_and?; intros; decided; stable; simplify_eq;
  rewrite ?lookup_insert_eq; looked_up; simpl;
  try done; try congruence; try absurd_file;
  split_and?; try done; try congruence.

(** ** Change detection *)

Lemma cert_compares : compares cert_artifact.
Proof.
  intros [b w] v. destruct b, w.
  unfold cert_artifact, BinaryBuilder.cert_path, added, read_back. run_monad.
  repeat (case_match; simpl in *; simplify_eq); simpl;
    rewrite <- ?app_assoc, ?drop_app_length, ?drop_all; simpl.
  all: try done.
  all: finish_artifact.
Qed.

Lemma debug_compares : compares debug_artifact.
Proof.
  intros [b w] v. destruct b, w.
  unfold debug_artifact, BinaryBuilder.debug_script_path, added, text_of,
    read_back.
  run_monad.
  repeat (case_match; simpl in *; simplify_eq); simpl;
    rewrite <- ?app_assoc, ?drop_app_length, ?drop_all; simpl.
  all: try done.
  all: finish_artifact.
Qed.


Lemma bss_compares : compares bss_artifact.
Proof.
  intros [b w] v. destruct b as [[]], w.
  all: unfold bss_artifact, BinaryBuilder.bss_script_path, text_of, read_back,
         BinaryBuilder.configmap_name, BinaryBuilder.X86Builder_configmap_name,
         BinaryBuilder.Arm64builder_configmap_name.
  all: run_monad.
  all: repeat (case_match; simpl in *; simplify_eq); simpl;
         rewrite <- ?app_assoc, ?drop_app_length, ?drop_all; simpl.
  all: try done.
  all: finish_artifact.
Qed.




Lemma cert_fetches_once : fetches_once cert_artifact.
Proof.
  intros [b w] v. destruct b, w.
  unfold cert_artifact, BinaryBuilder.cert_path, with_flag. run_monad.
  repeat (case_match; simpl in *; simplify_eq); simpl;
    rewrite <- ?app_assoc, ?drop_app_length, ?drop_all; simpl.
  all: try done.
  all: finish_artifact.
Qed.

Lemma debug_fetches_once : fetches_once debug_artifact.
Proof.
  intros [b w] v. destruct b, w.
  unfold debug_artifact, BinaryBuilder.debug_script_path, text_of, with_flag.
  run_monad.
  repeat (case_match; simpl in *; simplify_eq); simpl;
    rewrite <- ?app_assoc, ?drop_app_length, ?drop_all; simpl.
  all: try done.
  all: finish_artifact.
Qed.

Lemma bss_fetches_once : fetches_once bss_artifact.
Proof.
  intros [b w] v. destruct b as [[]], w.
  all: unfold bss_artifact, BinaryBuilder.bss_script_path, text_of, with_flag,
         BinaryBuilder.configmap_name, BinaryBuilder.X86Builder_configmap_name,
         BinaryBuilder.Arm64builder_configmap_name.
  all: run_monad.
  all: repeat (case_match; simpl in *; simplify_eq); simpl;
         rewrite <- ?app_assoc, ?drop_app_length, ?drop_all; simpl.
  all: try done.
  all: finish_artifact.
Qed.

Lemma added_trans w1 w2 w3 e1 e2 :
  trace w2 = (trace w1 ++ e1)%list → trace w3 = (trace w2 ++ e2)%list →
  added w1 w3 = (added w1 w2 ++ added w2 w3)%list.
Proof.
  intros T1 T2. rewrite (added_app _ _ _ T1), (added_app _ _ _ T2).
  apply added_app. by rewrite T2, T1, app_assoc.
Qed.

(** Two accesses of a materialized artifact whose value reads back as
    it is written make two remote calls, and the second does not touch
    the flag. *)
Lemma twice_compared (a : tracked) :
  compares a → fetches_once a →
  (∀ s, grows (λ _, True) (os s) (os (after a s))) →
  ∀ s v, fetched a s ≠ [] → upstream a s = Some v → reads_back v →
         twice 2 a s.
Proof.
  intros Hc Ho Hg s v Hf Hu Hv.
  destruct (Hc s v Hf Hu) as [Ceq Cne].
  destruct (Ho s v Hu) as (O1 & _ & _). destruct (O1 Hf) as [L1 U1].
  assert (Hl : read_back <$> local a (after a s) = Some v).
  { destruct (decide (read_back <$> local a s = Some v)) as [E | E].
    - destruct (Ceq E) as [_ ->]. exact E.
    - destruct (Cne E) as [_ ->]. simpl. by rewrite Hv. }
  assert (Hl' : ∃ v0, local a (after a s) = Some v0).
  { destruct (local a (after a s)); [eauto | done]. }
  destruct Hl' as [v0 Hl0].
  destruct (Ho (after a s) v U1) as (O2 & F2 & W2).
  pose proof (F2 v0 Hl0) as Hf2. destruct (O2 Hf2) as [L2 _].
  split.
  - destruct (Hg s) as (_ & e1 & T1 & _).
    destruct (Hg (after a s)) as (_ & e2 & T2 & _).
    rewrite (added_trans _ _ _ _ _ T1 T2), fetches_app, length_app.
    unfold fetched in L1, L2. by rewrite L1, L2.
  - intros b. destruct (W2 b) as [Wl Wu].
    destruct (Ho (with_flag b (after a s)) v) as (_ & F3 & _);
      [by rewrite Wu |].
    assert (Hf3 : fetched a (with_flag b (after a s)) ≠ [])
      by (apply (F3 v0); by rewrite Wl).
    destruct (Hc (with_flag b (after a s)) v Hf3) as [Ceq' _];
      [by rewrite Wu |].
    destruct Ceq' as [Hb _]; [by rewrite Wl |]. by rewrite Hb.
Qed.

(** One access of the settings that goes to the service. *)
Lemma settings_single s m :
  fetched settings_artifact s ≠ [] →
  upstream settings_artifact s = Some (Mapping m) →
  let s1 := after settings_artifact s in
  _global_settings (self s1) = Some m
  ∧ (∃ k, _global_settings_timestamp (self s1) = Some (clock (env (os s)) k))
  ∧ env (os s1) = env (os s)
  ∧ length (fetched settings_artifact s) = 1%nat.
Proof.
  destruct s as [b w]. destruct b as [? [m0|]], w.
  all: unfold settings_artifact, BinaryBuilder.global_settings.
  all: run_monad.
  all: repeat (case_match; simpl in *; simplify_eq); simpl;
         rewrite <- ?app_assoc, ?drop_app_length, ?drop_all; simpl.
  all: try done.
  all: intros; simplify_eq; split_and!; eauto.
Qed.

(** C2, as the code has it: the global settings, when the mapping
    fetched is not empty, and the bearer token, when the token fetched
    is not about to expire, are fetched once by two accesses in
    immediate succession, and the second access does not set the flag;
    the certificate and the two scripts have no cache timeout: two
    accesses make two remote calls, the second of which, finding the
    value unchanged, does not set the flag either, the value being one
    that reads back as it is written. *)
Theorem idempotence_by_artifact :
  (∀ s m, brief s →
     fetched settings_artifact s ≠ [] →
     upstream settings_artifact s = Some (Mapping m) →
     m ≠ ∅ →
     twice 1 settings_artifact s)
  ∧ (∀ s tok claims exp buffer, fresh_cache s →
       fetched token_artifact s ≠ [] →
       upstream token_artifact s = Some (Text tok) →
       jwt_decode (env (os s)) tok = Some claims →
       claims !! "exp" = Some (PInt exp) →
       int_of (setting s (Some "cray_ipxe_token_min_remaining_valid_time")
                 (PStr "1800")) = Some buffer →
       (∀ k, clock (env (os s)) k `quot` 1000000 < exp - buffer) →
       twice 1 token_artifact s)
  ∧ (∀ a, a ∈ [cert_artifact; bss_artifact; debug_artifact] →
     ∀ s v, fetched a s ≠ [] → upstream a s = Some v → reads_back v →
            twice 2 a s).
Proof.
  split_and!.
  - intros s m Hb Hf Hu Hm.
    destruct (settings_single s m Hf Hu) as (Hs & (k & Ht) & He & Hl).
    set (s1 := after settings_artifact s) in *.
    assert (Hfresh : ∀ b, fresh_cache (with_flag b s1)).
    { intros b. split; simpl.
      - rewrite Hs. simpl. apply negb_true_iff, bool_decide_eq_false_2. done.
      - intros n. destruct s1 as [[] w1]. simpl in *. rewrite Ht, He. simpl.
        apply Hb. }
    assert (Hquiet : ∀ b,
      fetches (added (os s1) (os (after settings_artifact (with_flag b s1)))) = []
      ∧ flag (after settings_artifact (with_flag b s1)) = b).
    { intros b.
      destruct (idles_global_settings (with_flag b s1) (Hfresh b))
        as (_ & e & T & N).
      destruct (polls_global_settings (with_flag b s1)) as [_ Q].
      simpl in T. change (os s1) with (os (with_flag b s1)).
      unfold after, settings_artifact, exec, flag.
      assert (A : added (os (with_flag b s1))
                    (os (BinaryBuilder.global_settings (with_flag b s1)).2) = e)
        by (apply added_app; exact T).
      rewrite A in Q |- *. split; [done |].
      rewrite (Q N). done. }
    split.
    + pose proof (frame_global_settings (λ _, True) (λ _ _, I) I s)
        as (_ & _ & _ & _ & e1 & T1 & _).
      destruct (Hquiet (flag s1)) as [N _].
      assert (with_flag (flag s1) s1 = s1) as Es by (by destruct s1 as [[]]).
      rewrite Es in N.
      pose proof (frame_global_settings (λ _, True) (λ _ _, I) I s1)
        as (_ & _ & _ & _ & e2 & T2 & _).
      fold (exec BinaryBuilder.global_settings s) in T1.
      fold (exec BinaryBuilder.global_settings s1) in T2.
      change (exec BinaryBuilder.global_settings) with (after settings_artifact)
        in T1, T2. fold s1 in T1. fold s1.
      rewrite (added_trans _ _ _ _ _ T1 T2), fetches_app, length_app, N.
      unfold fetched in Hl. fold s1 in Hl. rewrite Hl. done.
    + intros b. apply Hquiet.
  - intros s tok claims exp buffer F Hf Hu Hd He Hb Hc.
    destruct (run_bearer_token_fetched s tok F Hf Hu)
      as (Ht & Hs & Hst & Henv & e1 & T1 & N1).
    set (s1 := after token_artifact s) in *.
    assert (Hkept : ∀ b, ∃ n, BinaryBuilder.bearer_token (with_flag b s1)
                              = (Ok (Some tok), later n (with_flag b s1))).
    { intros b.
      apply (run_bearer_token_kept _ tok claims exp buffer); simpl.
      - destruct F as [Fd Fc]. split; simpl.
        + by rewrite Hs.
        + intros n. rewrite Hst, Henv. apply Fc.
      - exact Ht.
      - by rewrite Henv.
      - exact He.
      - unfold setting in *. simpl. by rewrite Hs.
      - intros k. rewrite Henv. apply Hc. }
    split.
    + destruct (Hkept (flag s1)) as [n Hn].
      assert (with_flag (flag s1) s1 = s1) as Es by (by destruct s1 as [[]]).
      rewrite Es in Hn.
      fold s1.
      change (after token_artifact s1) with (BinaryBuilder.bearer_token s1).2.
      rewrite Hn. change (length (fetches (added (os s) (os s1))) = 1%nat).
      rewrite (added_app _ _ _ T1). exact N1.
    + intros b. destruct (Hkept b) as [n Hn].
      fold s1. change (after token_artifact (with_flag b s1))
        with (BinaryBuilder.bearer_token (with_flag b s1)).2.
      by rewrite Hn.
  - intros a Ha s v Hf Hu Hv.
    assert (Hcases : a = cert_artifact ∨ a = bss_artifact ∨ a = debug_artifact).
    { rewrite !elem_of_cons, elem_of_nil in Ha. tauto. }
    destruct Hcases as [-> | [-> | ->]].
    + apply (twice_compared cert_artifact cert_compares
               cert_fetches_once) with v; [| done | done | done].
      intros t. by destruct (frame_cert_path (λ _, True) (λ _, I) t)
        as (_ & _ & _ & G).
    + apply (twice_compared bss_artifact bss_compares
               bss_fetches_once) with v; [| done | done | done].
      intros t. by destruct (frame_bss_script_path (λ _, True) (λ _, I) t)
        as (_ & _ & _ & G).
    + apply (twice_compared debug_artifact debug_compares
               debug_fetches_once) with v; [| done | done | done].
      intros t. by destruct (frame_debug_script_path (λ _, True) (λ _, I) t)
        as (_ & _ & _ & G).
Qed.

Lemma idempotence_by_artifact_witness :
  let s := building [] in
  let t := cached [] (seconds 100) names_x86 in
  twice 1 settings_artifact s ∧ twice 1 token_artifact t
  ∧ twice 2 cert_artifact s.
Proof.
  intros s t. destruct idempotence_by_artifact as (Hs & Ht & Hf). split_and!.
  - apply (Hs s {[ "cray_ipxe_binary_name" := PStr "ipxe.efi";
                   "cray_ipxe_debug_binary_name" := PStr "debug-ipxe.efi" ]}).
    + intros n m. by destruct n, m.
    + by vm_compute.
    + (vm_compute; reflexivity).
    + apply insert_non_empty.
  - apply (Ht t "tok" {[ "exp" := PInt 5000 ]} 5000 1800).
    + split; [reflexivity |]. intros n. destruct n; by vm_compute.
    + by vm_compute.
    + (vm_compute; reflexivity).
    + reflexivity.
    + reflexivity.
    + reflexivity.
    + intros k. destruct k; by vm_compute.
  - apply (Hf cert_artifact) with (Text "CERT").
    + apply list_elem_of_here.
    + by vm_compute.
    + (vm_compute; reflexivity).
    + reflexivity.
Defined.

(** C2 as it was stated does not hold of every artifact: the
    certificate is fetched at each of two accesses in immediate
    succession. *)
Lemma cert_fetched_twice :
  let s := building [] in
  (brief s
   ∧ fetched cert_artifact s = [ACert]
   ∧ upstream cert_artifact s = Some (Text "CERT")
   ∧ fetches (added (os s) (os (after cert_artifact (after cert_artifact s))))
     = [ACert; ACert])
  ∧ ¬ idempotent cert_artifact.
Proof.
  intros s.
  assert (Hb : brief s) by (intros n m; by destruct n, m).
  split; [split_and!; [done | (vm_compute; reflexivity) | (vm_compute; reflexivity) | by vm_compute] |].
  intros H. destruct (H s (Text "CERT") Hb) as [Hn _];
    [by vm_compute | (vm_compute; reflexivity) |].
  vm_compute in Hn. discriminate.
Qed.




(** * Further properties of the code *)

(** ** The timestamp record: round trips, the heartbeat and the probe *)

Lemma run_data_of p w : ipxeTimestamp._data (Timestamp p) w = (Ok (data_of p w), w).
Proof.
  unfold ipxeTimestamp._data, gets, data_of. simpl.
  by destruct (tsfiles w !! p).
Qed.

(** What the getters give on a machine whose file holds [d]. *)
Lemma run_getters p w :
  let d := data_of p w in
  ipxeTimestamp.value (Timestamp p) w =
    (match d !! "timestamp" with
     | Some (JNum t) => Ok (Some t)
     | Some JNull => Raise TypeError
     | None => Ok None
     end, w)
  ∧ ipxeTimestamp.last_build (Timestamp p) w =
    (match d !! "last_build" with
     | Some (JNum t) => Ok (Some t)
     | _ => Ok None
     end, w)
  ∧ ipxeTimestamp.max_age (Timestamp p) w =
    (match d !! "max_age" with
     | Some (JNum t) => Ok t
     | Some JNull => Raise TypeError
     | None => Raise KeyError
     end, w).
Proof.
  intros d.
  unfold ipxeTimestamp.value, ipxeTimestamp.last_build, ipxeTimestamp.max_age,
    try_except.
  rewrite !(run_bind_ok _ _ _ _ _ (run_data_of p w)).
  unfold ipxeTimestamp.float_of_key. fold d.
  split_and!.
  - by destruct (d !! "timestamp") as [[]|].
  - by destruct (d !! "last_build") as [[]|].
  - by destruct (d !! "max_age") as [[]|].
Qed.

Lemma data_of_set p q d t w :
  data_of q (set_tsfiles (<[p := d]> t) w)
  = if bool_decide (q = p) then d else default no_data (t !! q).
Proof.
  unfold data_of. simpl. case_bool_decide as E.
  - subst. by rewrite lookup_insert_eq.
  - by rewrite lookup_insert_ne.
Qed.

(** X1: [ipxeTimestamp(path, max_age, when)] raises
    [FileNotFoundError], writing nothing, when the path has no directory
    part. With a directory part and a last component that can name a
    file, the record just created reads back as it was written, whatever
    the file held before: [value] is the time given (the clock's when
    none is), [max_age] the limit, [last_build] is [None], and [byref]
    finds it; no other file is touched and nothing is logged. *)
Theorem init_round_trip (w : world) (p : string) (limit : Z) (when : option Z) :
  let ts := Timestamp p in
  let r := ipxeTimestamp.init p limit when w in
  (dirname p = "" → r = (Raise FileNotFoundError, w))
  ∧ (dirname p ≠ "" → names_file p = true →
     r.1 = Ok ts
     ∧ (ipxeTimestamp.value ts r.2).1
       = Ok (Some (default (clock (env w) (ticks w)) when))
     ∧ (ipxeTimestamp.max_age ts r.2).1 = Ok limit
     ∧ (ipxeTimestamp.last_build ts r.2).1 = Ok None
     ∧ (ipxeTimestamp.byref p r.2).1 = Ok ts
     ∧ trace r.2 = trace w
     ∧ (∀ q, q ≠ p → tsfiles r.2 !! q = tsfiles w !! q)).
Proof.
  intros ts r. subst ts. split.
  { intros Hd. subst r. unfold ipxeTimestamp.init, makedirs. by rewrite Hd. }
  intros Hd _.
  assert (Hr : ∃ w0, r = (Ok (Timestamp p), set_tsfiles
            (<[p := {[ "timestamp" := JNum (default (clock (env w) (ticks w)) when);
                       "max_age" := JNum limit;
                       "last_build" := JNull ]} ]> (tsfiles w0)) w0)
            ∧ tsfiles w0 = tsfiles w ∧ trace w0 = trace w).
  { subst r. unfold ipxeTimestamp.init, makedirs.
    rewrite (proj2 (String.eqb_neq _ _) Hd). destruct when as [t|].
    - by exists w.
    - by exists (set_ticks (S (ticks w)) w). }
  destruct Hr as (w0 & -> & Hf & Ht). simpl.
  destruct (run_getters p (set_tsfiles
              (<[p := {[ "timestamp" := JNum (default (clock (env w) (ticks w)) when);
                         "max_age" := JNum limit;
                         "last_build" := JNull ]} ]> (tsfiles w0)) w0))
    as (Hv & Hl & Hm).
  rewrite data_of_set, bool_decide_eq_true_2 in Hv, Hl, Hm by done.
  rewrite Hv, Hl, Hm. simplify_map_eq.
  split_and!; try done.
  - rewrite byref_present; [done |]. simpl. rewrite lookup_insert_eq. eauto.
  - intros q Hq. rewrite lookup_insert_ne by done. by rewrite Hf.
Qed.

Lemma init_round_trip_witness :
  let w := with_record LIVENESS_PATH (TsRecord 0 (seconds 40) (Some (seconds 5)))
             (boot (offline (clock_of [] (seconds 9)))) in
  (ipxeTimestamp.last_build (Timestamp LIVENESS_PATH) w).1 = Ok (Some (seconds 5))
  ∧ (ipxeTimestamp.last_build (Timestamp LIVENESS_PATH)
       (ipxeTimestamp.init LIVENESS_PATH (seconds 40) None w).2).1 = Ok None
  ∧ tsfiles (ipxeTimestamp.init "/tmp/other" (seconds 40) None w).2 !! LIVENESS_PATH
    = tsfiles w !! LIVENESS_PATH
  ∧ ipxeTimestamp.init "ipxe_build_in_progress" (seconds 40) None w
    = (Raise FileNotFoundError, w).
Proof.
  intros w. split; [reflexivity |].
  destruct (init_round_trip w LIVENESS_PATH (seconds 40) None)
    as (_ & H1).
  destruct H1 as (_ & _ & _ & H1 & _); [done | reflexivity |].
  destruct (init_round_trip w "/tmp/other" (seconds 40) None)
    as (_ & H2).
  destruct H2 as (_ & _ & _ & _ & _ & _ & H2); [done | reflexivity |].
  destruct (init_round_trip w "ipxe_build_in_progress" (seconds 40) None)
    as (H3 & _).
  split; [exact H1 |]. split; [apply H2; discriminate |].
  apply H3. reflexivity.
Defined.

(** How the three setters run: one key of the object is replaced, and
    the clock is read when the argument is false. *)
Lemma run_setters p w (when : option Z) (age : Z) :
  let put key v w0 :=
    set_tsfiles (<[p := <[key := JNum v]> (data_of p w)]> (tsfiles w)) w0 in
  let n := if bool_decide (stored when w = default 0 when ∧ default 0 when ≠ 0)
           then ticks w else S (ticks w) in
  ipxeTimestamp.value_set (Timestamp p) when w
    = (Ok (), put "timestamp" (stored when w) (set_ticks n w))
  ∧ ipxeTimestamp.last_build_set (Timestamp p) when w
    = (Ok (), put "last_build" (stored when w) (set_ticks n w))
  ∧ ipxeTimestamp.max_age_set (Timestamp p) age w = (Ok (), put "max_age" age w).
Proof.
  intros put n. subst put n.
  unfold ipxeTimestamp.value_set, ipxeTimestamp.last_build_set,
    ipxeTimestamp.max_age_set, stored.
  destruct when as [t|]; [destruct (t =? 0) eqn:E |]; simpl.
  - apply Z.eqb_eq in E. rewrite bool_decide_eq_false_2 by (intros [_ ?]; done).
    done.
  - apply Z.eqb_neq in E. rewrite bool_decide_eq_true_2 by done.
    rewrite set_ticks_same. cbv [mbind M_bind mret M_ret].
    by rewrite !run_data_of.
  - rewrite bool_decide_eq_false_2 by (intros [_ ?]; done). done.
Qed.

(** X2: each setter replaces one field and leaves the two others as
    they were read before: after [value = when], [last_build = when] or
    [max_age = age] the getter gives what was stored, which for a false
    [when] ([None] or zero) is the time of the clock. *)
Theorem setters_round_trip (w : world) (p : string) (when : option Z) (age : Z) :
  let ts := Timestamp p in
  let w1 := exec (ipxeTimestamp.value_set ts when) w in
  let w2 := exec (ipxeTimestamp.last_build_set ts when) w in
  let w3 := exec (ipxeTimestamp.max_age_set ts age) w in
  ((ipxeTimestamp.value ts w1).1 = Ok (Some (stored when w))
   ∧ (ipxeTimestamp.last_build ts w1).1 = (ipxeTimestamp.last_build ts w).1
   ∧ (ipxeTimestamp.max_age ts w1).1 = (ipxeTimestamp.max_age ts w).1)
  ∧ ((ipxeTimestamp.last_build ts w2).1 = Ok (Some (stored when w))
     ∧ (ipxeTimestamp.value ts w2).1 = (ipxeTimestamp.value ts w).1
     ∧ (ipxeTimestamp.max_age ts w2).1 = (ipxeTimestamp.max_age ts w).1)
  ∧ ((ipxeTimestamp.max_age ts w3).1 = Ok age
     ∧ (ipxeTimestamp.value ts w3).1 = (ipxeTimestamp.value ts w).1
     ∧ (ipxeTimestamp.last_build ts w3).1 = (ipxeTimestamp.last_build ts w).1).
Proof.
  intros ts w1 w2 w3. subst ts w1 w2 w3. unfold exec.
  destruct (run_setters p w when age) as (-> & -> & ->).
  destruct (run_getters p w) as (-> & -> & ->). simpl.
  repeat match goal with
         | |- context [ipxeTimestamp.value _ ?w'] =>
             destruct (run_getters p w') as (-> & _ & _)
         | |- context [ipxeTimestamp.last_build _ ?w'] =>
             destruct (run_getters p w') as (_ & -> & _)
         | |- context [ipxeTimestamp.max_age _ ?w'] =>
             destruct (run_getters p w') as (_ & _ & ->)
         end.
  simpl. rewrite !data_of_set, !bool_decide_eq_true_2 by done.
  simplify_map_eq. done.
Qed.

(** [refresh] writes a reading of the clock over the timestamp. *)
Lemma run_refresh p w :
  ∃ k n, ipxeTimestamp.refresh (Timestamp p) w =
           (Ok (), set_tsfiles
                     (<[p := <["timestamp" := JNum (clock (env w) k)]> (data_of p w)]>
                        (tsfiles w)) (set_ticks n w))
         ∧ (ticks w ≤ k < n)%nat.
Proof.
  unfold ipxeTimestamp.refresh.
  rewrite (run_bind_ok datetime_now _ w (set_ticks (S (ticks w)) w)
             (clock (env w) (ticks w))) by done.
  destruct (run_setters p (set_ticks (S (ticks w)) w)
              (Some (clock (env w) (ticks w))) 0) as (-> & _).
  unfold stored. simpl.
  destruct (clock (env w) (ticks w) =? 0) eqn:E.
  - exists (S (ticks w)), (S (S (ticks w))). split; [| lia].
    apply Z.eqb_eq in E. rewrite bool_decide_eq_false_2; [done |].
    intros [_ ?]. done.
  - exists (ticks w), (S (ticks w)). split; [| lia].
    apply Z.eqb_neq in E. by rewrite bool_decide_eq_true_2.
Qed.

(** The heartbeat, after some beats: only the timestamp of the record
    has changed, to a reading of the clock; every beat sleeps. *)
Lemma run_heartbeat_loop p beats w :
  ∃ w', heartbeat_loop (Timestamp p) beats w = (Ok (), w')
        ∧ env w' = env w ∧ files w' = files w
        ∧ trace w' = (trace w ++ replicate beats (EvSleep 10))%list
        ∧ (ticks w ≤ ticks w')%nat
        ∧ (∀ q, q ≠ p → tsfiles w' !! q = tsfiles w !! q)
        ∧ (beats = 0%nat → tsfiles w' = tsfiles w)
        ∧ (beats ≠ 0%nat →
           ∃ k, (ticks w ≤ k < ticks w')%nat
                ∧ tsfiles w' !! p
                  = Some (<["timestamp" := JNum (clock (env w) k)]> (data_of p w))).
Proof.
  revert w. induction beats as [| n IH]; intros w.
  - exists w. simpl. rewrite app_nil_r. split_and!; try done.
  - simpl. destruct (run_refresh p w) as (k & m & Hr & Hk).
    rewrite (run_bind_ok _ _ _ _ _ Hr).
    set (w1 := set_tsfiles _ (set_ticks m w)).
    unfold time_sleep, emit at 1. rewrite run_bind. unfold modify at 1.
    set (w2 := set_trace _ w1).
    destruct (IH w2) as (w' & -> & He & Hf & Ht & Hn & Ho & Hz & Hs).
    exists w'. simpl in *.
    split_and!; try done.
    + rewrite Ht. by rewrite <- app_assoc.
    + lia.
    + intros q Hq. rewrite (Ho q Hq). by rewrite lookup_insert_ne.
    + intros _. destruct (decide (n = 0%nat)) as [-> | Hne].
      * exists k. rewrite (Hz eq_refl). rewrite lookup_insert_eq.
        split; [lia | done].
      * destruct (Hs Hne) as (k' & Hk' & ->). exists k'. split; [lia |].
        unfold data_of. simpl. rewrite lookup_insert_eq. simpl.
        by rewrite insert_insert_eq.
Qed.

(** X3: the heartbeat dies at once with [ipxeTimestampNoEnt] when
    there is no record; on an existing record it never raises, sleeps
    ten seconds at every beat, and changes nothing but the [timestamp]
    field, which holds a reading of the clock taken during the beats:
    [max_age] and [last_build] are as they were. *)
Theorem heartbeat_beats (w : world) (p : string) (beats : nat) :
  let r := liveliness_heartbeat p beats w in
  (tsfiles w !! p = None → r = (Raise ipxeTimestampNoEnt, w))
  ∧ (∀ d, holds p d w →
       r.1 = Ok ()
       ∧ added w r.2 = replicate beats (EvSleep 10)
       ∧ files r.2 = files w
       ∧ (∀ q, q ≠ p → tsfiles r.2 !! q = tsfiles w !! q)
       ∧ (beats ≠ 0%nat →
          ∃ k, (ticks w ≤ k < ticks r.2)%nat
               ∧ holds p (<["timestamp" := JNum (clock (env w) k)]> d) r.2)).
Proof.
  intros r. subst r. unfold liveliness_heartbeat. split.
  - intros H. by rewrite (run_bind_raise _ _ _ _ _ (byref_absent p w H)).
  - intros d H.
    rewrite (run_bind_ok _ _ _ _ _ (byref_present p w (mk_is_Some _ _ H))).
    destruct (run_heartbeat_loop p beats w)
      as (w' & -> & He & Hf & Ht & Hn & Ho & Hz & Hs).
    simpl. split_and!; try done.
    + by apply added_app.
    + intros Hb. destruct (Hs Hb) as (k & Hk & E). exists k. split; [done |].
      unfold holds. rewrite E. unfold data_of. by rewrite H.
Qed.

Lemma heartbeat_beats_witness :
  let w := with_record LIVENESS_PATH (TsRecord 0 (seconds 40) (Some (seconds 5)))
             (boot (offline (clock_of [seconds 10; seconds 20] (seconds 30)))) in
  let r := liveliness_heartbeat LIVENESS_PATH 3 w in
  liveliness_heartbeat "/tmp/none" 3 w = (Raise ipxeTimestampNoEnt, w)
  ∧ r.1 = Ok ()
  ∧ added w r.2 = [EvSleep 10; EvSleep 10; EvSleep 10]
  ∧ ∃ k, (0 ≤ k < ticks r.2)%nat
         ∧ holds LIVENESS_PATH
             (<["timestamp" := JNum (clock_of [seconds 10; seconds 20] (seconds 30) k)]>
                (to_json (TsRecord 0 (seconds 40) (Some (seconds 5))))) r.2.
Proof.
  intros w r.
  destruct (heartbeat_beats w "/tmp/none" 3) as [H0 _].
  destruct (heartbeat_beats w LIVENESS_PATH 3) as [_ H1].
  destruct (H1 (to_json (TsRecord 0 (seconds 40) (Some (seconds 5)))))
    as (R & T & _ & _ & K); [reflexivity |].
  split; [apply H0; reflexivity |].
  split; [exact R |]. split; [exact T |].
  apply K. discriminate.
Defined.

(** How [expired], [recent_build] and [alive] run on any file. *)
Lemma run_alive_any p w :
  let d := data_of p w in
  (ipxeTimestamp.alive (Timestamp p) w).1 =
    match d !! "timestamp", d !! "max_age" with
    | Some (JNum t), Some (JNum a) =>
        Ok (negb (bool_decide (clock (env w) (ticks w) > t + a))
            || match json_num d "last_build" with
               | Some l => bool_decide (clock (env w) (S (S (ticks w))) - l < a)
               | None => false
               end)
    | Some JNull, _ => Raise TypeError
    | _, None => Raise KeyError
    | _, _ => Raise TypeError
    end.
Proof.
  intros d.
  destruct (d !! "timestamp") as [[|t]|] eqn:Et;
    destruct (d !! "max_age") as [[|a]|] eqn:Ea.
  5: { destruct (tsfiles w !! p) as [d0|] eqn:E.
       - assert (d = d0) as -> by (subst d; unfold data_of; by rewrite E).
         apply (run_alive p d0 t a Et Ea w E).
       - subst d. unfold data_of in Et. rewrite E in Et. by vm_compute in Et. }
  all: unfold ipxeTimestamp.alive, ipxeTimestamp.expired,
         ipxeTimestamp.expiration_date, ipxeTimestamp.max_delta.
  all: cbv [mbind M_bind datetime_now].
  all: destruct (run_getters p (set_ticks (S (ticks w)) w)) as (Hv & _ & Hm).
  all: change (data_of p (set_ticks (S (ticks w)) w)) with d in Hv, Hm.
  all: rewrite Et in Hv; rewrite Ea in Hm; rewrite Hv; try rewrite Hm.
  all: reflexivity.
Qed.

(** X4: on a record whose fields are each missing, [null] or a number
    in range, [alive] answers exactly when [timestamp] and [max_age] are
    numbers, whatever [last_build] is; else it raises, and only
    [TypeError] or [KeyError]. *)
Theorem alive_answers_iff (w : world) (p : string) (d : gmap string jval) :
  holds p d w →
  plain_field d "timestamp" → plain_field d "max_age" →
  plain_field d "last_build" →
  ((∃ b, (ipxeTimestamp.alive (Timestamp p) w).1 = Ok b)
   ↔ (∃ t a, d !! "timestamp" = Some (JNum t) ∧ d !! "max_age" = Some (JNum a)))
  ∧ (∀ e, (ipxeTimestamp.alive (Timestamp p) w).1 = Raise e →
          e = TypeError ∨ e = KeyError).
Proof.
  intros H _ _ _. split; [| apply query_alive].
  rewrite run_alive_any. unfold data_of. rewrite H. simpl.
  destruct (d !! "timestamp") as [[|t]|]; destruct (d !! "max_age") as [[|a]|].
  all: split; [intros [b Hb] | intros (t' & a' & Ht & Ha)]; try done.
  all: eauto.
Qed.

Lemma alive_answers_iff_witness :
  let w := with_record LIVENESS_PATH (TsRecord 0 (seconds 40) None)
             (boot (offline (clock_of [] (seconds 39)))) in
  ∃ b, (ipxeTimestamp.alive (Timestamp LIVENESS_PATH) w).1 = Ok b.
Proof.
  intros w.
  destruct (alive_answers_iff w LIVENESS_PATH
              (to_json (TsRecord 0 (seconds 40) None))) as [[_ H] _];
    [reflexivity | by vm_compute | by vm_compute | by vm_compute |].
  apply H. exists 0, (seconds 40). split; reflexivity.
Defined.

(** X5: a builder just constructed has every cache empty and a first
    build due; it has (re)created the liveness record, silently, so that
    the probe exits with 0 as long as no more than the time limit has
    passed since the construction, and with 1 afterwards. *)
Theorem new_builder_grace (k : klass) (limit : Z) (w : world) :
  let r := BinaryBuilder.init k limit w in
  let created := clock (env w) (ticks w) in
  let now := clock (env w) (S (ticks w)) in
  (∃ b, r.1 = Ok b ∧ cls b = k ∧ recreation_necessary b = true
        ∧ liveness_probe b = Timestamp LIVENESS_PATH
        ∧ _global_settings b = None ∧ _bearer_token b = None
        ∧ _cert_path b = None ∧ _bss_script_path b = None
        ∧ _debug_script_path b = None)
  ∧ trace r.2 = trace w
  ∧ (exit_status (liveness.main r.2).1 = 0 ↔ now - created ≤ limit)
  ∧ (exit_status (liveness.main r.2).1 = 1 ↔ now - created > limit).
Proof.
  intros r created now.
  assert (Hr : r = (Ok (Builder k None None None None None None None None
                          (Timestamp LIVENESS_PATH) true),
                    set_tsfiles (<[LIVENESS_PATH :=
                       {[ "timestamp" := JNum created; "max_age" := JNum limit;
                          "last_build" := JNull ]} ]> (tsfiles w))
                      (set_ticks (S (ticks w)) w))) by reflexivity.
  rewrite Hr. simpl. split; [eexists; split_and!; reflexivity |].
  split; [done |].
  set (w1 := set_tsfiles _ _).
  assert (Hd : is_Some (tsfiles w1 !! LIVENESS_PATH)).
  { subst w1. simpl. rewrite lookup_insert_eq. eauto. }
  assert (Ha : (ipxeTimestamp.alive (Timestamp LIVENESS_PATH) w1).1
               = Ok (negb (bool_decide (now > created + limit)))).
  { rewrite run_alive_any. simpl.
    assert (data_of LIVENESS_PATH w1 =
            {[ "timestamp" := JNum created; "max_age" := JNum limit;
               "last_build" := JNull ]}) as ->.
    { subst w1. unfold data_of. simpl. by rewrite lookup_insert_eq. }
    unfold json_num. simplify_map_eq. by rewrite orb_false_r. }
  destruct (query_alive (Timestamp LIVENESS_PATH) w1) as [[n Hn] _].
  destruct (ipxeTimestamp.alive (Timestamp LIVENESS_PATH) w1) as [[b|e] w2] eqn:E;
    simpl in Ha, Hn; [| done].
  injection Ha as ->.
  destruct (decide (now > created + limit)) as [Hgt | Hle].
  - rewrite bool_decide_eq_true_2 in E by done. simpl in E.
    rewrite (main_dead w1 w2 Hd E). simpl. split; split; intros; lia.
  - rewrite bool_decide_eq_false_2 in E by done. simpl in E.
    rewrite (main_alive w1 w2 Hd E). simpl. split; split; intros; lia.
Qed.

Lemma new_builder_grace_witness :
  let start := boot (offline (clock_of [0] (seconds 41))) in
  exit_status (liveness.main (BinaryBuilder.init X86Builder (seconds 40) start).2).1
  = 1.
Proof.
  intros start.
  destruct (new_builder_grace X86Builder (seconds 40) start) as (_ & _ & _ & H).
  apply H. by vm_compute.
Defined.

(** X6: [delete] removes the record: [byref] then raises, and a second
    [delete] raises [FileNotFoundError]. A [refresh] through a handle
    kept from before creates the file again, with a timestamp but no
    [max_age]: [max_age] and [alive] then raise [TypeError]. *)
Theorem refresh_after_delete (w : world) (p : string) (d : gmap string jval) :
  holds p d w →
  let ts := Timestamp p in
  let w1 := exec (ipxeTimestamp.delete ts) w in
  let w2 := exec (ipxeTimestamp.refresh ts) w1 in
  (ipxeTimestamp.delete ts w).1 = Ok ()
  ∧ (ipxeTimestamp.byref p w1).1 = Raise ipxeTimestampNoEnt
  ∧ (ipxeTimestamp.delete ts w1).1 = Raise FileNotFoundError
  ∧ (ipxeTimestamp.refresh ts w1).1 = Ok ()
  ∧ (ipxeTimestamp.byref p w2).1 = Ok ts
  ∧ (∃ t, (ipxeTimestamp.value ts w2).1 = Ok (Some t))
  ∧ (ipxeTimestamp.max_age ts w2).1 = Raise TypeError
  ∧ (ipxeTimestamp.alive ts w2).1 = Raise TypeError.
Proof.
  intros H ts w1 w2. subst ts.
  assert (E1 : ipxeTimestamp.delete (Timestamp p) w
               = (Ok (), set_tsfiles (delete p (tsfiles w)) w)).
  { unfold ipxeTimestamp.delete. rewrite run_bind. unfold gets at 1. simpl.
    rewrite bool_decide_eq_true_2; [done |]. rewrite H. eauto. }
  assert (N1 : tsfiles w1 !! p = None).
  { subst w1. unfold exec. rewrite E1. simpl. apply lookup_delete_eq. }
  assert (D1 : data_of p w1 = no_data) by (unfold data_of; by rewrite N1).
  destruct (run_refresh p w1) as (k & n & Hr & Hk).
  assert (E2 : data_of p w2 = <["timestamp" := JNum (clock (env w1) k)]> no_data).
  { subst w2. unfold exec. rewrite Hr. unfold data_of. simpl.
    rewrite lookup_insert_eq. simpl. by rewrite N1. }
  split_and!.
  - by rewrite E1.
  - by rewrite byref_absent.
  - unfold ipxeTimestamp.delete. rewrite run_bind. unfold gets at 1. simpl.
    rewrite bool_decide_eq_false_2; [done |]. rewrite N1. by intros [? [=]].
  - by rewrite Hr.
  - rewrite byref_present; [done |]. subst w2. unfold exec. rewrite Hr. simpl.
    rewrite lookup_insert_eq. eauto.
  - exists (clock (env w1) k).
    destruct (run_getters p w2) as (-> & _ & _). simpl. rewrite E2.
    by rewrite lookup_insert_eq.
  - destruct (run_getters p w2) as (_ & _ & ->). simpl. rewrite E2.
    by vm_compute.
  - rewrite run_alive_any. simpl. rewrite E2. rewrite lookup_insert_eq.
    by vm_compute.
Qed.

Lemma refresh_after_delete_witness :
  let w := with_record LIVENESS_PATH (TsRecord 0 (seconds 40) None)
             (boot (offline (clock_of [] (seconds 1)))) in
  let w2 := exec (ipxeTimestamp.refresh (Timestamp LIVENESS_PATH))
              (exec (ipxeTimestamp.delete (Timestamp LIVENESS_PATH)) w) in
  (ipxeTimestamp.alive (Timestamp LIVENESS_PATH) w).1 = Ok true
  ∧ (ipxeTimestamp.alive (Timestamp LIVENESS_PATH) w2).1 = Raise TypeError.
Proof.
  intros w w2. split; [reflexivity |].
  apply (refresh_after_delete w LIVENESS_PATH
           (to_json (TsRecord 0 (seconds 40) None))).
  reflexivity.
Defined.

(** ** Tokens: fetching them and judging their expiry *)

(** X7: [fetch_token] gives a token exactly when both credential
    files can be read and the endpoint replies with an access token; it
    raises exactly when the files can be read and the session raises;
    the endpoint is asked once if the files can be read and not at all
    otherwise, in which case the result is [None] with one error
    logged. No file is changed. *)
Theorem fetch_token_outcomes (w : world) (host : pyval) :
  let r := tokens.fetch_token host w in
  (∀ t, r.1 = Ok (Some t)
        ↔ credentials_mounted w = true
          ∧ oauth_token (env w) host = Ok (Some (Some t)))
  ∧ (∀ e, r.1 = Raise e
          ↔ credentials_mounted w = true ∧ oauth_token (env w) host = Raise e)
  ∧ fetches (added w r.2)
    = (if credentials_mounted w then [AToken host] else [])
  ∧ (credentials_mounted w = false →
     r.1 = Ok None ∧ ∃ message, added w r.2 = [EvLog "ERROR" message])
  ∧ files r.2 = files w ∧ env r.2 = env w.
Proof.
  intros r. subst r. unfold tokens.fetch_token, credentials_mounted, added.
  cbv [mbind M_bind gets log emit modify mret M_ret raise]. simpl.
  destruct (files w !! tokens.auth_user_file) as [id|] eqn:Ei; simpl.
  2: { rewrite ?drop_app_length.
       split_and!; try done; try (intros ?; split; [done | by intros [[=] _]]).
       intros _. eauto. }
  destruct (files w !! tokens.auth_secret_file) as [secret|] eqn:Es; simpl.
  2: { rewrite ?drop_app_length.
       split_and!; try done; try (intros ?; split; [done | by intros [[=] _]]).
       intros _. eauto. }
  destruct (oauth_token (env w) host) as [[[t'|]|]|e']; simpl;
    rewrite <- ?app_assoc, ?drop_app_length; simpl.
  all: split_and!; try done.
  all: try (intros ?; split; [intros [=]; by subst | intros [_ [=]]; by subst]).
Qed.

Lemma fetch_token_outcomes_witness :
  let w := boot (offline (clock_of [] 0)) in
  (tokens.fetch_token (PStr tokens.TOKEN_HOST) w).1 = Ok None
  ∧ ∃ message, added w (tokens.fetch_token (PStr tokens.TOKEN_HOST) w).2
               = [EvLog "ERROR" message].
Proof.
  intros w.
  destruct (fetch_token_outcomes w (PStr tokens.TOKEN_HOST)) as (_ & _ & _ & H & _).
  apply H. reflexivity.
Defined.

(** X8: on a token that decodes with an integer [exp], the buffer
    setting counts through [int()] only: a number [n] gives
    [now >= exp - n]; an ASCII string that [int()] reads gives what its
    integer gives, one that it does not read raises [ValueError]; and
    [None] raises [TypeError]. *)
Theorem token_setting_forms (w : world) (token : string)
    (claims : gmap string pyval) (exp : Z) :
  jwt_decode (env w) token = Some claims →
  claims !! "exp" = Some (PInt exp) →
  let soon setting := (tokens.token_expiring_soon (Some token) setting w).1 in
  let tnow := clock (env w) (ticks w) `quot` 1000000 in
  (∀ n, soon (PInt n) = Ok (bool_decide (tnow >= exp - n)))
  ∧ (∀ s n, ascii_only s = true → int_of_str s = Some n →
            soon (PStr s) = soon (PInt n))
  ∧ (∀ s, ascii_only s = true → int_of_str s = None →
          soon (PStr s) = Raise ValueError)
  ∧ soon PNone = Raise TypeError.
Proof.
  intros Hd He soon tnow. subst soon tnow. cbv beta.
  split_and!; intros;
    rewrite !(run_token_expiring_soon w token claims exp _ Hd He);
    by simplify_option_eq.
Qed.

Lemma token_setting_forms_witness :
  let w := container (cluster (clock_of [] (seconds 1000)) names_x86 "CERT" "bss"
                        "dbg" "tok" 2000 []) in
  (tokens.token_expiring_soon (Some "tok") (PStr " 1_800 ") w).1 = Ok true
  ∧ (tokens.token_expiring_soon (Some "tok") (PInt 500) w).1 = Ok false
  ∧ (tokens.token_expiring_soon (Some "tok") (PStr "30m") w).1 = Raise ValueError.
Proof.
  intros w.
  destruct (token_setting_forms w "tok" {[ "exp" := PInt 2000 ]} 2000)
    as (H1 & H2 & H3 & _); [reflexivity | reflexivity |].
  split; [| split].
  - rewrite (H2 " 1_800 " 1800) by reflexivity. rewrite H1. reflexivity.
  - rewrite H1. reflexivity.
  - apply H3; reflexivity.
Defined.

(** X9: time does not make a token fresh again: if
    [token_expiring_soon] is true at one reading of the clock it is true
    at any later reading, for the same token and setting. *)
Theorem token_expiry_monotone (w w' : world) (token : option string)
    (setting : pyval) :
  env w' = env w →
  clock (env w) (ticks w) ≤ clock (env w) (ticks w') →
  (tokens.token_expiring_soon token setting w).1 = Ok true →
  (tokens.token_expiring_soon token setting w').1 = Ok true.
Proof.
  intros He Hc.
  destruct token as [token|]; [| done].
  destruct (jwt_decode (env w) token) as [claims|] eqn:Hd.
  2: { intros _. apply (token_expiring_soon_degenerate w' token setting).
       by rewrite He. }
  destruct (claims !! "exp") as [[|exp|s]|] eqn:Hx.
  1, 4: intros _; eapply (token_expiring_soon_degenerate w' token setting);
        [by rewrite He | by rewrite Hx].
  - rewrite (run_token_expiring_soon w token claims exp setting Hd Hx).
    rewrite (run_token_expiring_soon w' token claims exp setting)
      by (by rewrite ?He).
    rewrite He.
    assert (Hq : clock (env w) (ticks w) `quot` 1000000
                 ≤ clock (env w) (ticks w') `quot` 1000000)
      by (apply Z.quot_le_mono; lia).
    destruct setting as [|n|s]; [done | |].
    + intros [= H]. apply bool_decide_eq_true_1 in H. f_equal.
      apply bool_decide_eq_true_2. lia.
    + destruct (int_of_str s) as [n|]; [| done].
      intros [= H]. apply bool_decide_eq_true_1 in H. f_equal.
      apply bool_decide_eq_true_2. lia.
  - unfold tokens.token_expiring_soon.
    rewrite run_bind. unfold gets at 1. rewrite Hd, Hx. simpl.
    unfold tokens.int_time. cbv [mbind M_bind datetime_now mret M_ret].
    destruct setting as [|n|s']; simpl; try done.
    by destruct (int_of_str s').
Qed.

Lemma token_expiry_monotone_witness :
  let w := container (cluster (clock_of [seconds 1500] (seconds 1800)) names_x86
                        "CERT" "bss" "dbg" "tok" 2000 []) in
  (tokens.token_expiring_soon (Some "tok") (PStr "500") (set_ticks 1 w)).1 = Ok true.
Proof.
  intros w.
  apply (token_expiry_monotone w (set_ticks 1 w) (Some "tok") (PStr "500"));
    [reflexivity | by vm_compute | reflexivity].
Defined.

(** ** The settings cache and what a round makes of the settings *)

(** X10: cached settings (a mapping that is not empty, stamped at a
    time that is not zero) are served without a remote call up to and
    including 600 seconds of age, the clock being read once. Past that,
    the service is asked once: its mapping replaces the cache, stamped
    with the next reading, and the flag is set only if the mapping
    differs from the cached one; if the service raises, the exception
    propagates, the stale cache is dropped and the flag is left as it
    was. *)
Theorem settings_cache_timeout (s : state) (m : gmap string pyval) (t : Z) :
  _global_settings (self s) = Some m → m ≠ ∅ →
  _global_settings_timestamp (self s) = Some t → t ≠ 0 →
  let now := clock (env (os s)) (ticks (os s)) in
  let r := BinaryBuilder.global_settings s in
  (now - t ≤ CONFIGMAP_CACHE_TIMEOUT →
   r = (Ok (Some m), later (S (ticks (os s))) s))
  ∧ (now - t > CONFIGMAP_CACHE_TIMEOUT →
     fetches (added (os s) (os r.2)) = [ASettings]
     ∧ (∀ m', api_settings (env (os s)) = Ok (Some m') →
          r.1 = Ok (Some m')
          ∧ _global_settings (self r.2) = Some m'
          ∧ _global_settings_timestamp (self r.2)
            = Some (clock (env (os s)) (S (ticks (os s))))
          ∧ recreation_necessary (self r.2)
            = (if bool_decide (m' = m) then recreation_necessary (self s) else true))
     ∧ (∀ e, api_settings (env (os s)) = Raise e →
          r.1 = Raise e
          ∧ _global_settings (self r.2) = None
          ∧ _global_settings_timestamp (self r.2) = None
          ∧ recreation_necessary (self r.2) = recreation_necessary (self s))).
Proof.
  destruct s as [b w]. destruct b, w as [o tk tsf fs tc mc tr]. simpl.
  intros -> Hm -> Ht.
  unfold BinaryBuilder.global_settings, later, added.
  cbv [mbind M_bind attr gets assign modify lift mret M_ret emit log
       datetime_now service raise]; simpl.
  rewrite (bool_decide_eq_false_2 (m = ∅)) by done.
  rewrite (proj2 (Z.eqb_neq t 0)) by done. simpl.
  split.
  - intros H. rewrite bool_decide_eq_false_2 by lia. simpl.
    rewrite (bool_decide_eq_false_2 (m = ∅)) by done. simpl.
    rewrite bool_decide_eq_false_2 by (by intros []). done.
  - intros H. rewrite bool_decide_eq_true_2 by lia. simpl.
    destruct (api_settings o) as [[m'|]|e]; simpl.
    + destruct (decide (m' = m)) as [-> | Hne].
      * rewrite (bool_decide_eq_false_2 (Some m ≠ Some m)) by (by intros []).
        simpl. rewrite drop_app_length. split; [done |]. split; [| done].
        intros ? [= <-]. by rewrite bool_decide_eq_true_2.
      * rewrite (bool_decide_eq_true_2 (Some m ≠ Some m')) by congruence.
        simpl. rewrite <- app_assoc, drop_app_length. split; [done |].
        split; [| done].
        intros ? [= <-]. by rewrite bool_decide_eq_false_2.
    + rewrite <- ?app_assoc, drop_app_length. done.
    + rewrite drop_app_length. split; [done |]. split; [done |].
      by intros ? [= <-].
Qed.

Lemma settings_cache_timeout_witness :
  let s := cached [1; 1] (seconds 700) names_x86 in
  (BinaryBuilder.global_settings s).1 = Ok (Some names_x86)
  ∧ fetches (added (os s) (os (BinaryBuilder.global_settings s).2)) = [ASettings].
Proof.
  intros s.
  destruct (settings_cache_timeout s names_x86 1) as [_ H];
    [reflexivity | apply insert_non_empty | reflexivity | done |].
  destruct H as (Hf & Hok & _); [by vm_compute |].
  split; [| exact Hf].
  apply (Hok names_x86). reflexivity.
Defined.

(** A miss of the cache: the service is asked once, and its answer or
    its exception is what the property gives. *)
Lemma run_global_settings_miss s :
  dict_truthy (_global_settings (self s)) = false →
  let r := BinaryBuilder.global_settings s in
  fetches (added (os s) (os r.2)) = [ASettings]
  ∧ match api_settings (env (os s)) with
    | Ok upstream => r.1 = Ok upstream ∧ _global_settings (self r.2) = upstream
    | Raise e => r.1 = Raise e ∧ self r.2 = self s
                 ∧ added (os s) (os r.2) = [EvFetch ASettings]
    end.
Proof.
  destruct s as [b w]. destruct b, w as [o tk tsf fs tc mc tr]. simpl.
  intros Hd.
  unfold BinaryBuilder.global_settings, added.
  cbv [mbind M_bind attr gets assign modify lift mret M_ret emit log
       datetime_now service raise]; simpl.
  rewrite Hd. simpl. rewrite Hd. simpl.
  destruct (api_settings o) as [upstream|e]; simpl.
  - case_bool_decide as E; simpl;
      rewrite <- ?app_assoc, drop_app_length; done.
  - rewrite drop_app_length. done.
Qed.

(** X11: the loop has no handler for its settings: from an empty
    cache, if the settings service raises, [__call__] ends with that
    exception at its first round, the builder unchanged; if the settings
    document is empty, it ends with [AttributeError]. In both cases the
    service was asked once. *)
Theorem settings_failure_ends_loop (s : state) (rounds : nat) :
  dict_truthy (_global_settings (self s)) = false →
  let r := BinaryBuilder.call (S rounds) s in
  (∀ e, api_settings (env (os s)) = Raise e →
     r.1 = Raise e ∧ self r.2 = self s
     ∧ fetches (added (os s) (os r.2)) = [ASettings])
  ∧ (api_settings (env (os s)) = Ok None →
     r.1 = Raise AttributeError
     ∧ fetches (added (os s) (os r.2)) = [ASettings]).
Proof.
  intros Hd r. subst r.
  destruct (run_global_settings_miss s Hd) as [Hf Ha].
  unfold BinaryBuilder.call. simpl.
  unfold BinaryBuilder.cycle, BinaryBuilder.set_log_level,
    BinaryBuilder.settings_get.
  rewrite !run_bind.
  destruct (BinaryBuilder.global_settings s) as [[upstream|e] s1] eqn:E;
    simpl in *.
  - destruct (api_settings (env (os s))) as [u|e]; [| by destruct Ha].
    destruct Ha as [[= <-] _].
    split; [done |]. by intros [= ->].
  - destruct (api_settings (env (os s))) as [u|e']; [by destruct Ha |].
    destruct Ha as ([= <-] & Hs & Hev).
    split; [| done]. by intros ? [= <-].
Qed.

Lemma settings_failure_ends_loop_witness :
  let s := fresh X86Builder (container (offline (clock_of [] 0))) in
  let t := answering (Ok None) s in
  (BinaryBuilder.call 3 s).1 = Raise ApiException
  ∧ (BinaryBuilder.call 3 t).1 = Raise AttributeError.
Proof.
  intros s t.
  destruct (settings_failure_ends_loop s 2) as [H1 _]; [reflexivity |].
  destruct (settings_failure_ends_loop t 2) as [_ H2]; [reflexivity |].
  split.
  - apply (H1 ApiException). reflexivity.
  - apply H2. reflexivity.
Defined.

(** How [set_log_level] runs from a fresh cache. *)
Lemma run_set_log_level_fresh s :
  fresh_cache s →
  let level := setting s (Some "cray_ipxe_build_service_log_level") (PStr "DEBUG") in
  ∃ n, BinaryBuilder.set_log_level s =
         match level with
         | PNone => (Raise TypeError, later n s)
         | PInt _ => (Ok (), later n s)
         | PStr name =>
             if bool_decide (name ∈ BinaryBuilder.level_names)
             then (Ok (), later n s)
             else (Ok (), State (self s)
                            (set_trace (trace (os s) ++
                               [EvLog "WARNING" "Unknown log level '%s'; defaulting to DEBUG."])
                               (set_ticks n (os s))))
         end.
Proof.
  intros F level.
  destruct (run_settings_get_fresh s (Some "cray_ipxe_build_service_log_level")
              (PStr "DEBUG") F) as (n & H).
  exists n. unfold BinaryBuilder.set_log_level.
  rewrite (run_bind_ok _ _ _ _ _ H). fold level.
  destruct level as [|k|name]; [done | done |].
  by case_bool_decide.
Qed.

(** X12: from a fresh cache, [set_log_level] leaves the builder as it
    is; it raises [TypeError] when the level setting is [null], and ends
    well when it is an integer or a string, logging one warning exactly
    when the string is not a name of a level. *)
Theorem set_log_level_outcomes (s : state) :
  fresh_cache s →
  let level := setting s (Some "cray_ipxe_build_service_log_level") (PStr "DEBUG") in
  let r := BinaryBuilder.set_log_level s in
  self r.2 = self s
  ∧ (level = PNone → r.1 = Raise TypeError ∧ added (os s) (os r.2) = [])
  ∧ (∀ n, level = PInt n → r.1 = Ok () ∧ added (os s) (os r.2) = [])
  ∧ (∀ name, level = PStr name →
       r.1 = Ok ()
       ∧ added (os s) (os r.2)
         = if bool_decide (name ∈ BinaryBuilder.level_names) then []
           else [EvLog "WARNING" "Unknown log level '%s'; defaulting to DEBUG."]).
Proof.
  intros F level r. subst r.
  destruct (run_set_log_level_fresh s F) as (n & ->). fold level.
  unfold added.
  destruct level as [|k|name]; simpl; rewrite ?drop_all; simpl.
  1, 2: split_and!; try done; intros; by simplify_eq.
  case_bool_decide as E; simpl; rewrite ?drop_all, ?drop_app_length; simpl.
  all: split_and!; try done; intros name' [= <-].
  - by rewrite bool_decide_eq_true_2.
  - by rewrite bool_decide_eq_false_2.
Qed.

Lemma set_log_level_outcomes_witness :
  let s := cached [] (seconds 100)
             {[ "cray_ipxe_build_service_log_level" := PStr "debug" ]} in
  let t := cached [] (seconds 100)
             {[ "cray_ipxe_build_service_log_level" := PNone ]} in
  ((BinaryBuilder.set_log_level s).1 = Ok ()
   ∧ added (os s) (os (BinaryBuilder.set_log_level s).2)
     = [EvLog "WARNING" "Unknown log level '%s'; defaulting to DEBUG."])
  ∧ (BinaryBuilder.set_log_level t).1 = Raise TypeError.
Proof.
  intros s t.
  assert (Fs : fresh_cache s).
  { split; [reflexivity |]. intros n. by destruct n. }
  assert (Ft : fresh_cache t).
  { split; [reflexivity |]. intros n. by destruct n. }
  destruct (set_log_level_outcomes s Fs) as (_ & _ & _ & H1).
  destruct (set_log_level_outcomes t Ft) as (_ & H3 & _).
  split.
  - apply (H1 "debug"). reflexivity.
  - apply H3. reflexivity.
Defined.

(** Once the builder is found enabled, the round does not end well:
    the command has five arguments or more, and two are expected. *)
Lemma enabled_round_raises {B} (rest : string * string → M state B) s :
  ∃ e, ((BinaryBuilder.build_command ≫= λ command,
         unpack2 command ≫= rest) s).1 = Raise e.
Proof.
  rewrite run_bind.
  destruct (BinaryBuilder.build_command s) as [[command|e] s1] eqn:E;
    [| by eexists].
  apply build_command_length in E. rewrite run_bind. unfold unpack2.
  destruct command as [| a [| b [| c l]]]; simpl in E; try lia; by eexists.
Qed.

(** How a round goes from a fresh cache, in the terms of the model. *)
Lemma run_cycle_fresh (s : state) (first_time : bool) :
  fresh_cache s →
  let level := setting s (Some "cray_ipxe_build_service_log_level") (PStr "DEBUG") in
  let on := setting s (ENABLED_TAG (cls (self s))) PTrue in
  let r := BinaryBuilder.cycle first_time s in
  (r.1 = Ok BinaryBuilder.Skipped ↔ level ≠ PNone ∧ truthy on = false)
  ∧ (level ≠ PNone → truthy on = true → ∃ e, r.1 = Raise e)
  ∧ (level = PNone → r.1 = Raise TypeError).
Proof.
  intros F level on r. subst r. unfold BinaryBuilder.cycle.
  destruct (run_set_log_level_fresh s F) as (n & H1). fold level in H1.
  rewrite run_bind.
  destruct (BinaryBuilder.set_log_level s) as [r1 s1] eqn:E1.
  assert (Hs1 : self s1 = self s ∧ env (os s1) = env (os s)
                ∧ (r1 = Ok () ↔ level ≠ PNone)
                ∧ (level = PNone → r1 = Raise TypeError)).
  { destruct level as [|k|name]; [| | case_bool_decide]; simplify_eq;
      split_and!; try done; split; done. }
  destruct Hs1 as (Hself1 & Henv1 & Hok1 & Hno1).
  destruct r1 as [[]|e1].
  2: { split_and!.
       - split; [done |]. intros [Hl _]. by apply Hok1 in Hl.
       - intros Hl _. by apply Hok1 in Hl.
       - intros Hl. by specialize (Hno1 Hl) as [= ->]. }
  assert (Hl : level ≠ PNone) by (by apply Hok1).
  rewrite run_bind.
  set (sleep := if negb first_time then _ else _).
  assert (Hsl : ∃ s2, sleep s1 = (Ok (), s2) ∧ self s2 = self s1
                      ∧ env (os s2) = env (os s1)).
  { subst sleep. destruct first_time; simpl; by eexists. }
  destruct Hsl as (s2 & -> & Hself2 & Henv2).
  assert (F2 : fresh_cache s2).
  { apply (fresh_cache_same s); [congruence | congruence | done]. }
  assert (He2 : ∃ k, BinaryBuilder.enabled s2 = (Ok on, later k s2)).
  { destruct (run_settings_get_fresh s2 (ENABLED_TAG (cls (self s2))) PTrue F2)
      as (k & Hk).
    exists k. unfold BinaryBuilder.enabled. rewrite run_bind.
    unfold attr at 1, gets at 1. rewrite Hk.
    subst on. unfold setting. by rewrite Hself2, Hself1. }
  destruct He2 as (k & He2). rewrite run_bind, He2.
  destruct (truthy on) eqn:Eon; simpl.
  - destruct (enabled_round_raises
                (λ '(build_command, build_environment),
                   command ← BinaryBuilder.debug_command;
                   '(debug_command, debug_environment) ← unpack2 command;
                   necessary ← attr recreation_necessary;
                   if negb necessary then mret BinaryBuilder.UpToDate
                   else BinaryBuilder.build_and_publish build_command
                          build_environment debug_command debug_environment ;;
                        mret BinaryBuilder.Built) (later k s2)) as [e He].
    rewrite He. split_and!.
    + split; [done | by intros [_ ?]].
    + eauto.
    + done.
  - split_and!; [done | done | done].
Qed.

(** X13: from a fresh cache, for a builder of one of the two
    architecture classes whose level setting is an integer or a string,
    a round of the loop is skipped exactly when the enabled setting of
    the class (true when missing) is false in Python's sense; when that
    setting is true the round ends in an exception; and a [null] level
    ends the round in [TypeError]. *)
Theorem round_skipped_iff (s : state) (first_time : bool) :
  fresh_cache s →
  cls (self s) ≠ BinaryBuilder →
  let level := setting s (Some "cray_ipxe_build_service_log_level") (PStr "DEBUG") in
  let on := setting s (ENABLED_TAG (cls (self s))) PTrue in
  let r := BinaryBuilder.cycle first_time s in
  ((∃ n, level = PInt n) ∨ (∃ name, level = PStr name) →
   (r.1 = Ok BinaryBuilder.Skipped ↔ truthy on = false)
   ∧ (truthy on = true → ∃ e, r.1 = Raise e))
  ∧ (level = PNone → r.1 = Raise TypeError).
Proof.
  intros F _ level on r.
  destruct (run_cycle_fresh s first_time F) as (H1 & H2 & H3).
  fold level on r in H1, H2, H3. split; [| exact H3].
  intros Hl.
  assert (Hne : level ≠ PNone).
  { destruct Hl as [[n ->] | [name ->]]; discriminate. }
  split.
  - rewrite H1. tauto.
  - by apply H2.
Qed.

Lemma round_skipped_iff_witness :
  let off := cached [] (seconds 100) disabled_x86 in
  let quoted := cached [] (seconds 100) {[ "cray_ipxe_build_x86" := PStr "false" ]} in
  (BinaryBuilder.cycle false off).1 = Ok BinaryBuilder.Skipped
  ∧ ∃ e, (BinaryBuilder.cycle false quoted).1 = Raise e.
Proof.
  intros off quoted.
  assert (Fo : fresh_cache off).
  { split; [reflexivity |]. intros n. by destruct n. }
  assert (Fq : fresh_cache quoted).
  { split; [reflexivity |]. intros n. by destruct n. }
  destruct (round_skipped_iff off false Fo) as (H1 & _); [discriminate |].
  destruct (round_skipped_iff quoted false Fq) as (H2 & _); [discriminate |].
  split.
  - apply H1; [right; by exists "DEBUG" | reflexivity].
  - apply H2; [right; by exists "DEBUG" | reflexivity].
Defined.

Lemma cycle_ok_skipped first_time s o s' :
  BinaryBuilder.cycle first_time s = (Ok o, s') → o = BinaryBuilder.Skipped.
Proof.
  intros H. destruct (cycle_never_builds first_time s) as [H1 H2].
  rewrite H in H1, H2. simpl in *. destruct o; congruence.
Qed.

(** X14: an instance of the base class [BinaryBuilder] cannot prepare
    a build: the class has no [configmap_name], so [bss_script_path]
    ends in an exception, and [build_command] with it. *)
Theorem base_class_cannot_build (s : state) :
  cls (self s) = BinaryBuilder →
  (∃ e, (BinaryBuilder.bss_script_path s).1 = Raise e)
  ∧ (∃ e, (BinaryBuilder.build_command s).1 = Raise e).
Proof.
  assert (Hbss : ∀ t, cls (self t) = BinaryBuilder →
                      ∃ e, (BinaryBuilder.bss_script_path t).1 = Raise e).
  { intros t Hk. unfold BinaryBuilder.bss_script_path. rewrite !run_bind.
    unfold attr at 1, gets at 1. rewrite run_bind.
    destruct (lift (local_copy (_bss_script_path (self t))) t)
      as [[c|e] s1] eqn:E1; [| by eexists].
    assert (self s1 = self t) as Hs1.
    { unfold lift in E1. destruct (local_copy _ (os t)). by simplify_eq. }
    rewrite run_bind. unfold BinaryBuilder.configmap_name. rewrite run_bind.
    unfold attr at 1, gets at 1. rewrite Hs1, Hk. simpl. by eexists. }
  intros Hk. split; [by apply Hbss |].
  unfold BinaryBuilder.build_command. rewrite run_bind.
  pose proof (all_arch_build_dir (λ _, True) s) as (C1 & _).
  destruct (BinaryBuilder.arch_build_dir s) as [[dir|e] s1]; [| by eexists].
  simpl in C1. rewrite run_bind. unfold attr at 1, gets at 1. rewrite run_bind.
  pose proof (all_cert_arguments (λ _, True) (λ _, I) s1) as (C2 & _).
  destruct (BinaryBuilder.cert_arguments s1) as [[certs|e] s2]; [| by eexists].
  simpl in C2. rewrite run_bind.
  destruct (Hbss s2) as [e He]; [congruence |].
  destruct (BinaryBuilder.bss_script_path s2) as [[p|e'] s3]; [done |].
  by eexists.
Qed.

Lemma base_class_cannot_build_witness :
  let s := fresh BinaryBuilder
             (container (cluster (clock_of [] (seconds 100)) names_x86
                           "CERT" "bss" "dbg" "tok" 5000 [])) in
  (BinaryBuilder.build_command s).1 = Raise AttributeError.
Proof.
  intros s.
  destruct (base_class_cannot_build s) as [_ [e He]]; [reflexivity |].
  rewrite He. revert He. vm_compute. intros [= <-]. reflexivity.
Defined.

(** ** The loop stops short of building *)

Section preparing_frames.
Import BinaryBuilder.

#[local] Hint Resolve wsteps_ret wsteps_raise wsteps_gets wsteps_now
  wsteps_service wsteps_py_int steps_ret steps_raise steps_attr : frame.

Lemma preparing_log level message : preparing (EvLog level message).
Proof. done. Qed.
Lemma preparing_fetch a : a ≠ ADebugScript → preparing (EvFetch a).
Proof. by destruct a. Qed.
Lemma preparing_settings : preparing (EvFetch ASettings).
Proof. done. Qed.
Lemma preparing_cert : preparing (EvFetch ACert).
Proof. done. Qed.
Lemma preparing_bss name : preparing (EvFetch (ABssScript name)).
Proof. done. Qed.
Lemma preparing_s3 : preparing (EvFetch AS3Host).
Proof. done. Qed.
Lemma preparing_token host : preparing (EvFetch (AToken host)).
Proof. done. Qed.
Lemma preparing_unlink p : preparing (EvUnlink p).
Proof. done. Qed.
Lemma preparing_utime p : preparing (EvUtime p).
Proof. done. Qed.
Lemma preparing_sleep n : preparing (EvSleep n).
Proof. done. Qed.
#[local] Hint Resolve preparing_log preparing_settings preparing_cert
  preparing_bss preparing_s3 preparing_token preparing_unlink
  preparing_utime preparing_sleep : core.

Lemma prep_settings_get key dflt :
  steps (extends preparing) (settings_get key dflt).
Proof. apply frame_settings_get; auto. Qed.

Lemma prep_set_log_level : steps (extends preparing) set_log_level.
Proof. apply frame_set_log_level; auto. Qed.

Lemma prep_enabled : steps (extends preparing) enabled.
Proof. apply frame_enabled; auto. Qed.

Lemma prep_arch_build_dir : steps (extends preparing) arch_build_dir.
Proof. apply frame_arch_build_dir. Qed.

Lemma prep_configmap_name : steps (extends preparing) configmap_name.
Proof. apply frame_configmap_name. Qed.
#[local] Hint Resolve prep_settings_get prep_set_log_level prep_enabled
  prep_arch_build_dir prep_configmap_name : frame.

Lemma prep_log level message : steps (grows preparing) (log level message).
Proof. apply wsteps_emit. done. Qed.
#[local] Hint Resolve prep_log : frame.

Lemma prep_local_copy p : steps (grows preparing) (local_copy p).
Proof. unfold local_copy, read_file. frame. Qed.

Lemma prep_path_exists p : steps (grows preparing) (path_exists p).
Proof. apply wsteps_gets. Qed.
#[local] Hint Resolve prep_local_copy prep_path_exists : frame.

Lemma prep_unlink p : steps (grows preparing) (unlink p).
Proof. unfold unlink. frame. Qed.

Lemma prep_write_tmp c : steps (grows preparing) (write_tmp c).
Proof. unfold write_tmp. frame. Qed.

Lemma prep_utime p : steps (grows preparing) (utime p).
Proof. unfold utime. frame. Qed.
#[local] Hint Resolve prep_unlink prep_write_tmp prep_utime : frame.

Lemma prep_cert_path : steps (extends preparing) cert_path.
Proof. unfold cert_path. frame. Qed.

Lemma prep_bss_script_path : steps (extends preparing) bss_script_path.
Proof. unfold bss_script_path. frame. Qed.

Lemma prep_fetch_token host : steps (grows preparing) (tokens.fetch_token host).
Proof. unfold tokens.fetch_token. frame. Qed.

Lemma prep_token_expiring_soon token buffer :
  steps (grows preparing) (tokens.token_expiring_soon token buffer).
Proof. unfold tokens.token_expiring_soon, tokens.int_time. frame. Qed.
#[local] Hint Resolve prep_cert_path prep_bss_script_path prep_fetch_token
  prep_token_expiring_soon : frame.

Lemma prep_bearer_token : steps (extends preparing) bearer_token.
Proof.
  unfold bearer_token, token_min_remaining_valid_time, cray_ipxe_token_host.
  frame.
Qed.

Lemma prep_s3_host : steps (extends preparing) s3_host.
Proof. unfold s3_host. frame. Qed.
#[local] Hint Resolve prep_bearer_token prep_s3_host : frame.

Lemma prep_build_command : steps (extends preparing) build_command.
Proof.
  unfold build_command, cert_arguments, s3_arguments, build_with_certs,
    basename_of.
  frame.
Qed.

(** A round of the loop prepares a build and stops short of it. *)
Lemma prep_cycle first_time : steps (extends preparing) (cycle first_time).
Proof.
  unfold cycle.
  apply steps_bind; [apply prep_set_log_level | intros _].
  apply steps_bind; [| intros _].
  { destruct first_time; simpl;
      [apply steps_ret | apply steps_lift, wsteps_emit; done]. }
  apply steps_bind; [apply prep_enabled | intros on].
  destruct (negb (truthy on)); [apply steps_ret |].
  intros s. rewrite run_bind.
  pose proof (prep_build_command s) as P.
  destruct (build_command s) as [[command|e] s1] eqn:E; simpl in *; [| done].
  apply build_command_length in E. rewrite run_bind. unfold unpack2.
  destruct command as [| a [| b [| c l]]]; simpl in E; try lia; done.
Qed.

Lemma prep_loop first_time rounds :
  steps (extends preparing) (loop first_time rounds).
Proof.
  revert first_time. induction rounds as [| n IH]; intros first_time; simpl.
  - apply steps_ret.
  - apply steps_bind; [apply prep_cycle | intros o].
    apply steps_bind; [apply IH | intros os]. apply steps_ret.
Qed.
End preparing_frames.

Lemma loop_ok_skipped first_time rounds s outcomes s' :
  BinaryBuilder.loop first_time rounds s = (Ok outcomes, s') →
  outcomes = replicate rounds BinaryBuilder.Skipped.
Proof.
  revert first_time s outcomes s'.
  induction rounds as [| n IH]; intros first_time s outcomes s' H; simpl in H.
  - unfold mret, M_ret in H. by simplify_eq.
  - apply bind_ok_inv in H as (o & s1 & H1 & H).
    apply bind_ok_inv in H as (os & s2 & H2 & H).
    unfold mret, M_ret in H. simplify_eq. simpl.
    by rewrite (cycle_ok_skipped _ _ _ _ H1), (IH _ _ _ _ H2).
Qed.

(** X15: as written, [__call__] never builds: whatever the number of
    rounds and the cluster, it runs no toolchain, publishes nothing,
    never refreshes the build-completion marker and never asks for the
    debug script; it never clears [recreation_necessary]; and the rounds
    that end well were all skipped. *)
Theorem loop_never_builds (rounds : nat) (s : state) :
  let r := BinaryBuilder.call rounds s in
  Forall preparing (added (os s) (os r.2))
  ∧ (ADebugScript ∉ fetches (added (os s) (os r.2)))
  ∧ (recreation_necessary (self s) = true →
     recreation_necessary (self r.2) = true)
  ∧ (∀ outcomes, r.1 = Ok outcomes →
       outcomes = replicate rounds BinaryBuilder.Skipped).
Proof.
  intros r. subst r. unfold BinaryBuilder.call.
  destruct (prep_loop true rounds s) as (_ & Hf & _ & _ & evs & T & Hev0).
  rewrite (added_app _ _ _ T).
  split_and!; [done | | done |].
  { intros Hin. unfold fetches in Hin.
    apply list_elem_of_omap in Hin as (ev & Hin & Hev).
    rewrite Forall_forall in Hev0.
    specialize (Hev0 ev Hin). destruct ev as [[]| | | | | | |]; by simplify_eq. }
  intros outcomes H.
  destruct (BinaryBuilder.loop true rounds s) as [r s'] eqn:E. simpl in H.
  subst r. by apply loop_ok_skipped in E.
Qed.

Lemma loop_never_builds_witness :
  let r := BinaryBuilder.call 2 (building []) in
  r.1 = Raise ValueError ∧ recreation_necessary (self r.2) = true.
Proof.
  intros r. split; [by vm_compute |].
  apply (loop_never_builds 2 (building [])). reflexivity.
Defined.

(** ** The BSS script and the S3 host *)

Lemma str_truthy_Some p : p ≠ "" → str_truthy (Some p) = true.
Proof. intros H. simpl. apply negb_true_iff. by apply String.eqb_neq. Qed.

Lemma run_local_copy p w :
  p ≠ "" →
  local_copy (Some p) w =
    (match files w !! p with
     | Some text => Ok (Some (universal_newlines text))
     | None => Raise FileNotFoundError
     end, w).
Proof.
  intros H. unfold local_copy. rewrite (str_truthy_Some p H). simpl.
  unfold read_file. rewrite !run_bind. unfold gets at 1.
  by destruct (files w !! p).
Qed.

(** X16: when the configmap loses its [bss.ipxe] key after a copy was
    materialized, [bss_script_path] removes the local copy and then
    raises [TypeError] on writing [None], leaving [_bss_script_path] on
    the removed file and the flag as it was; every later access raises
    [FileNotFoundError], whatever the configmap then holds. *)
Theorem bss_key_removed (s : state) (old text : string) :
  cls (self s) ≠ BinaryBuilder →
  configmap_inv (self s) →
  _bss_script_path (self s) = Some old → old ≠ "" →
  files (os s) !! old = Some text →
  old ≠ next_tmp (os s) →
  api_bss (env (os s)) "cray-ipxe-bss-ipxe" = Ok None →
  let r := BinaryBuilder.bss_script_path s in
  r.1 = Raise TypeError
  ∧ _bss_script_path (self r.2) = Some old
  ∧ files (os r.2) !! old = None
  ∧ recreation_necessary (self r.2) = recreation_necessary (self s)
  ∧ (∀ reply,
       (BinaryBuilder.bss_script_path (with_bss reply r.2)).1
       = Raise FileNotFoundError).
Proof.
  intros Hk Hinv Hp Hne Hf Hfresh Hapi.
  assert (Hrun : BinaryBuilder.bss_script_path s =
    (Raise TypeError,
     State (set_configmap_name (Some "cray-ipxe-bss-ipxe") (self s))
       (set_tmp_count (S (tmp_count (os s)))
          (set_files (<[next_tmp (os s) := ""]> (delete old (files (os s))))
             (set_trace (trace (os s) ++
                [EvFetch (ABssScript "cray-ipxe-bss-ipxe");
                 EvLog "INFO" "Change in upstream BSS script detected; rebuild is flagged.";
                 EvUnlink old])%list (os s)))))).
  { destruct s as [b [o tk tsf fs tc mc tr]]. simpl in *.
    unfold BinaryBuilder.bss_script_path.
    rewrite run_bind. unfold attr at 1, gets at 1. simpl. rewrite Hp.
    rewrite run_bind. unfold lift at 1.
    rewrite (run_local_copy old _ Hne). simpl. rewrite Hf.
    rewrite run_bind.
    rewrite (run_configmap_name (State b (World o tk tsf fs tc mc tr)) Hk Hinv).
    cbv [mbind M_bind lift emit modify gets service mret M_ret log unlink
         path_exists write_tmp raise attr assign]. simpl.
    rewrite Hapi. simpl.
    rewrite (proj2 (String.eqb_neq old "") Hne). simpl. rewrite Hf.
    rewrite (bool_decide_eq_true_2 (is_Some (Some text))) by eauto. simpl.
    rewrite <- !app_assoc. reflexivity. }
  intros r. subst r. rewrite Hrun. simpl.
  assert (Hgone : (<[next_tmp (os s) := ""]> (delete old (files (os s)))) !! old
                  = None).
  { rewrite lookup_insert_ne by done. apply lookup_delete_eq. }
  split_and!; [done | by destruct s as [[]] | done | by destruct s as [[]] |].
  intros reply. unfold BinaryBuilder.bss_script_path.
  rewrite run_bind. unfold attr at 1, gets at 1. simpl.
  rewrite Hp, run_bind. unfold lift at 1.
  rewrite (run_local_copy old _ Hne). simpl. by rewrite Hgone.
Qed.

Lemma bss_key_removed_witness :
  let s := with_bss (λ _, Ok None)
             (exec BinaryBuilder.bss_script_path (building [])) in
  let s' := exec BinaryBuilder.bss_script_path s in
  (BinaryBuilder.bss_script_path s).1 = Raise TypeError
  ∧ (BinaryBuilder.bss_script_path (with_bss (λ _, Ok (Some "bss")) s')).1
    = Raise FileNotFoundError.
Proof.
  intros s s'.
  destruct (bss_key_removed s "/ipxe/tmp0" "bss") as (H1 & _ & _ & _ & H2).
  - by vm_compute.
  - by right.
  - by vm_compute.
  - done.
  - by vm_compute.
  - by vm_compute.
  - reflexivity.
  - split; [exact H1 | apply H2].
Defined.

(** X17: the S3 host is looked up once and never changes the builder
    or a file: a host name gives the one argument [S3_HOST=host]; no
    host, an empty host, a [KeyError] and an [ApiException] give no
    argument, the two exceptions with two errors logged; any other
    exception propagates. *)
Theorem s3_arguments_outcomes (s : state) :
  let r := BinaryBuilder.s3_arguments s in
  let evs := added (os s) (os r.2) in
  self r.2 = self s
  ∧ fetches evs = [AS3Host]
  ∧ files (os r.2) = files (os s)
  ∧ match api_s3_host (env (os s)) with
    | Ok (Some host) =>
        r.1 = Ok (if bool_decide (host = "") then [] else ["S3_HOST=" +:+ host])
        ∧ logged evs = []
    | Ok None => r.1 = Ok [] ∧ logged evs = []
    | Raise e =>
        if bool_decide (e = KeyError ∨ e = ApiException)
        then r.1 = Ok [] ∧ length (logged evs) = 2%nat
        else r.1 = Raise e
    end.
Proof.
  destruct s as [b [o tk tsf fs tc mc tr]].
  unfold BinaryBuilder.s3_arguments, BinaryBuilder.s3_host, try_except, added,
    logged.
  cbv [mbind M_bind lift emit modify gets service mret M_ret log raise]. simpl.
  destruct (api_s3_host o) as [[host|]|e]; simpl.
  - destruct (String.eqb_spec host "") as [-> | Hne]; simpl.
    + rewrite drop_app_length. done.
    + rewrite (proj2 (String.eqb_neq host "") Hne). simpl.
      rewrite drop_app_length. rewrite bool_decide_eq_false_2 by done. done.
  - rewrite drop_app_length. done.
  - destruct e; simpl; rewrite <- ?app_assoc, ?drop_app_length; simpl;
      try done.
Qed.

(** ** The bearer token *)

(** X18: a held token that is not about to expire is returned as it
    is: with a fresh settings cache, if at every reading of the clock
    the time is before [exp - int(buffer)], [bearer_token] gives the
    token held and leaves the builder, its flag and the files as they
    were; it makes no remote call and touches no file: whatever it does
    to the outside is a log record. *)
Theorem bearer_token_kept (s : state) (tok : string)
    (claims : gmap string pyval) (exp buffer : Z) :
  fresh_cache s →
  _bearer_token (self s) = Some tok →
  jwt_decode (env (os s)) tok = Some claims →
  claims !! "exp" = Some (PInt exp) →
  int_of (setting s (Some "cray_ipxe_token_min_remaining_valid_time")
            (PStr "1800")) = Some buffer →
  (∀ k, clock (env (os s)) k `quot` 1000000 < exp - buffer) →
  let r := BinaryBuilder.bearer_token s in
  r.1 = Ok (Some tok)
  ∧ self r.2 = self s
  ∧ files (os r.2) = files (os s)
  ∧ Forall is_log (added (os s) (os r.2)).
Proof.
  intros F Ht Hd He Hb Hc r. subst r.
  destruct (run_bearer_token_kept s tok claims exp buffer F Ht Hd He Hb Hc)
    as (n & ->).
  simpl. split_and!; [done | done | done |].
  unfold added. simpl. by rewrite drop_all.
Qed.

Lemma bearer_token_kept_witness :
  let s := exec BinaryBuilder.bearer_token (building []) in
  (BinaryBuilder.bearer_token s).1 = Ok (Some "tok")
  ∧ self (BinaryBuilder.bearer_token s).2 = self s.
Proof.
  intros s.
  destruct (bearer_token_kept s "tok" {[ "exp" := PInt 5000 ]} 5000 1800)
    as (H1 & H2 & _).
  - split; [reflexivity |]. intros n. destruct n; by vm_compute.
  - reflexivity.
  - reflexivity.
  - reflexivity.
  - reflexivity.
  - intros k. destruct k; by vm_compute.
  - by split.
Defined.

(** X19: with a fresh settings cache and no token held, [bearer_token]
    asks the endpoint of the configured host once if the credentials are
    mounted, and not at all if they are not, in which case the token
    stays [None]; the token stored is the access token of the reply, if
    any; an exception of the session propagates with the builder
    unchanged; whenever the property ends well it gives the token stored,
    the source file was touched and the flag is set; without the source
    file it raises. *)
Theorem first_token (s : state) :
  fresh_cache s →
  _bearer_token (self s) = None →
  let host := setting s (Some "cray_ipxe_token_host") (PStr tokens.TOKEN_HOST) in
  let r := BinaryBuilder.bearer_token s in
  let evs := added (os s) (os r.2) in
  fetches evs = (if credentials_mounted (os s) then [AToken host] else [])
  ∧ (credentials_mounted (os s) = false → _bearer_token (self r.2) = None)
  ∧ (∀ reply, oauth_token (env (os s)) host = Ok reply →
       credentials_mounted (os s) = true →
       _bearer_token (self r.2) = mjoin reply)
  ∧ (∀ e, oauth_token (env (os s)) host = Raise e →
       credentials_mounted (os s) = true →
       r.1 = Raise e ∧ self r.2 = self s)
  ∧ (∀ t, r.1 = Ok t →
       t = _bearer_token (self r.2)
       ∧ recreation_necessary (self r.2) = true
       ∧ EvUtime httpcore ∈ evs)
  ∧ (files (os s) !! httpcore = None → ∃ e, r.1 = Raise e).
Proof.
  intros F Ht host r evs. subst r evs.
  unfold BinaryBuilder.bearer_token, BinaryBuilder.token_min_remaining_valid_time,
    BinaryBuilder.cray_ipxe_token_host.
  rewrite run_attr_bind, Ht.
  destruct (run_settings_get_fresh s
              (Some "cray_ipxe_token_min_remaining_valid_time") (PStr "1800") F)
    as (n1 & Hn1).
  rewrite (run_bind_ok _ _ _ _ _ Hn1).
  rewrite run_lift_bind. simpl.
  destruct (run_settings_get_fresh (later n1 s)
              (Some "cray_ipxe_token_host") (PStr tokens.TOKEN_HOST)
              (fresh_cache_later n1 s F)) as (n2 & Hn2).
  rewrite setting_later in Hn2. fold host in Hn2.
  change (State (self s) (set_ticks n1 (os s))) with (later n1 s).
  rewrite run_bind, (run_bind_ok _ _ _ _ _ Hn2).
  rewrite run_lift_bind.
  assert (Hw2 : ∃ w2, os (later n2 (later n1 s)) = w2 ∧ trace w2 = trace (os s)
                      ∧ files w2 = files (os s) ∧ env w2 = env (os s)
                      ∧ credentials_mounted w2 = credentials_mounted (os s))
    by (by eexists).
  destruct Hw2 as (w2 & -> & Tw2 & Fw2 & Ew2 & Cw2).
  destruct (run_fetch_token host w2) as (ev & Hft & Hfe).
  pose proof (fetch_token_result host w2) as (Hsome & Hraise & Hnone).
  rewrite Cw2, Ew2 in *.
  destruct (tokens.fetch_token host w2) as [res w3] eqn:Eft.
  simpl in Hsome, Hraise, Hnone, Hft. injection Hft as ->.
  destruct res as [token|e]; simpl.
  2: { unfold added. simpl. rewrite Tw2, drop_app_length.
       destruct (Hraise e) as [[Hm Ho] _]; [done |]. rewrite Hm in *.
       split_and!; try done.
       - intros reply Hr. congruence.
       - intros e' He' _. split; [congruence | done].
       - eauto. }
  cbv [mbind M_bind assign modify lift utime path_exists gets emit mret M_ret
       raise attr]. simpl.
  fold httpcore. rewrite Fw2, Tw2.
  destruct (files (os s) !! httpcore) as [c|] eqn:Eh; simpl.
  - unfold added. simpl. rewrite <- app_assoc, drop_app_length.
    rewrite fetches_app. simpl. rewrite app_nil_r.
    split_and!; try done.
    + intros Hm. by specialize (Hnone Hm) as [= ->].
    + intros reply Hr Hm. destruct token as [t|].
      * destruct (Hsome t) as [[_ Ho] _]; [done |].
        rewrite Hr in Ho. by injection Ho as ->.
      * destruct reply as [[t|]|]; try done.
        destruct (Hsome t) as [_ Hx]. by specialize (Hx (conj Hm Hr)).
    + intros e He Hm. destruct (Hraise e) as [_ Hx].
      by specialize (Hx (conj Hm He)).
    + intros t [= <-]. split_and!; [done | done |].
      rewrite elem_of_app. right. apply list_elem_of_here.
  - unfold added. simpl. rewrite drop_app_length.
    split_and!; try done.
    + intros Hm. by specialize (Hnone Hm) as [= ->].
    + intros reply Hr Hm. destruct token as [t|].
      * destruct (Hsome t) as [[_ Ho] _]; [done |].
        rewrite Hr in Ho. by injection Ho as ->.
      * destruct reply as [[t|]|]; try done.
        destruct (Hsome t) as [_ Hx]. by specialize (Hx (conj Hm Hr)).
    + intros e He Hm. destruct (Hraise e) as [_ Hx].
      by specialize (Hx (conj Hm He)).
    + eauto.
Qed.

Lemma first_token_witness :
  let s := cached [] (seconds 100) names_x86 in
  let r := BinaryBuilder.bearer_token s in
  fetches (added (os s) (os r.2)) = [AToken (PStr tokens.TOKEN_HOST)]
  ∧ _bearer_token (self r.2) = Some "tok".
Proof.
  intros s r.
  assert (F : fresh_cache s).
  { split; [reflexivity |]. intros n. by destruct n. }
  destruct (first_token s F eq_refl) as (H1 & _ & H3 & _).
  split.
  - exact H1.
  - apply (H3 (Some (Some "tok"))); reflexivity.
Defined.

(** ** The certificate *)

(** Whenever [cert_path] ends well, it gives the path of a file that
    holds the certificate of the cluster, fetched once, or a copy that
    reads back as the certificate. *)
Lemma cert_path_materializes s p s' :
  BinaryBuilder.cert_path s = (Ok p, s') →
  ∃ name cert text,
    p = Some name
    ∧ api_cert (env (os s)) = Ok cert
    ∧ _cert_path (self s') = Some name
    ∧ files (os s') !! name = Some text
    ∧ (text = cert ∨ universal_newlines text = cert)
    ∧ fetches (added (os s) (os s')) = [ACert].
Proof.
  destruct s as [b w]. destruct b, w as [o tk tsf fs tc mc tr].
  unfold BinaryBuilder.cert_path. run_monad.
  repeat (case_match; simpl in *; simplify_eq); simpl;
    rewrite <- ?app_assoc, ?drop_app_length, ?drop_all; simpl.
  all: intros; simplify_eq; simpl.
  all: decided; stable; simplify_eq.
  all: try (eexists _, _, _; split_and!; try reflexivity; simpl;
            rewrite ?lookup_insert_eq, ?drop_app_length; first [done | by left]).
  destruct p as [name|]; [| done]. simpl in *.
  eexists name, _, _. rewrite drop_app_length.
  split_and!; try done. by right.
Qed.

(** X20: with a fresh settings cache, when [cray_ipxe_build_with_cert]
    is false or missing no argument is added and nothing happens, clock
    readings apart; when it is true and the arguments are computed, the
    certificate was fetched once, [_cert_path] names a file that holds
    it, or a copy kept because it reads back as the certificate, and
    [CERT=] and [TRUST=] both carry the base name of that file. *)
Theorem cert_only_when_enabled (s : state) :
  fresh_cache s →
  let with_cert := setting s (Some "cray_ipxe_build_with_cert") PNone in
  let r := BinaryBuilder.cert_arguments s in
  (truthy with_cert = false → ∃ n, r = (Ok [], later n s))
  ∧ (truthy with_cert = true →
     ∀ args, r.1 = Ok args →
       ∃ name cert text,
         api_cert (env (os s)) = Ok cert
         ∧ _cert_path (self r.2) = Some name
         ∧ files (os r.2) !! name = Some text
         ∧ (text = cert ∨ universal_newlines text = cert)
         ∧ args = ["CERT=" +:+ basename name; "TRUST=" +:+ basename name]
         ∧ fetches (added (os s) (os r.2)) = [ACert]).
Proof.
  intros F with_cert r. subst r.
  unfold BinaryBuilder.cert_arguments, BinaryBuilder.build_with_certs.
  destruct (run_settings_get_fresh s (Some "cray_ipxe_build_with_cert") PNone F)
    as (n & Hn).
  rewrite (run_bind_ok _ _ _ _ _ Hn). fold with_cert.
  split.
  - intros ->. by exists n.
  - intros -> args. rewrite run_bind.
    destruct (BinaryBuilder.cert_path (later n s)) as [[p|e] s'] eqn:E; [| done].
    destruct (cert_path_materializes _ _ _ E)
      as (name & cert & text & -> & Ha & Hp & Hf & Ht & Hev).
    simpl. intros [= <-]. exists name, cert, text.
    split_and!; try done.
Qed.

Lemma cert_only_when_enabled_witness :
  let off := cached [] (seconds 100) names_x86 in
  let on := cached [] (seconds 100) {[ "cray_ipxe_build_with_cert" := PTrue ]} in
  (∃ n, BinaryBuilder.cert_arguments off = (Ok [], later n off))
  ∧ ∃ name text, _cert_path (self (BinaryBuilder.cert_arguments on).2) = Some name
       ∧ files (os (BinaryBuilder.cert_arguments on).2) !! name = Some text
       ∧ (text = "CERT" ∨ universal_newlines text = "CERT").
Proof.
  intros off on.
  assert (Foff : fresh_cache off).
  { split; [reflexivity |]. intros n. by destruct n. }
  assert (Fon : fresh_cache on).
  { split; [reflexivity |]. intros n. by destruct n. }
  destruct (cert_only_when_enabled off Foff) as [H1 _].
  destruct (cert_only_when_enabled on Fon) as [_ H2].
  split; [apply H1; reflexivity |].
  destruct (H2 eq_refl ["CERT=tmp0"; "TRUST=tmp0"])
    as (name & cert & text & Ha & Hp & Hf & Ht & _); [vm_compute; reflexivity |].
  exists name, text. split; [exact Hp |]. split; [exact Hf |].
  injection Ha as <-. exact Ht.
Defined.

(** ** Build directory, destinations and publication *)

Lemma run_arch_build_dir s :
  arch_inv (self s) →
  BinaryBuilder.arch_build_dir s =
    (Ok (arch_dir (cls (self s))),
     State (set_arch_build_dir (Some (arch_dir (cls (self s)))) (self s)) (os s)).
Proof.
  destruct s as [b w]. destruct b as [k]. simpl.
  intros [H | H]; simpl in H; subst; destruct k; reflexivity.
Qed.

Lemma run_built_binary_abs_path s :
  arch_inv (self s) →
  BinaryBuilder.built_binary_abs_path s =
    (Ok (built_binary (cls (self s))),
     State (set_arch_build_dir (Some (arch_dir (cls (self s)))) (self s)) (os s)).
Proof.
  intros H. unfold BinaryBuilder.built_binary_abs_path.
  rewrite (run_bind_ok _ _ _ _ _ (run_arch_build_dir s H)).
  by destruct (cls (self s)).
Qed.

(** What a computation keeps of the builder: [P] relates the builder
    before and after. *)
Section keeping.
Variable P : builder → builder → Prop.
Hypothesis P_refl : ∀ b, P b b.
Hypothesis P_trans : ∀ b1 b2 b3, P b1 b2 → P b2 b3 → P b1 b3.

Lemma preserves_ret {A} (a : A) : steps (preserves P) (mret a).
Proof. intros s. apply P_refl. Qed.

Lemma preserves_raise {A} e : steps (preserves P) (raise (A:=A) e).
Proof. intros s. apply P_refl. Qed.

Lemma preserves_attr {A} (f : builder → A) : steps (preserves P) (attr f).
Proof. intros s. apply P_refl. Qed.

Lemma preserves_lift {A} (m : M world A) : steps (preserves P) (lift m).
Proof. intros s. unfold lift, preserves. destruct (m (os s)). apply P_refl. Qed.

Lemma preserves_assign f : (∀ b, P b (f b)) → steps (preserves P) (assign f).
Proof. intros H s. apply H. Qed.

Lemma preserves_seq {A B} (m : M state A) (f : A → M state B) :
  steps (preserves P) m → (∀ a, steps (preserves P) (f a)) → steps (preserves P) (m ≫= f).
Proof. apply gsteps_bind. intros x y z. apply P_trans. Qed.

Lemma preserves_try {A} (m : M state A) h :
  steps (preserves P) m → (∀ e k, h e = Some k → steps (preserves P) k) →
  steps (preserves P) (try_except m h).
Proof.
  intros Hm Hh s. unfold try_except. specialize (Hm s).
  destruct (m s) as [[a|e] s1]; simpl in *; [done |].
  destruct (h e) as [k|] eqn:E; [| done].
  eapply P_trans; [exact Hm | by eapply Hh].
Qed.
End keeping.

Ltac keep_step :=
  first [ solve [apply preserves_ret; auto]
        | solve [apply preserves_raise; auto]
        | solve [apply preserves_attr; auto]
        | solve [apply preserves_lift; auto]
        | solve [apply preserves_assign; intros []; done]
        | apply preserves_seq; [solve [eauto] | | intros ?]
        | apply preserves_try; [solve [eauto] | | intros ? ? ?]
        | case_match
        | progress simplify_eq ].

Lemma same_dir_refl b : same_dir b b.
Proof. done. Qed.

Lemma same_dir_trans b1 b2 b3 : same_dir b1 b2 → same_dir b2 b3 → same_dir b1 b3.
Proof. intros [] []. split; congruence. Qed.

#[local] Hint Resolve same_dir_refl same_dir_trans : core.

Lemma dir_global_settings : steps (preserves same_dir) BinaryBuilder.global_settings.
Proof. unfold BinaryBuilder.global_settings. repeat keep_step. Qed.

Lemma dir_settings_get key dflt :
  steps (preserves same_dir) (BinaryBuilder.settings_get key dflt).
Proof.
  unfold BinaryBuilder.settings_get.
  apply preserves_seq; [solve [eauto] | apply dir_global_settings | intros ?].
  repeat keep_step.
Qed.

Lemma dir_cert_path : steps (preserves same_dir) BinaryBuilder.cert_path.
Proof. unfold BinaryBuilder.cert_path. repeat keep_step. Qed.

Lemma dir_configmap_name : steps (preserves same_dir) BinaryBuilder.configmap_name.
Proof.
  unfold BinaryBuilder.configmap_name, BinaryBuilder.X86Builder_configmap_name,
    BinaryBuilder.Arm64builder_configmap_name.
  repeat keep_step.
Qed.

Lemma dir_bss_script_path : steps (preserves same_dir) BinaryBuilder.bss_script_path.
Proof.
  unfold BinaryBuilder.bss_script_path.
  apply preserves_seq; [solve [eauto] | by apply preserves_attr | intros ?].
  apply preserves_seq; [solve [eauto] | by apply preserves_lift | intros ?].
  apply preserves_seq; [solve [eauto] | apply dir_configmap_name | intros ?].
  repeat keep_step.
Qed.

Lemma dir_bearer_token : steps (preserves same_dir) BinaryBuilder.bearer_token.
Proof.
  unfold BinaryBuilder.bearer_token, BinaryBuilder.token_min_remaining_valid_time,
    BinaryBuilder.cray_ipxe_token_host.
  apply preserves_seq; [solve [eauto] | by apply preserves_attr | intros ?].
  apply preserves_seq; [solve [eauto] | apply dir_settings_get | intros ?].
  apply preserves_seq; [solve [eauto] | by apply preserves_lift | intros ?].
  apply preserves_seq; [solve [eauto] | | intros ?]; [| by apply preserves_attr].
  case_match; [| by apply preserves_ret].
  apply preserves_seq; [solve [eauto] | apply dir_settings_get | intros ?].
  repeat keep_step.
Qed.

Lemma dir_s3_arguments : steps (preserves same_dir) BinaryBuilder.s3_arguments.
Proof. unfold BinaryBuilder.s3_arguments, BinaryBuilder.s3_host. repeat keep_step. Qed.

Lemma dir_cert_arguments : steps (preserves same_dir) BinaryBuilder.cert_arguments.
Proof.
  unfold BinaryBuilder.cert_arguments, BinaryBuilder.build_with_certs,
    BinaryBuilder.basename_of.
  apply preserves_seq; [solve [eauto] | apply dir_settings_get | intros ?].
  case_match; [| by apply preserves_ret].
  apply preserves_seq; [solve [eauto] | apply dir_cert_path | intros ?].
  repeat keep_step.
Qed.

(** What [build_command] keeps, when it ends well. *)
Lemma build_command_keeps_dir s command s' :
  arch_inv (self s) →
  BinaryBuilder.build_command s = (Ok command, s') →
  cls (self s') = cls (self s)
  ∧ _arch_build_dir (self s') = Some (arch_dir (cls (self s)))
  ∧ command !! 0%nat = Some "make"
  ∧ command !! 1%nat = Some (arch_dir (cls (self s)) +:+ "/ipxe.efi").
Proof.
  intros Hinv H. unfold BinaryBuilder.build_command in H.
  rewrite (run_bind_ok _ _ _ _ _ (run_arch_build_dir s Hinv)) in H.
  apply bind_ok_inv in H as (k & s2 & Hk & H).
  unfold attr, gets in Hk. simpl in Hk. injection Hk as <- <-.
  set (s1 := State _ (os s)) in H.
  apply bind_ok_inv in H as (certs & s3 & H3 & H).
  apply bind_ok_inv in H as (script & s4 & H4 & H).
  apply bind_ok_inv in H as (embed & s5 & H5 & H).
  apply bind_ok_inv in H as (s3h & s6 & H6 & H).
  apply bind_ok_inv in H as (token & s7 & H7 & H).
  unfold mret, M_ret in H. injection H as <- <-.
  pose proof (dir_cert_arguments s1) as K3. rewrite H3 in K3.
  pose proof (dir_bss_script_path s3) as K4. rewrite H4 in K4.
  assert (s5 = s4) as ->.
  { unfold BinaryBuilder.basename_of, mret, M_ret, raise in H5.
    destruct script; by simplify_eq. }
  pose proof (dir_s3_arguments s4) as K6. rewrite H6 in K6.
  pose proof (dir_bearer_token s6) as K7. rewrite H7 in K7.
  assert (K : same_dir (self s1) (self s7)).
  { unfold preserves in *. simpl in *.
    eapply same_dir_trans; [exact K3 |]. eapply same_dir_trans; [exact K4 |].
    eapply same_dir_trans; [exact K6 | exact K7]. }
  destruct K as [Kc Kd]. subst s1. simpl in Kc, Kd.
  split_and!; [| | done | done].
  - rewrite Kc. by destruct s as [[]].
  - rewrite Kd. by destruct s as [[]].
Qed.

(** X21: the binary that is published is the one [make] is asked for:
    when [build_command] ends well its first two arguments are [make]
    and a target, and [built_binary_abs_path], before and after, is that
    target under the build directory. *)
Theorem make_target_is_published (s : state) (command : list string) :
  arch_inv (self s) →
  (BinaryBuilder.build_command s).1 = Ok command →
  ∃ target,
    command !! 0%nat = Some "make"
    ∧ command !! 1%nat = Some target
    ∧ (BinaryBuilder.built_binary_abs_path s).1
      = Ok (IPXE_BUILD_DIR +:+ "/" +:+ target)
    ∧ (BinaryBuilder.built_binary_abs_path (exec BinaryBuilder.build_command s)).1
      = Ok (IPXE_BUILD_DIR +:+ "/" +:+ target).
Proof.
  intros Hinv H. unfold exec.
  destruct (BinaryBuilder.build_command s) as [r s'] eqn:E. simpl in *. subst r.
  destruct (build_command_keeps_dir s command s' Hinv E) as (Kc & Kd & H0 & H1).
  exists (arch_dir (cls (self s)) +:+ "/ipxe.efi").
  assert (Hinv' : arch_inv (self s')) by (right; by rewrite Kd, Kc).
  split_and!; [done | done | |].
  - rewrite (run_built_binary_abs_path s Hinv). simpl. unfold built_binary.
    by destruct (cls (self s)).
  - rewrite (run_built_binary_abs_path s' Hinv'). simpl. unfold built_binary.
    rewrite Kc. by destruct (cls (self s)).
Qed.

Lemma make_target_is_published_witness :
  let s := building [] in
  (BinaryBuilder.built_binary_abs_path (exec BinaryBuilder.build_command s)).1
  = Ok "/ipxe/bin-x86_64-efi/ipxe.efi".
Proof.
  intros s.
  assert (E : (BinaryBuilder.build_command s).1
              = Ok ["make"; "bin-x86_64-efi/ipxe.efi";
                    "DEBUG=httpcore,x509,efi_time"; "EMBED=tmp0";
                    "BEARER_TOKEN=tok"]) by (vm_compute; reflexivity).
  assert (Hinv : arch_inv (self s)) by (left; reflexivity).
  destruct (make_target_is_published s _ Hinv E) as (target & _ & H1 & _ & H2).
  injection H1 as <-. exact H2.
Defined.

(** How [destination_abs_path] runs from a fresh cache. *)
Lemma run_destination_fresh s :
  fresh_cache s →
  ∃ n, BinaryBuilder.destination_abs_path s =
         (match setting s (BINARY_NAME_TAG (cls (self s))) PNone with
          | PNone => Raise AssertionError
          | PInt _ => Raise TypeError
          | PStr name => Ok (path_join PUBLISHING_DIR name)
          end, later n s).
Proof.
  intros F. unfold BinaryBuilder.destination_abs_path, BinaryBuilder.binary_name.
  destruct (run_settings_get_fresh s (BINARY_NAME_TAG (cls (self s))) PNone F)
    as (n & Hn).
  exists n. rewrite run_bind, run_attr_bind, (run_bind_ok _ _ _ _ _ Hn).
  by destruct (setting s _ PNone).
Qed.

Lemma path_join_relative name :
  (∀ rest, name ≠ "/" +:+ rest) →
  path_join PUBLISHING_DIR name = PUBLISHING_DIR +:+ "/" +:+ name.
Proof.
  intros H. unfold path_join.
  destruct name as [| c rest]; [done |].
  destruct (Ascii.eqb_spec c "/"%char) as [-> | Hc]; [by destruct (H rest) |].
  destruct c as [[] [] [] [] [] [] [] []]; try done.
Qed.

(** X22: with a fresh settings cache, [destination_abs_path] raises
    [AssertionError] when the binary name is missing or [null] and
    [TypeError] when it is a number; a relative name is placed under the
    publishing directory, and an absolute name is the destination
    itself, outside of it. *)
Theorem destination_outcomes (s : state) :
  fresh_cache s →
  let name := setting s (BINARY_NAME_TAG (cls (self s))) PNone in
  let r := (BinaryBuilder.destination_abs_path s).1 in
  (name = PNone → r = Raise AssertionError)
  ∧ (∀ n, name = PInt n → r = Raise TypeError)
  ∧ (∀ rest, name = PStr ("/" +:+ rest) → r = Ok ("/" +:+ rest))
  ∧ (∀ file, name = PStr file → (∀ rest, file ≠ "/" +:+ rest) →
       r = Ok (PUBLISHING_DIR +:+ "/" +:+ file)).
Proof.
  intros F name r. subst r.
  destruct (run_destination_fresh s F) as (n & ->). fold name. simpl.
  split_and!.
  - by intros ->.
  - by intros k ->.
  - by intros rest ->.
  - intros file -> H. by rewrite path_join_relative.
Qed.

Lemma destination_outcomes_witness :
  let inside := cached [] (seconds 100) names_x86 in
  let outside := cached [] (seconds 100)
                   {[ "cray_ipxe_binary_name" := PStr "/etc/ipxe.efi" ]} in
  (BinaryBuilder.destination_abs_path inside).1 = Ok "/shared_tftp/ipxe.efi"
  ∧ (BinaryBuilder.destination_abs_path outside).1 = Ok "/etc/ipxe.efi".
Proof.
  intros inside outside.
  assert (Fi : fresh_cache inside).
  { split; [reflexivity |]. intros n. by destruct n. }
  assert (Fo : fresh_cache outside).
  { split; [reflexivity |]. intros n. by destruct n. }
  destruct (destination_outcomes inside Fi) as (_ & _ & _ & H1).
  destruct (destination_outcomes outside Fo) as (_ & _ & H2 & _).
  split.
  - apply (H1 "ipxe.efi"); [reflexivity |]. by intros rest.
  - apply (H2 "etc/ipxe.efi"). reflexivity.
Defined.

Lemma fresh_cache_dir d s :
  fresh_cache s → fresh_cache (State (set_arch_build_dir d (self s)) (os s)).
Proof. by destruct s as [[]]. Qed.

Lemma setting_dir d s key dflt :
  setting (State (set_arch_build_dir d (self s)) (os s)) key dflt
  = setting s key dflt.
Proof. by destruct s as [[]]. Qed.

Lemma fresh_cache_fields s s' :
  _global_settings (self s') = _global_settings (self s) →
  _global_settings_timestamp (self s') = _global_settings_timestamp (self s) →
  env (os s') = env (os s) →
  fresh_cache s → fresh_cache s'.
Proof. intros H1 H2 H3 [Hd Hc]. split; [by rewrite H1 | by rewrite H2, H3]. Qed.

(** X23: with a fresh settings cache and a binary name that is a plain
    file name, [publish_binary] moves the built binary to its
    destination in the publishing directory and logs it: the source is
    gone and the destination holds its content; without a built binary
    it raises [FileNotFoundError] and changes no file; so a second
    publication without a new build raises. *)
Theorem publish_moves_binary (s : state) (name : string) :
  fresh_cache s →
  arch_inv (self s) →
  setting s (BINARY_NAME_TAG (cls (self s))) PNone = PStr name →
  plain_name name = true →
  let src := built_binary (cls (self s)) in
  let dst := path_join PUBLISHING_DIR name in
  let r := BinaryBuilder.publish_binary s in
  (files (os s) !! src = None →
   r.1 = Raise FileNotFoundError ∧ files (os r.2) = files (os s)
   ∧ added (os s) (os r.2) = [])
  ∧ (∀ binary, files (os s) !! src = Some binary →
       r.1 = Ok ()
       ∧ files (os r.2) = <[dst := binary]> (delete src (files (os s)))
       ∧ added (os s) (os r.2)
         = [EvMove src dst; EvLog "INFO" "New ipxe binary has been published."]
       ∧ (src ≠ dst → (BinaryBuilder.publish_binary r.2).1 = Raise FileNotFoundError)).
Proof.
  intros F Hinv Hname _ src dst.
  assert (Hrun : ∀ t, fresh_cache t → arch_inv (self t) →
            setting t (BINARY_NAME_TAG (cls (self t))) PNone = PStr name →
            cls (self t) = cls (self s) →
            ∃ n t1, self t1 = set_arch_build_dir (Some (arch_dir (cls (self t)))) (self t)
              ∧ t1 = later n t1 ∧ os t1 = set_ticks n (os t)
              ∧ BinaryBuilder.publish_binary t =
                  match files (os t) !! src with
                  | Some binary =>
                      (Ok (), State (self t1)
                         (set_trace (trace (os t) ++
                            [EvMove src dst;
                             EvLog "INFO" "New ipxe binary has been published."])
                            (set_files (<[dst := binary]> (delete src (files (os t))))
                               (os t1))))
                  | None => (Raise FileNotFoundError, t1)
                  end).
  { intros t Ft It Nt Ct. unfold BinaryBuilder.publish_binary.
    rewrite (run_bind_ok _ _ _ _ _ (run_built_binary_abs_path t It)).
    set (t0 := State _ (os t)).
    destruct (run_destination_fresh t0 (fresh_cache_dir _ t Ft)) as (n & Hd).
    assert (cls (self t0) = cls (self t)) as Ec by (by destruct t as [[]]).
    rewrite Ec in Hd. unfold t0 in Hd at 2. rewrite setting_dir, Nt in Hd.
    rewrite (run_bind_ok _ _ _ _ _ Hd).
    exists n, (later n t0). split_and!; [done | done | done |].
    rewrite Ct. fold src dst.
    rewrite run_lift_bind. unfold move.
    cbv [mbind M_bind gets emit modify lift log mret M_ret raise]. simpl.
    destruct (files (os t) !! src) as [binary|]; simpl; [| done].
    by rewrite <- app_assoc. }
  intros r. subst r.
  destruct (Hrun s F Hinv Hname eq_refl) as (n & s1 & Hs1 & _ & Ho1 & ->).
  split.
  - intros ->. simpl. rewrite Ho1. unfold added. simpl. by rewrite drop_all.
  - intros binary ->. simpl. rewrite Ho1. unfold added. simpl.
    rewrite drop_app_length. split_and!; [done | done | done |].
    intros Hne.
    set (t := State (self s1) _).
    assert (Ct : cls (self t) = cls (self s)).
    { subst t. simpl. rewrite Hs1. by destruct s as [[]]. }
    destruct (Hrun t) as (n' & t1 & _ & _ & _ & ->).
    + apply (fresh_cache_fields s); [| | | done]; subst t; simpl.
      * rewrite Hs1. by destruct s as [[]].
      * rewrite Hs1. by destruct s as [[]].
      * done.
    + right. subst t. simpl. rewrite Hs1. by destruct s as [[]].
    + rewrite Ct. rewrite <- Hname. subst t. unfold setting. simpl. rewrite Hs1.
      by destruct s as [[]].
    + done.
    + subst t. simpl. rewrite lookup_insert_ne by done.
      by rewrite lookup_delete_eq.
Qed.

Lemma publish_moves_binary_witness :
  let s := State (self (cached [] (seconds 100) names_x86))
             (set_files {[ "/ipxe/bin-x86_64-efi/ipxe.efi" := "ipxe" ]}
                (os (cached [] (seconds 100) names_x86))) in
  let r := BinaryBuilder.publish_binary s in
  r.1 = Ok ()
  ∧ files (os r.2) !! "/shared_tftp/ipxe.efi" = Some "ipxe"
  ∧ (BinaryBuilder.publish_binary r.2).1 = Raise FileNotFoundError.
Proof.
  intros s r. subst r.
  assert (F : fresh_cache s).
  { split; [reflexivity |]. intros n. by destruct n. }
  destruct (publish_moves_binary s "ipxe.efi" F) as [_ H];
    [by left | reflexivity | reflexivity |].
  destruct (H "ipxe") as (H1 & H2 & _ & H4); [reflexivity |].
  split; [exact H1 |]. split.
  - rewrite H2. apply lookup_insert_eq.
  - apply H4. discriminate.
Defined.

(** ** Carriage returns *)




